(** * processout-go: the generated API bindings, embedded and verified

    The four source files (invoice.go, refund.go and the two files holding
    the TailoredInvoices and Transactions bindings) are generated code: each
    method picks the call options, marshals a body, builds a request, sets
    headers, sends the request, decodes the envelope and branches on its
    [success] flag.  The embedding below keeps one Rocq function per Go
    method, written in a small monad that carries the two effects the
    methods have: panicking, and issuing requests through the transport.

    The Go standard library pieces the methods call ([url.QueryEscape],
    [json.Marshal], [json.Decoder.Decode], [http.Header.Set],
    [Request.SetBasicAuth]) are modelled in the first part of the file. *)

From Stdlib Require Import ZArith Ascii String List Lia DecimalString.
From stdpp Require Import base strings gmap list sorting.

Local Open Scope string_scope.
Local Open Scope Z_scope.
#[local] Set Warnings "-register-all".

(* ===================================================================== *)
(** ** Bytes *)
(* ===================================================================== *)

Module Bytes.

Definition val (c : ascii) : Z := Z.of_N (N_of_ascii c).
Definition chr (z : Z) : ascii := ascii_of_N (Z.to_N z).

Definition between (lo hi : Z) (c : ascii) : bool :=
  (lo <=? val c) && (val c <=? hi).

Definition is_lower (c : ascii) : bool := between 97 122 c.
Definition is_upper (c : ascii) : bool := between 65 90 c.
Definition is_digit (c : ascii) : bool := between 48 57 c.
Definition is_alnum (c : ascii) : bool := is_lower c || is_upper c || is_digit c.

Definition eqb (a b : ascii) : bool := Ascii.eqb a b.

Fixpoint mem (c : ascii) (s : string) : bool :=
  match s with
  | EmptyString => false
  | String d s' => eqb c d || mem c s'
  end.

(** [s[n]], with a filler outside the string *)
Fixpoint index (s : string) (n : nat) : ascii :=
  match s, n with
  | EmptyString, _ => "?"%char
  | String c _, O => c
  | String _ s', S k => index s' k
  end.

Fixpoint all (p : ascii -> bool) (s : string) : bool :=
  match s with
  | EmptyString => true
  | String c s' => p c && all p s'
  end.

Fixpoint join (sep : string) (l : list string) : string :=
  match l with
  | [] => ""
  | [x] => x
  | x :: l' => x +:+ sep +:+ join sep l'
  end.

End Bytes.

(* ===================================================================== *)
(** ** net/url: QueryEscape *)
(* ===================================================================== *)

Module url.

Definition upperhex : string := "0123456789ABCDEF".

(** [shouldEscape(c, encodeQueryComponent)]: alphanumerics and the four
    unreserved marks are kept, the reserved characters and everything
    else are escaped. *)
Definition shouldEscape (c : ascii) : bool :=
  if Bytes.is_alnum c then false
  else if Bytes.mem c "-_.~" then false
  else true.

Definition hex2 (c : ascii) : string :=
  String "%"
    (String (Bytes.index upperhex (Z.to_nat (Z.shiftr (Bytes.val c) 4)))
       (String (Bytes.index upperhex (Z.to_nat (Z.land (Bytes.val c) 15)))
          "")).

(** [escape(s, encodeQueryComponent)] *)
Fixpoint escape (s : string) : string :=
  match s with
  | EmptyString => ""
  | String c s' =>
      if Bytes.eqb c " " then String "+" (escape s')
      else if shouldEscape c then hex2 c +:+ escape s'
      else String c (escape s')
  end.

Definition QueryEscape (s : string) : string := escape s.

End url.

(* ===================================================================== *)
(** ** encoding/base64: StdEncoding.EncodeToString *)
(* ===================================================================== *)

Module base64.

Definition encodeStd : string :=
  "ABCDEFGHIJKLMNOPQRSTUVWXYZabcdefghijklmnopqrstuvwxyz0123456789+/".

Definition enc (v : Z) : ascii :=
  Bytes.index encodeStd (Z.to_nat (Z.land v 63)).

Fixpoint EncodeToString (s : string) : string :=
  match s with
  | EmptyString => ""
  | String a EmptyString =>
      let v := Z.shiftl (Bytes.val a) 16 in
      String (enc (Z.shiftr v 18)) (String (enc (Z.shiftr v 12)) "==")
  | String a (String b EmptyString) =>
      let v := Z.lor (Z.shiftl (Bytes.val a) 16) (Z.shiftl (Bytes.val b) 8) in
      String (enc (Z.shiftr v 18))
        (String (enc (Z.shiftr v 12)) (String (enc (Z.shiftr v 6)) "="))
  | String a (String b (String c rest)) =>
      let v := Z.lor (Z.lor (Z.shiftl (Bytes.val a) 16)
                            (Z.shiftl (Bytes.val b) 8)) (Bytes.val c) in
      String (enc (Z.shiftr v 18))
        (String (enc (Z.shiftr v 12))
           (String (enc (Z.shiftr v 6))
              (String (enc v) (EncodeToString rest))))
  end.

End base64.

(* ===================================================================== *)
(** ** unicode/utf8 *)
(* ===================================================================== *)

Module utf8.

Definition RuneError : Z := 65533.
Definition RuneSelf : Z := 128.

Definition cont (lo hi : Z) (c : ascii) : bool := Bytes.between lo hi c.
Definition low6 (c : ascii) : Z := Z.land (Bytes.val c) 63.

(** [DecodeRuneInString]: the first rune of [s] and its width in bytes;
    [(RuneError, 1)] on an invalid or truncated encoding, [(RuneError, 0)]
    on the empty string. *)
Definition DecodeRuneInString (s : string) : Z * nat :=
  match s with
  | EmptyString => (RuneError, 0%nat)
  | String c0 s1 =>
      let b0 := Bytes.val c0 in
      if b0 <? 128 then (b0, 1%nat)
      else if (194 <=? b0) && (b0 <=? 223) then
        match s1 with
        | String c1 _ =>
            if cont 128 191 c1
            then (Z.lor (Z.shiftl (Z.land b0 31) 6) (low6 c1), 2%nat)
            else (RuneError, 1%nat)
        | _ => (RuneError, 1%nat)
        end
      else if (224 <=? b0) && (b0 <=? 239) then
        match s1 with
        | String c1 (String c2 _) =>
            let lo := if b0 =? 224 then 160 else 128 in
            let hi := if b0 =? 237 then 159 else 191 in
            if cont lo hi c1 && cont 128 191 c2
            then (Z.lor (Z.lor (Z.shiftl (Z.land b0 15) 12)
                               (Z.shiftl (low6 c1) 6)) (low6 c2), 3%nat)
            else (RuneError, 1%nat)
        | _ => (RuneError, 1%nat)
        end
      else if (240 <=? b0) && (b0 <=? 244) then
        match s1 with
        | String c1 (String c2 (String c3 _)) =>
            let lo := if b0 =? 240 then 144 else 128 in
            let hi := if b0 =? 244 then 143 else 191 in
            if cont lo hi c1 && cont 128 191 c2 && cont 128 191 c3
            then (Z.lor (Z.lor (Z.lor (Z.shiftl (Z.land b0 7) 18)
                                      (Z.shiftl (low6 c1) 12))
                               (Z.shiftl (low6 c2) 6)) (low6 c3), 4%nat)
            else (RuneError, 1%nat)
        | _ => (RuneError, 1%nat)
        end
      else (RuneError, 1%nat)
  end.

(** [EncodeRune] as a string; surrogates and out-of-range runes are
    written as [RuneError]. *)
Definition EncodeRune (r : Z) : string :=
  let r := if (r <? 0) || (1114111 <? r) || ((55296 <=? r) && (r <=? 57343))
           then RuneError else r in
  if r <? 128 then String (Bytes.chr r) ""
  else if r <? 2048 then
    String (Bytes.chr (Z.lor 192 (Z.shiftr r 6)))
      (String (Bytes.chr (Z.lor 128 (Z.land r 63))) "")
  else if r <? 65536 then
    String (Bytes.chr (Z.lor 224 (Z.shiftr r 12)))
      (String (Bytes.chr (Z.lor 128 (Z.land (Z.shiftr r 6) 63)))
         (String (Bytes.chr (Z.lor 128 (Z.land r 63))) ""))
  else
    String (Bytes.chr (Z.lor 240 (Z.shiftr r 18)))
      (String (Bytes.chr (Z.lor 128 (Z.land (Z.shiftr r 12) 63)))
         (String (Bytes.chr (Z.lor 128 (Z.land (Z.shiftr r 6) 63)))
            (String (Bytes.chr (Z.lor 128 (Z.land r 63))) ""))).

End utf8.

(* ===================================================================== *)
(** ** Go errors *)
(* ===================================================================== *)

(** The [error] values that reach the bindings.  [errorString] is what
    [errors.New] of the standard library builds; the others are the errors
    of [encoding/json], [io], [time], [net/url] and of the transport. *)
Inductive error : Type :=
| errorString (msg : string)
| SyntaxError (msg : string)
| UnmarshalTypeError (value : string) (type : string)
| ErrUnexpectedEOF
| EOF
| ParseError (value : string)
| url_Error (op : string) (URL : string)
| net_Error (msg : string).

Definition error_Error (e : error) : string :=
  match e with
  | errorString msg => msg
  | SyntaxError msg => msg
  | UnmarshalTypeError v t =>
      "json: cannot unmarshal " +:+ v +:+ " into Go value of type " +:+ t
  | ErrUnexpectedEOF => "unexpected EOF"
  | EOF => "EOF"
  | ParseError v => "parsing time " +:+ v
  | url_Error op u => op +:+ " " +:+ u
  | net_Error msg => msg
  end.

(** The double quote character, and string literals written with an
    apostrophe wherever the text has a double quote. *)
Definition dquote : ascii := Bytes.chr 34.

Fixpoint quoted (s : string) : string :=
  match s with
  | EmptyString => ""
  | String c s' => String (if Bytes.eqb c "'" then dquote else c) (quoted s')
  end.

(* ===================================================================== *)
(** ** net/http: headers, requests, responses *)
(* ===================================================================== *)

Module http.

Definition validHeaderFieldByte (c : ascii) : bool :=
  Bytes.is_alnum c || Bytes.mem c "!#$%&'*+-.^_`|~".

(** the loop of [canonicalMIMEHeaderKey]: upper case at the start and
    after each [-], lower case elsewhere *)
Fixpoint canonical (upper : bool) (s : string) : string :=
  match s with
  | EmptyString => ""
  | String c s' =>
      let c' :=
        if upper && Bytes.is_lower c then Bytes.chr (Bytes.val c - 32)
        else if negb upper && Bytes.is_upper c then Bytes.chr (Bytes.val c + 32)
        else c in
      String c' (canonical (Bytes.eqb c' "-") s')
  end.

Definition CanonicalMIMEHeaderKey (s : string) : string :=
  if Bytes.all validHeaderFieldByte s then canonical true s else s.

(** [http.Header] is [map[string][]string]. *)
Definition Header_Set (key value : string) (h : gmap string (list string))
  : gmap string (list string) :=
  <[CanonicalMIMEHeaderKey key := [value]]> h.

Definition Header_Get (key : string) (h : gmap string (list string)) : string :=
  match h !! CanonicalMIMEHeaderKey key with
  | Some (v :: _) => v
  | _ => ""
  end.

Record Request : Type := mkRequest {
  Method : string;
  URL : string;
  Header : gmap string (list string);
  Body : string
}.

Definition set_Header (f : gmap string (list string) -> gmap string (list string))
  (r : Request) : Request :=
  mkRequest (Method r) (URL r) (f (Header r)) (Body r).

Definition validMethod (m : string) : bool :=
  negb (String.eqb m "") && Bytes.all validHeaderFieldByte m.

(** [http.NewRequest]: fails on an invalid method or when the URL does
    not parse; [parse_ok] stands for [url.Parse] succeeding. *)
Definition NewRequest (parse_ok : string -> bool)
  (method urlStr body : string) : error + Request :=
  if negb (validMethod method)
  then inl (errorString ("net/http: invalid method " +:+ method))
  else if negb (parse_ok urlStr) then inl (url_Error "parse" urlStr)
  else inr (mkRequest method urlStr ∅ body).

Definition basicAuth (username password : string) : string :=
  base64.EncodeToString (username +:+ ":" +:+ password).

Definition SetBasicAuth (username password : string) (r : Request) : Request :=
  set_Header (Header_Set "Authorization"
                ("Basic " +:+ basicAuth username password)) r.

Record Response : Type := mkResponse {
  StatusCode : Z;
  RespBody : string
}.

End http.

(* ===================================================================== *)
(** ** encoding/json: Marshal *)
(* ===================================================================== *)

Module json.

Definition hex : string := "0123456789abcdef".
Definition hexdigit (n : Z) : ascii := Bytes.index hex (Z.to_nat (Z.land n 15)).

(** [htmlSafeSet]: printable ASCII without the quote, the backslash and
    the three HTML characters *)
Definition htmlSafe (c : ascii) : bool :=
  Bytes.between 32 127 c
  && negb (Bytes.eqb c dquote) && negb (Bytes.mem c "\&<>").

(** the body of [encodeState.string] with [escapeHTML] set; [skip] bytes
    of an accepted multi-byte rune are still to be passed, copied when
    [keep] holds *)
Fixpoint string_body (skip : nat) (keep : bool) (s : string) : string :=
  match s with
  | EmptyString => ""
  | String c s' =>
      match skip with
      | S k => if keep then String c (string_body k keep s')
               else string_body k keep s'
      | O =>
          if Bytes.val c <? utf8.RuneSelf then
            if htmlSafe c then String c (string_body 0 true s')
            else if Bytes.eqb c "\" || Bytes.eqb c dquote
            then String "\" (String c (string_body 0 true s'))
            else if Bytes.val c =? 10 then "\n" +:+ string_body 0 true s'
            else if Bytes.val c =? 13 then "\r" +:+ string_body 0 true s'
            else if Bytes.val c =? 9 then "\t" +:+ string_body 0 true s'
            else "\u00" +:+ String (hexdigit (Z.shiftr (Bytes.val c) 4))
                   (String (hexdigit (Bytes.val c)) (string_body 0 true s'))
          else
            let '(r, size) := utf8.DecodeRuneInString s in
            if (r =? utf8.RuneError) && Nat.eqb size 1
            then "\ufffd" +:+ string_body 0 true s'
            else if (r =? 8232) || (r =? 8233)
            then "\u202" +:+ String (hexdigit r) (string_body (size - 1) false s')
            else String c (string_body (size - 1) true s')
      end
  end.

Definition encode_string (s : string) : string :=
  String dquote (string_body 0 true s) +:+ String dquote "".

(** The values the bindings put in a body: what an [interface{}] of the
    body map can hold.  [None] is the nil slice or the nil map. *)
Inductive govalue : Type :=
| VString (s : string)
| VBool (b : bool)
| VUint64 (n : N)
| VStrings (l : option (list string))
| VStringMap (m : option (gmap string string)).

Definition key_le {A} (x y : string * A) : Prop := String.leb x.1 y.1.

Definition sorted_entries {A} (m : gmap string A) : list (string * A) :=
  merge_sort key_le (map_to_list m).

Definition encode_object (l : list (string * string)) : string :=
  "{" +:+ Bytes.join ","
            (map (fun kv => encode_string kv.1 +:+ ":" +:+ kv.2) l) +:+ "}".

Definition encode_value (v : govalue) : string :=
  match v with
  | VString s => encode_string s
  | VBool b => if b then "true" else "false"
  | VUint64 n => NilZero.string_of_uint (N.to_uint n)
  | VStrings None => "null"
  | VStrings (Some l) => "[" +:+ Bytes.join "," (map encode_string l) +:+ "]"
  | VStringMap None => "null"
  | VStringMap (Some m) =>
      encode_object (map (fun kv => (kv.1, encode_string kv.2)) (sorted_entries m))
  end.

(** [json.Marshal] of a [map[string]interface{}]: keys in sorted order.
    None of the value kinds above can make it fail. *)
Definition encode (m : gmap string govalue) : string :=
  encode_object (map (fun kv => (kv.1, encode_value kv.2)) (sorted_entries m)).

Definition Marshal (m : gmap string govalue) : error + string := inr (encode m).

(* ------------------------------------------------------------------- *)
(** *** Decoder: the scanner *)

(** A parsed JSON text.  Object members keep their order and their
    duplicates; numbers keep their literal. *)
Inductive value : Type :=
| Null
| Bool (b : bool)
| Number (lit : string)
| Str (s : string)
| Array (items : list value)
| Object (members : list (string * value)).

Inductive frame : Type :=
| FArray (items : list value)
| FObject (members : list (string * value)) (key : option string).

(** inside a string literal *)
Inductive strmode : Type :=
| SPlain
| SEscape
| SHex (todo : nat) (v : Z)
| SSkip (todo : nat).

(** inside a number literal *)
Inductive nummode : Type :=
| NMinus | NZero | NInt | NDot | NFrac | NE | NESign | NExp.

Inductive mode : Type :=
| MValue
| MArrayStart
| MObjectStart
| MObjectKey
| MColon
| MAfterValue
| MString (iskey : bool) (sm : strmode) (pend : option Z) (acc : string)
| MNumber (nm : nummode) (acc : string)
| MLiteral (rest : string) (v : value)
| MDone (v : value).

Definition state : Type := list frame * mode.

Definition isSpace (c : ascii) : bool :=
  (Bytes.val c =? 32) || (Bytes.val c =? 9) || (Bytes.val c =? 13) || (Bytes.val c =? 10).

Definition invalid (c : ascii) (context : string) : error :=
  SyntaxError ("invalid character " +:+ String c "" +:+ " " +:+ context).

(** a value ended: hand it to the enclosing container *)
Definition complete (stk : list frame) (v : value) : error + state :=
  match stk with
  | [] => inr ([], MDone v)
  | FArray items :: stk' => inr (FArray (items ++ [v]) :: stk', MAfterValue)
  | FObject members (Some k) :: stk' =>
      inr (FObject (members ++ [(k, v)]) None :: stk', MAfterValue)
  | FObject _ None :: _ => inl (SyntaxError "value without a key")
  end.

Definition completeString (iskey : bool) (stk : list frame) (s : string)
  : error + state :=
  if iskey then
    match stk with
    | FObject members _ :: stk' => inr (FObject members (Some s) :: stk', MColon)
    | _ => inl (SyntaxError "key outside an object")
    end
  else complete stk (Str s).

Definition beginValue (stk : list frame) (c : ascii) : error + state :=
  if Bytes.eqb c "{" then inr (FObject [] None :: stk, MObjectStart)
  else if Bytes.eqb c "[" then inr (FArray [] :: stk, MArrayStart)
  else if Bytes.eqb c dquote then inr (stk, MString false SPlain None "")
  else if Bytes.eqb c "-" then inr (stk, MNumber NMinus "-")
  else if Bytes.eqb c "0" then inr (stk, MNumber NZero "0")
  else if Bytes.is_digit c then inr (stk, MNumber NInt (String c ""))
  else if Bytes.eqb c "t" then inr (stk, MLiteral "rue" (Bool true))
  else if Bytes.eqb c "f" then inr (stk, MLiteral "alse" (Bool false))
  else if Bytes.eqb c "n" then inr (stk, MLiteral "ull" Null)
  else inl (invalid c "looking for beginning of value").

Definition closeFrame (stk : list frame) : error + state :=
  match stk with
  | FArray items :: stk' => complete stk' (Array items)
  | FObject members _ :: stk' => complete stk' (Object members)
  | [] => inl (SyntaxError "unbalanced bracket")
  end.

Definition hexval (c : ascii) : option Z :=
  if Bytes.is_digit c then Some (Bytes.val c - 48)
  else if Bytes.between 97 102 c then Some (Bytes.val c - 87)
  else if Bytes.between 65 70 c then Some (Bytes.val c - 55)
  else None.

Definition isSurrogate (r : Z) : bool := (55296 <=? r) && (r <? 57344).

(** [utf16.DecodeRune] on a pair that may not be one *)
Definition surrogatePair (r1 r2 : Z) : option Z :=
  if (55296 <=? r1) && (r1 <? 56320) && (56320 <=? r2) && (r2 <? 57344)
  then Some (Z.lor (Z.shiftl (r1 - 55296) 10) (r2 - 56320) + 65536)
  else None.

(** a surrogate escape left without its pair becomes the replacement rune *)
Definition flush (pend : option Z) : string :=
  match pend with
  | Some _ => utf8.EncodeRune utf8.RuneError
  | None => ""
  end.

(** one byte of a string literal; [s] is the text from this byte on *)
Definition stepString (stk : list frame) (iskey : bool) (sm : strmode)
  (pend : option Z) (acc : string) (s : string) (c : ascii) : error + state :=
  match sm with
  | SSkip (S k) => inr (stk, MString iskey (SSkip k) pend acc)
  | SSkip O | SPlain =>
      if Bytes.eqb c dquote then completeString iskey stk (acc +:+ flush pend)
      else if Bytes.eqb c "\" then inr (stk, MString iskey SEscape pend acc)
      else if Bytes.val c <? 32 then inl (invalid c "in string literal")
      else if Bytes.val c <? utf8.RuneSelf
      then inr (stk, MString iskey SPlain None (acc +:+ flush pend +:+ String c ""))
      else
        let '(r, size) := utf8.DecodeRuneInString s in
        inr (stk, MString iskey (SSkip (size - 1)) None
                    (acc +:+ flush pend +:+ utf8.EncodeRune r))
  | SEscape =>
      let plain (d : Z) :=
        inr (stk, MString iskey SPlain None
                    (acc +:+ flush pend +:+ String (Bytes.chr d) "")) in
      if Bytes.eqb c "u" then inr (stk, MString iskey (SHex 4 0) pend acc)
      else if Bytes.eqb c dquote || Bytes.eqb c "\" || Bytes.eqb c "/"
      then plain (Bytes.val c)
      else if Bytes.eqb c "b" then plain 8
      else if Bytes.eqb c "f" then plain 12
      else if Bytes.eqb c "n" then plain 10
      else if Bytes.eqb c "r" then plain 13
      else if Bytes.eqb c "t" then plain 9
      else inl (invalid c "in string escape code")
  | SHex todo v =>
      match hexval c with
      | None => inl (invalid c "in \u hexadecimal character escape")
      | Some d =>
          let v' := Z.lor (Z.shiftl v 4) d in
          match todo with
          | S (S k) => inr (stk, MString iskey (SHex (S k) v') pend acc)
          | _ =>
              match pend with
              | Some hi =>
                  match surrogatePair hi v' with
                  | Some r =>
                      inr (stk, MString iskey SPlain None (acc +:+ utf8.EncodeRune r))
                  | None =>
                      if isSurrogate v'
                      then inr (stk, MString iskey SPlain (Some v') (acc +:+ flush pend))
                      else inr (stk, MString iskey SPlain None
                                       (acc +:+ flush pend +:+ utf8.EncodeRune v'))
                  end
              | None =>
                  if isSurrogate v'
                  then inr (stk, MString iskey SPlain (Some v') acc)
                  else inr (stk, MString iskey SPlain None (acc +:+ utf8.EncodeRune v'))
              end
          end
      end
  end.

(** the number automaton: the next state while [c] continues the literal *)
Definition stepNumber (nm : nummode) (c : ascii) : option nummode :=
  let digit := Bytes.is_digit c in
  let e := Bytes.eqb c "e" || Bytes.eqb c "E" in
  match nm with
  | NMinus => if Bytes.eqb c "0" then Some NZero else if digit then Some NInt else None
  | NZero => if Bytes.eqb c "." then Some NDot else if e then Some NE else None
  | NInt => if digit then Some NInt else if Bytes.eqb c "." then Some NDot
            else if e then Some NE else None
  | NDot => if digit then Some NFrac else None
  | NFrac => if digit then Some NFrac else if e then Some NE else None
  | NE => if Bytes.eqb c "+" || Bytes.eqb c "-" then Some NESign
          else if digit then Some NExp else None
  | NESign => if digit then Some NExp else None
  | NExp => if digit then Some NExp else None
  end.

Definition numberEnds (nm : nummode) : bool :=
  match nm with
  | NZero | NInt | NFrac | NExp => true
  | _ => false
  end.

(** one byte in any mode but the number's *)
Definition stepPlain (st : state) (s : string) (c : ascii) : error + state :=
  let '(stk, m) := st in
  match m with
  | MDone v => inr st
  | MString iskey sm pend acc => stepString stk iskey sm pend acc s c
  | MLiteral rest v =>
      match rest with
      | String d rest' =>
          if Bytes.eqb c d
          then match rest' with
               | EmptyString => complete stk v
               | _ => inr (stk, MLiteral rest' v)
               end
          else inl (invalid c "in literal")
      | EmptyString => inl (invalid c "in literal")
      end
  | MNumber _ _ => inl (invalid c "in numeric literal")
  | MValue => if isSpace c then inr st else beginValue stk c
  | MArrayStart =>
      if isSpace c then inr st
      else if Bytes.eqb c "]" then closeFrame stk
      else beginValue stk c
  | MObjectStart =>
      if isSpace c then inr st
      else if Bytes.eqb c "}" then closeFrame stk
      else if Bytes.eqb c dquote then inr (stk, MString true SPlain None "")
      else inl (invalid c "looking for beginning of object key string")
  | MObjectKey =>
      if isSpace c then inr st
      else if Bytes.eqb c dquote then inr (stk, MString true SPlain None "")
      else inl (invalid c "looking for beginning of object key string")
  | MColon =>
      if isSpace c then inr st
      else if Bytes.eqb c ":" then inr (stk, MValue)
      else inl (invalid c "after object key")
  | MAfterValue =>
      if isSpace c then inr st
      else match stk with
           | FArray _ :: _ =>
               if Bytes.eqb c "," then inr (stk, MValue)
               else if Bytes.eqb c "]" then closeFrame stk
               else inl (invalid c "after array element")
           | FObject _ _ :: _ =>
               if Bytes.eqb c "," then inr (stk, MObjectKey)
               else if Bytes.eqb c "}" then closeFrame stk
               else inl (invalid c "after object key:value pair")
           | [] => inl (invalid c "after top-level value")
           end
  end.

Definition step (st : state) (s : string) (c : ascii) : error + state :=
  match st with
  | (stk, MNumber nm acc) =>
      match stepNumber nm c with
      | Some nm' => inr (stk, MNumber nm' (acc +:+ String c ""))
      | None =>
          if numberEnds nm
          then match complete stk (Number acc) with
               | inr st' => stepPlain st' s c
               | inl e => inl e
               end
          else inl (invalid c "in numeric literal")
      end
  | _ => stepPlain st s c
  end.

Fixpoint scan (st : state) (s : string) : error + state :=
  match s with
  | EmptyString => inr st
  | String c s' =>
      match step st s c with
      | inr st' => scan st' s'
      | inl e => inl e
      end
  end.

(** [Decoder.Decode], first half: the first JSON value of the stream.
    What follows that value is not looked at. *)
Definition readValue (body : string) : error + value :=
  match scan ([], MValue) body with
  | inl e => inl e
  | inr ([], MDone v) => inr v
  | inr ([], MNumber nm acc) =>
      if numberEnds nm then inr (Number acc) else inl ErrUnexpectedEOF
  | inr ([], MValue) => inl EOF
  | inr _ => inl ErrUnexpectedEOF
  end.

End json.

(* ===================================================================== *)
(** ** encoding/json: storing a parsed value into Go data *)
(* ===================================================================== *)

(** The decoder saves the first type mismatch and goes on; the error of an
    [Unmarshaler] (here [time.Time]) stops it at once and wins. *)
Module unmarshal.

Definition D (A : Type) : Type := error + (A * option error).

Definition first (s1 s2 : option error) : option error :=
  match s1 with Some _ => s1 | None => s2 end.

#[export] Instance D_ret : MRet D := fun A a => inr (a, None).
#[export] Instance D_bind : MBind D := fun A B f m =>
  match m with
  | inl e => inl e
  | inr (a, s1) =>
      match f a with
      | inl e => inl e
      | inr (b, s2) => inr (b, first s1 s2)
      end
  end.

Definition saveError (e : error) : D unit := inr (tt, Some e).

Definition abort {A} (e : error) : D A := inl e.

(** [d.unmarshal]: the hard error, else the saved one, else the value *)
Definition run {A} (m : D A) : error + A :=
  match m with
  | inl e => inl e
  | inr (_, Some e) => inl e
  | inr (a, None) => inr a
  end.

Definition kind (v : json.value) : string :=
  match v with
  | json.Null => "null"
  | json.Bool _ => "bool"
  | json.Number _ => "number"
  | json.Str _ => "string"
  | json.Array _ => "array"
  | json.Object _ => "object"
  end.

Definition mismatch {A} (v : json.value) (type : string) (keep : A) : D A :=
  _ ← saveError (UnmarshalTypeError (kind v) type); mret keep.

Definition string_ (v : json.value) (old : string) : D string :=
  match v with
  | json.Str s => mret s
  | json.Null => mret old
  | _ => mismatch v "string" old
  end.

Definition bool_ (v : json.value) (old : bool) : D bool :=
  match v with
  | json.Bool b => mret b
  | json.Null => mret old
  | _ => mismatch v "bool" old
  end.

(** [time.Time] is kept as its RFC 3339 text; [parse_ok] stands for
    [time.Parse] accepting it. *)
Definition time_ (parse_ok : string -> bool) (v : json.value) (old : string)
  : D string :=
  match v with
  | json.Null => mret old
  | json.Str s => if parse_ok s then mret s else abort (ParseError s)
  | _ => abort (errorString "Time.UnmarshalJSON: input is not a JSON string")
  end.

Fixpoint members {A} (field : string -> json.value -> A -> D A)
  (l : list (string * json.value)) (x : A) : D A :=
  match l with
  | [] => mret x
  | (k, v) :: l' => x' ← field k v x; members field l' x'
  end.

(** a struct held by value *)
Definition struct_ {A} (type : string)
  (field : string -> json.value -> A -> D A) (v : json.value) (old : A) : D A :=
  match v with
  | json.Object l => members field l old
  | json.Null => mret old
  | _ => mismatch v type old
  end.

(** a pointer to a struct: [null] stores nil, an object is stored into
    the pointee, allocated when the pointer was nil *)
Definition pointer_ {A} (type : string) (zero : A)
  (field : string -> json.value -> A -> D A) (v : json.value) (old : option A)
  : D (option A) :=
  match v with
  | json.Null => mret None
  | json.Object l => x ← members field l (default zero old); mret (Some x)
  | _ => mismatch v type (Some (default zero old))
  end.

Fixpoint elements {A} (elem : json.value -> A -> D A) (zero : A)
  (l : list json.value) (old : list A) : D (list A) :=
  match l with
  | [] => mret []
  | v :: l' =>
      x ← elem v (hd zero old);
      xs ← elements elem zero l' (tl old);
      mret (x :: xs)
  end.

(** a slice: [null] stores the nil slice, an array is stored element by
    element over what the slice already holds *)
Definition slice_ {A} (type : string) (elem : json.value -> A -> D A) (zero : A)
  (v : json.value) (old : option (list A)) : D (option (list A)) :=
  match v with
  | json.Null => mret None
  | json.Array l => xs ← elements elem zero l (default [] old); mret (Some xs)
  | _ => mismatch v type old
  end.

Fixpoint entries (l : list (string * json.value)) (m : gmap string string)
  : D (gmap string string) :=
  match l with
  | [] => mret m
  | (k, v) :: l' => s ← string_ v ""; entries l' (<[k := s]> m)
  end.

(** a [map[string]string] *)
Definition stringMap_ (v : json.value) (old : option (gmap string string))
  : D (option (gmap string string)) :=
  match v with
  | json.Null => mret None
  | json.Object l => m ← entries l (default ∅ old); mret (Some m)
  | _ => mismatch v "map[string]string" old
  end.

(** a struct whose declaration is not in these files, held by value or
    through a pointer: the object is kept as it was parsed *)
Definition opaque_ (type : string) (v : json.value) (old : json.value)
  : D json.value :=
  match v with
  | json.Object _ => mret v
  | json.Null => mret old
  | _ => mismatch v type old
  end.

Definition opaquePointer_ (type : string) (v : json.value)
  (old : option json.value) : D (option json.value) :=
  match v with
  | json.Object _ => mret (Some v)
  | json.Null => mret None
  | _ => mismatch v type (Some (default (json.Object []) old))
  end.

(** the fold under which a key is matched to a field name: ASCII case,
    the long s and the Kelvin sign *)
Fixpoint foldKey (s : string) : string :=
  match s with
  | EmptyString => ""
  | String c s1 =>
      if Bytes.is_upper c then String (Bytes.chr (Bytes.val c + 32)) (foldKey s1)
      else
        match s1 with
        | String c1 s2 =>
            if (Bytes.val c =? 197) && (Bytes.val c1 =? 191)
            then String "s" (foldKey s2)
            else
              match s2 with
              | String c2 s3 =>
                  if (Bytes.val c =? 226) && (Bytes.val c1 =? 132)
                     && (Bytes.val c2 =? 170)
                  then String "k" (foldKey s3)
                  else String c (foldKey s1)
              | EmptyString => String c (foldKey s1)
              end
        | EmptyString => String c (foldKey s1)
        end
  end.

(** [name] is a field name, written in lower case in every struct tag
    of these files *)
Definition keyIs (name key : string) : bool := String.eqb (foldKey key) name.

End unmarshal.
Import unmarshal.

(* ===================================================================== *)
(** ** The data model *)
(* ===================================================================== *)

(** Modelled from the spec: the [Options] struct is declared outside these
    files.  Its fields are the ones the bindings read; their types follow
    the uses ([IdempotencyKey] is compared with the empty string,
    [DisableLogging] is a condition) and the spec's data model ([expand] a
    collection of strings, [filter] a string, the cursors strings, [limit]
    and [page] counts).  [Expand] is a slice: [None] is nil. *)
Record Options : Type := mkOptions {
  Expand : option (list string);
  Filter : string;
  Limit : N;
  Page : N;
  EndBefore : string;
  StartAfter : string;
  IdempotencyKey : string;
  DisableLogging : bool
}.

(** [Options{}] *)
Definition Options_zero : Options := mkOptions None "" 0 0 "" "" "" false.

(** The client struct, declared outside these files: the three fields the
    bindings read. *)
Record ProcessOut : Type := mkProcessOut {
  APIVersion : string;
  projectID : string;
  projectSecret : string
}.

(** the zero [time.Time], as text *)
Definition Time_zero : string := "0001-01-01T00:00:00Z".

Module Transaction.

Record t : Type := mk {
  ID : string;
  Status : string;
  Fee : string;
  Sandbox : bool;
  CreatedAt : string
}.

Definition zero : t := mk "" "" "" false Time_zero.

Definition field (tp : string -> bool) (k : string) (v : json.value) (x : t)
  : D t :=
  let '(mk id status fee sandbox created) := x in
  if keyIs "id" k then a ← string_ v id; mret (mk a status fee sandbox created)
  else if keyIs "status" k then a ← string_ v status; mret (mk id a fee sandbox created)
  else if keyIs "fee" k then a ← string_ v fee; mret (mk id status a sandbox created)
  else if keyIs "sandbox" k then a ← bool_ v sandbox; mret (mk id status fee a created)
  else if keyIs "created_at" k then a ← time_ tp v created; mret (mk id status fee sandbox a)
  else mret x.

End Transaction.

Module TailoredInvoice.

Record t : Type := mk {
  ID : string;
  Name : string;
  Amount : string;
  Currency : string;
  Metadata : option (gmap string string);
  RequestEmail : bool;
  RequestShipping : bool;
  ReturnURL : string;
  CancelURL : string;
  Custom : string;
  CreatedAt : string
}.

Definition zero : t := mk "" "" "" "" None false false "" "" "" Time_zero.

Definition field (tp : string -> bool) (k : string) (v : json.value) (x : t)
  : D t :=
  let '(mk id name amount currency metadata re rs ret can custom created) := x in
  if keyIs "id" k then
    a ← string_ v id; mret (mk a name amount currency metadata re rs ret can custom created)
  else if keyIs "name" k then
    a ← string_ v name; mret (mk id a amount currency metadata re rs ret can custom created)
  else if keyIs "amount" k then
    a ← string_ v amount; mret (mk id name a currency metadata re rs ret can custom created)
  else if keyIs "currency" k then
    a ← string_ v currency; mret (mk id name amount a metadata re rs ret can custom created)
  else if keyIs "metadata" k then
    a ← stringMap_ v metadata; mret (mk id name amount currency a re rs ret can custom created)
  else if keyIs "request_email" k then
    a ← bool_ v re; mret (mk id name amount currency metadata a rs ret can custom created)
  else if keyIs "request_shipping" k then
    a ← bool_ v rs; mret (mk id name amount currency metadata re a ret can custom created)
  else if keyIs "return_url" k then
    a ← string_ v ret; mret (mk id name amount currency metadata re rs a can custom created)
  else if keyIs "cancel_url" k then
    a ← string_ v can; mret (mk id name amount currency metadata re rs ret a custom created)
  else if keyIs "custom" k then
    a ← string_ v custom; mret (mk id name amount currency metadata re rs ret can a created)
  else if keyIs "created_at" k then
    a ← time_ tp v created; mret (mk id name amount currency metadata re rs ret can custom a)
  else mret x.

End TailoredInvoice.

Module Invoice.

(** [Project], [Customer] and [Subscription] are declared outside these
    files: the three pointers hold the object as parsed. *)
Record t : Type := mk {
  ID : string;
  Project : option json.value;
  Transaction : option Transaction.t;
  Customer : option json.value;
  Subscription : option json.value;
  URL : string;
  Name : string;
  Amount : string;
  Currency : string;
  Metadata : option (gmap string string);
  RequestEmail : bool;
  RequestShipping : bool;
  ReturnURL : string;
  CancelURL : string;
  Sandbox : bool;
  CreatedAt : string
}.

Definition zero : t :=
  mk "" None None None None "" "" "" "" None false false "" "" false Time_zero.

Definition field (tp : string -> bool) (k : string) (v : json.value) (x : t)
  : D t :=
  let '(mk id pr tx cu su url name am cur md re rs ret can sb cr) := x in
  if keyIs "id" k then
    a ← string_ v id; mret (mk a pr tx cu su url name am cur md re rs ret can sb cr)
  else if keyIs "project" k then
    a ← opaquePointer_ "Project" v pr;
    mret (mk id a tx cu su url name am cur md re rs ret can sb cr)
  else if keyIs "transaction" k then
    a ← pointer_ "Transaction" Transaction.zero (Transaction.field tp) v tx;
    mret (mk id pr a cu su url name am cur md re rs ret can sb cr)
  else if keyIs "customer" k then
    a ← opaquePointer_ "Customer" v cu;
    mret (mk id pr tx a su url name am cur md re rs ret can sb cr)
  else if keyIs "subscription" k then
    a ← opaquePointer_ "Subscription" v su;
    mret (mk id pr tx cu a url name am cur md re rs ret can sb cr)
  else if keyIs "url" k then
    a ← string_ v url; mret (mk id pr tx cu su a name am cur md re rs ret can sb cr)
  else if keyIs "name" k then
    a ← string_ v name; mret (mk id pr tx cu su url a am cur md re rs ret can sb cr)
  else if keyIs "amount" k then
    a ← string_ v am; mret (mk id pr tx cu su url name a cur md re rs ret can sb cr)
  else if keyIs "currency" k then
    a ← string_ v cur; mret (mk id pr tx cu su url name am a md re rs ret can sb cr)
  else if keyIs "metadata" k then
    a ← stringMap_ v md; mret (mk id pr tx cu su url name am cur a re rs ret can sb cr)
  else if keyIs "request_email" k then
    a ← bool_ v re; mret (mk id pr tx cu su url name am cur md a rs ret can sb cr)
  else if keyIs "request_shipping" k then
    a ← bool_ v rs; mret (mk id pr tx cu su url name am cur md re a ret can sb cr)
  else if keyIs "return_url" k then
    a ← string_ v ret; mret (mk id pr tx cu su url name am cur md re rs a can sb cr)
  else if keyIs "cancel_url" k then
    a ← string_ v can; mret (mk id pr tx cu su url name am cur md re rs ret a sb cr)
  else if keyIs "sandbox" k then
    a ← bool_ v sb; mret (mk id pr tx cu su url name am cur md re rs ret can a cr)
  else if keyIs "created_at" k then
    a ← time_ tp v cr; mret (mk id pr tx cu su url name am cur md re rs ret can sb a)
  else mret x.

End Invoice.


(* ===================================================================== *)
(** ** The errors the bindings return *)
(* ===================================================================== *)

(** Modelled from the spec: the [Error] struct and [newError] of invoice.go
    and of the TailoredInvoices bindings are declared outside these files.
    An API error carries a server-provided code and a human-readable
    message; [newError] wraps a Go error, and the bindings then assign
    [Code]. *)
Module Error.

Record t : Type := mk {
  Message : string;
  Code : string
}.

Definition set_Code (code : string) (e : t) : t := mk (Message e) code.

End Error.

Definition newError (err : error) : Error.t := Error.mk (error_Error err) "".

(** Modelled from the spec: the package [gopkg.in/processout.v3/errors]
    that refund.go imports is outside these files.  An API error carries
    the code, the message and, when it comes from a response, the HTTP
    status code. *)
Module errors.

Record t : Type := mk {
  StatusCode : option Z;
  Code : string;
  Message : string;
  Internal : option error
}.

Definition New (err : error) (code message : string) : t :=
  mk None code message (Some err).

Definition NewFromResponse (status : Z) (code message : string) : t :=
  mk (Some status) code message None.

End errors.

(* ===================================================================== *)
(** ** The envelope structs *)
(* ===================================================================== *)

Module Response.

(** [type Response struct] with a payload field, [Success], [Message]
    and [Code]; the payload is stored under [key]. *)
Record t (T : Type) : Type := mk {
  Payload : T;
  Success : bool;
  Message : string;
  Code : string
}.
Arguments mk {T}.
Arguments Payload {T}.
Arguments Success {T}.
Arguments Message {T}.
Arguments Code {T}.

Definition field {T} (key : string) (dec : json.value -> T -> D T)
  (k : string) (v : json.value) (r : t T) : D (t T) :=
  let '(mk payload success message code) := r in
  if keyIs key k then a ← dec v payload; mret (mk a success message code)
  else if keyIs "success" k then a ← bool_ v success; mret (mk payload a message code)
  else if keyIs "message" k then a ← string_ v message; mret (mk payload success a code)
  else if keyIs "error_type" k then a ← string_ v code; mret (mk payload success message a)
  else mret r.

(** the struct without a payload field *)
Definition bare (k : string) (v : json.value) (r : t unit) : D (t unit) :=
  let '(mk payload success message code) := r in
  if keyIs "success" k then a ← bool_ v success; mret (mk payload a message code)
  else if keyIs "message" k then a ← string_ v message; mret (mk payload success a code)
  else if keyIs "error_type" k then a ← string_ v code; mret (mk payload success message a)
  else mret r.

Definition zero {T} (payload : T) : t T := mk payload false "" "".

(** The Transactions bindings declare the struct without [Code]. *)
Record short (T : Type) : Type := mkShort {
  short_Payload : T;
  short_Success : bool;
  short_Message : string
}.
Arguments mkShort {T}.
Arguments short_Payload {T}.
Arguments short_Success {T}.
Arguments short_Message {T}.

Definition short_field {T} (key : string) (dec : json.value -> T -> D T)
  (k : string) (v : json.value) (r : short T) : D (short T) :=
  let '(mkShort payload success message) := r in
  if keyIs key k then a ← dec v payload; mret (mkShort a success message)
  else if keyIs "success" k then a ← bool_ v success; mret (mkShort payload a message)
  else if keyIs "message" k then a ← string_ v message; mret (mkShort payload success a)
  else mret r.

Definition short_zero {T} (payload : T) : short T := mkShort payload false "".

End Response.

(* ===================================================================== *)
(** ** The effects of a binding *)
(* ===================================================================== *)

(** What a binding reads from outside: the package constant [Host], which
    is declared outside these files, and the behaviour of the library
    functions that are not modelled further. *)
Record World : Type := mkWorld {
  w_Host : string;
  url_Parse_ok : string -> bool;
  RoundTrip : http.Request -> error + http.Response;
  time_Parse_ok : string -> bool
}.

Inductive panic_value : Type :=
| PanicString (msg : string)
| NilDereference.

Inductive outcome (A : Type) : Type :=
| Returns (a : A)
| Panics (v : panic_value).
Arguments Returns {A}.
Arguments Panics {A}.

(** A binding runs in a world and extends the list of the requests sent so
    far; it returns or panics. *)
Definition Go (A : Type) : Type :=
  World -> list http.Request -> outcome A * list http.Request.

#[export] Instance Go_ret : MRet Go := fun A a w sent => (Returns a, sent).
#[export] Instance Go_bind : MBind Go := fun A B f m w sent =>
  match m w sent with
  | (Returns a, sent') => f a w sent'
  | (Panics v, sent') => (Panics v, sent')
  end.

Definition panic {A} (msg : string) : Go A :=
  fun w sent => (Panics (PanicString msg), sent).

(** reading through a pointer *)
Definition deref {A} (p : option A) : Go A :=
  fun w sent =>
    match p with
    | Some x => (Returns x, sent)
    | None => (Panics NilDereference, sent)
    end.

(** [p == nil] *)
Definition is_nil {A} (p : option A) : bool :=
  match p with
  | None => true
  | Some _ => false
  end.

Definition Host : Go string := fun w sent => (Returns (w_Host w), sent).

Definition http_NewRequest (method urlStr body : string)
  : Go (error + http.Request) :=
  fun w sent => (Returns (http.NewRequest (url_Parse_ok w) method urlStr body), sent).

(** [http.DefaultClient.Do]: the one place where a request leaves *)
Definition http_DefaultClient_Do (req : http.Request)
  : Go (error + http.Response) :=
  fun w sent => (Returns (RoundTrip w req), (sent ++ [req])%list).

(** [json.NewDecoder(res.Body).Decode(payload)] with [payload] a pointer
    to a zero struct *)
Definition decode {A} (type : string)
  (field : string -> json.value -> A -> D A) (zero : A) (body : string)
  : error + A :=
  match json.readValue body with
  | inl e => inl e
  | inr v => unmarshal.run (struct_ type field v zero)
  end.

Definition json_Decode {A} (type : string)
  (field : (string -> bool) -> string -> json.value -> A -> D A) (zero : A)
  (res : http.Response) : Go (error + A) :=
  fun w sent =>
    (Returns (decode type (field (time_Parse_ok w)) zero (http.RespBody res)), sent).

Definition Header_Set (key value : string) (req : http.Request) : http.Request :=
  http.set_Header (http.Header_Set key value) req.


(* ===================================================================== *)
(** ** invoice.go *)
(* ===================================================================== *)

Module Invoices.

(** [type Invoices struct { p *ProcessOut }] *)
Record t : Type := mk { p : option ProcessOut }.

(** [func (s Invoices) Authorize(invoice *Invoice, source string, options ...Options) *Error] *)
Definition Authorize (s : t) (invoice : option Invoice.t) (source : string) (options : list Options)
  : Go (option Error.t) :=
  let opt := Options_zero in
  let opt := if Nat.eqb (length options) 1 then nth 0 options opt else opt in
  _ ← (if Nat.ltb 1 (length options)
       then panic "The options parameter should only be provided once."
       else mret tt);
  match json.Marshal {[ "source" := json.VString source;
                     "expand" := json.VStrings (Expand opt);
                     "filter" := json.VString (Filter opt) ]} with
  | inl err => mret (Some (newError err))
  | inr body =>
      invoice ← deref invoice;
      let path := "/invoices/" +:+ url.QueryEscape (Invoice.ID invoice) +:+ "/authorize" in
      host ← Host;
      req ← http_NewRequest "POST" (host +:+ path) body;
      match req with
      | inl err => mret (Some (newError err))
      | inr req =>
          let req := Header_Set "Content-Type" "application/json" req in
          client ← deref (p s);
          let req := Header_Set "API-Version" (APIVersion client) req in
          let req := Header_Set "Accept" "application/json" req in
          let req := if negb (String.eqb (IdempotencyKey opt) "")
                     then Header_Set "Idempotency-Key" (IdempotencyKey opt) req
                     else req in
          let req := if DisableLogging opt
                     then Header_Set "Disable-Logging" "true" req
                     else req in
          let req := http.SetBasicAuth (projectID client) (projectSecret client) req in
          res ← http_DefaultClient_Do req;
          match res with
          | inl err => mret (Some (newError err))
          | inr res =>
              payload ← json_Decode "Response"
                (fun _ => Response.bare)
                (Response.zero tt) res;
              match payload with
              | inl err => mret (Some (newError err))
              | inr payload =>
                  if negb (Response.Success payload) then
                    let erri := newError (errorString (Response.Message payload)) in
                    let erri := Error.set_Code (Response.Code payload) erri in
                    mret (Some erri)
                  else mret None
              end
          end
      end
  end.

(** [func (s Invoices) Capture(invoice *Invoice, source string, options ...Options) *Error] *)
Definition Capture (s : t) (invoice : option Invoice.t) (source : string) (options : list Options)
  : Go (option Error.t) :=
  let opt := Options_zero in
  let opt := if Nat.eqb (length options) 1 then nth 0 options opt else opt in
  _ ← (if Nat.ltb 1 (length options)
       then panic "The options parameter should only be provided once."
       else mret tt);
  match json.Marshal {[ "source" := json.VString source;
                     "expand" := json.VStrings (Expand opt);
                     "filter" := json.VString (Filter opt) ]} with
  | inl err => mret (Some (newError err))
  | inr body =>
      invoice ← deref invoice;
      let path := "/invoices/" +:+ url.QueryEscape (Invoice.ID invoice) +:+ "/capture" in
      host ← Host;
      req ← http_NewRequest "POST" (host +:+ path) body;
      match req with
      | inl err => mret (Some (newError err))
      | inr req =>
          let req := Header_Set "Content-Type" "application/json" req in
          client ← deref (p s);
          let req := Header_Set "API-Version" (APIVersion client) req in
          let req := Header_Set "Accept" "application/json" req in
          let req := if negb (String.eqb (IdempotencyKey opt) "")
                     then Header_Set "Idempotency-Key" (IdempotencyKey opt) req
                     else req in
          let req := if DisableLogging opt
                     then Header_Set "Disable-Logging" "true" req
                     else req in
          let req := http.SetBasicAuth (projectID client) (projectSecret client) req in
          res ← http_DefaultClient_Do req;
          match res with
          | inl err => mret (Some (newError err))
          | inr res =>
              payload ← json_Decode "Response"
                (fun _ => Response.bare)
                (Response.zero tt) res;
              match payload with
              | inl err => mret (Some (newError err))
              | inr payload =>
                  if negb (Response.Success payload) then
                    let erri := newError (errorString (Response.Message payload)) in
                    let erri := Error.set_Code (Response.Code payload) erri in
                    mret (Some erri)
                  else mret None
              end
          end
      end
  end.

(** [func (s Invoices) Customer(invoice *Invoice, options ...Options) ( *Customer, *Error)] *)
Definition Customer (s : t) (invoice : option Invoice.t) (options : list Options)
  : Go (option json.value * option Error.t) :=
  let opt := Options_zero in
  let opt := if Nat.eqb (length options) 1 then nth 0 options opt else opt in
  _ ← (if Nat.ltb 1 (length options)
       then panic "The options parameter should only be provided once."
       else mret tt);
  match json.Marshal {[ "expand" := json.VStrings (Expand opt);
                     "filter" := json.VString (Filter opt) ]} with
  | inl err => mret (None, Some (newError err))
  | inr body =>
      invoice ← deref invoice;
      let path := "/invoices/" +:+ url.QueryEscape (Invoice.ID invoice) +:+ "/customers" in
      host ← Host;
      req ← http_NewRequest "GET" (host +:+ path) body;
      match req with
      | inl err => mret (None, Some (newError err))
      | inr req =>
          let req := Header_Set "Content-Type" "application/json" req in
          client ← deref (p s);
          let req := Header_Set "API-Version" (APIVersion client) req in
          let req := Header_Set "Accept" "application/json" req in
          let req := if negb (String.eqb (IdempotencyKey opt) "")
                     then Header_Set "Idempotency-Key" (IdempotencyKey opt) req
                     else req in
          let req := if DisableLogging opt
                     then Header_Set "Disable-Logging" "true" req
                     else req in
          let req := http.SetBasicAuth (projectID client) (projectSecret client) req in
          res ← http_DefaultClient_Do req;
          match res with
          | inl err => mret (None, Some (newError err))
          | inr res =>
              payload ← json_Decode "Response"
                (fun _ => Response.field "customer" (opaque_ "Customer"))
                (Response.zero (json.Object [])) res;
              match payload with
              | inl err => mret (None, Some (newError err))
              | inr payload =>
                  if negb (Response.Success payload) then
                    let erri := newError (errorString (Response.Message payload)) in
                    let erri := Error.set_Code (Response.Code payload) erri in
                    mret (None, Some erri)
                  else mret (Some (Response.Payload payload), None)
              end
          end
      end
  end.

(** [func (s Invoices) AssignCustomer(invoice *Invoice, customerID string, options ...Options) ( *Customer, *Error)] *)
Definition AssignCustomer (s : t) (invoice : option Invoice.t) (customerID : string) (options : list Options)
  : Go (option json.value * option Error.t) :=
  let opt := Options_zero in
  let opt := if Nat.eqb (length options) 1 then nth 0 options opt else opt in
  _ ← (if Nat.ltb 1 (length options)
       then panic "The options parameter should only be provided once."
       else mret tt);
  match json.Marshal {[ "customer_id" := json.VString customerID;
                     "expand" := json.VStrings (Expand opt);
                     "filter" := json.VString (Filter opt) ]} with
  | inl err => mret (None, Some (newError err))
  | inr body =>
      invoice ← deref invoice;
      let path := "/invoices/" +:+ url.QueryEscape (Invoice.ID invoice) +:+ "/customers" in
      host ← Host;
      req ← http_NewRequest "POST" (host +:+ path) body;
      match req with
      | inl err => mret (None, Some (newError err))
      | inr req =>
          let req := Header_Set "Content-Type" "application/json" req in
          client ← deref (p s);
          let req := Header_Set "API-Version" (APIVersion client) req in
          let req := Header_Set "Accept" "application/json" req in
          let req := if negb (String.eqb (IdempotencyKey opt) "")
                     then Header_Set "Idempotency-Key" (IdempotencyKey opt) req
                     else req in
          let req := if DisableLogging opt
                     then Header_Set "Disable-Logging" "true" req
                     else req in
          let req := http.SetBasicAuth (projectID client) (projectSecret client) req in
          res ← http_DefaultClient_Do req;
          match res with
          | inl err => mret (None, Some (newError err))
          | inr res =>
              payload ← json_Decode "Response"
                (fun _ => Response.field "customer" (opaque_ "Customer"))
                (Response.zero (json.Object [])) res;
              match payload with
              | inl err => mret (None, Some (newError err))
              | inr payload =>
                  if negb (Response.Success payload) then
                    let erri := newError (errorString (Response.Message payload)) in
                    let erri := Error.set_Code (Response.Code payload) erri in
                    mret (None, Some erri)
                  else mret (Some (Response.Payload payload), None)
              end
          end
      end
  end.

(** [func (s Invoices) CustomerAction(invoice *Invoice, gatewayConfigurationID string, options ...Options) ( *CustomerAction, *Error)] *)
Definition CustomerAction (s : t) (invoice : option Invoice.t) (gatewayConfigurationID : string) (options : list Options)
  : Go (option json.value * option Error.t) :=
  let opt := Options_zero in
  let opt := if Nat.eqb (length options) 1 then nth 0 options opt else opt in
  _ ← (if Nat.ltb 1 (length options)
       then panic "The options parameter should only be provided once."
       else mret tt);
  match json.Marshal {[ "expand" := json.VStrings (Expand opt);
                     "filter" := json.VString (Filter opt) ]} with
  | inl err => mret (None, Some (newError err))
  | inr body =>
      invoice ← deref invoice;
      let path := "/invoices/" +:+ url.QueryEscape (Invoice.ID invoice)
                    +:+ "/gateway-configurations/"
                    +:+ url.QueryEscape gatewayConfigurationID
                    +:+ "/customer-action" in
      host ← Host;
      req ← http_NewRequest "GET" (host +:+ path) body;
      match req with
      | inl err => mret (None, Some (newError err))
      | inr req =>
          let req := Header_Set "Content-Type" "application/json" req in
          client ← deref (p s);
          let req := Header_Set "API-Version" (APIVersion client) req in
          let req := Header_Set "Accept" "application/json" req in
          let req := if negb (String.eqb (IdempotencyKey opt) "")
                     then Header_Set "Idempotency-Key" (IdempotencyKey opt) req
                     else req in
          let req := if DisableLogging opt
                     then Header_Set "Disable-Logging" "true" req
                     else req in
          let req := http.SetBasicAuth (projectID client) (projectSecret client) req in
          res ← http_DefaultClient_Do req;
          match res with
          | inl err => mret (None, Some (newError err))
          | inr res =>
              payload ← json_Decode "Response"
                (fun _ => Response.field "customer_action" (opaque_ "CustomerAction"))
                (Response.zero (json.Object [])) res;
              match payload with
              | inl err => mret (None, Some (newError err))
              | inr payload =>
                  if negb (Response.Success payload) then
                    let erri := newError (errorString (Response.Message payload)) in
                    let erri := Error.set_Code (Response.Code payload) erri in
                    mret (None, Some erri)
                  else mret (Some (Response.Payload payload), None)
              end
          end
      end
  end.

(** [func (s Invoices) Transaction(invoice *Invoice, options ...Options) ( *Transaction, *Error)] *)
Definition Transaction (s : t) (invoice : option Invoice.t) (options : list Options)
  : Go (option Transaction.t * option Error.t) :=
  let opt := Options_zero in
  let opt := if Nat.eqb (length options) 1 then nth 0 options opt else opt in
  _ ← (if Nat.ltb 1 (length options)
       then panic "The options parameter should only be provided once."
       else mret tt);
  match json.Marshal {[ "expand" := json.VStrings (Expand opt);
                     "filter" := json.VString (Filter opt) ]} with
  | inl err => mret (None, Some (newError err))
  | inr body =>
      invoice ← deref invoice;
      let path := "/invoices/" +:+ url.QueryEscape (Invoice.ID invoice) +:+ "/transactions" in
      host ← Host;
      req ← http_NewRequest "GET" (host +:+ path) body;
      match req with
      | inl err => mret (None, Some (newError err))
      | inr req =>
          let req := Header_Set "Content-Type" "application/json" req in
          client ← deref (p s);
          let req := Header_Set "API-Version" (APIVersion client) req in
          let req := Header_Set "Accept" "application/json" req in
          let req := if negb (String.eqb (IdempotencyKey opt) "")
                     then Header_Set "Idempotency-Key" (IdempotencyKey opt) req
                     else req in
          let req := if DisableLogging opt
                     then Header_Set "Disable-Logging" "true" req
                     else req in
          let req := http.SetBasicAuth (projectID client) (projectSecret client) req in
          res ← http_DefaultClient_Do req;
          match res with
          | inl err => mret (None, Some (newError err))
          | inr res =>
              payload ← json_Decode "Response"
                (fun tp => Response.field "transaction" (struct_ "Transaction" (Transaction.field tp)))
                (Response.zero Transaction.zero) res;
              match payload with
              | inl err => mret (None, Some (newError err))
              | inr payload =>
                  if negb (Response.Success payload) then
                    let erri := newError (errorString (Response.Message payload)) in
                    let erri := Error.set_Code (Response.Code payload) erri in
                    mret (None, Some erri)
                  else mret (Some (Response.Payload payload), None)
              end
          end
      end
  end.

(** [func (s Invoices) Void(invoice *Invoice, options ...Options) *Error] *)
Definition Void (s : t) (invoice : option Invoice.t) (options : list Options)
  : Go (option Error.t) :=
  let opt := Options_zero in
  let opt := if Nat.eqb (length options) 1 then nth 0 options opt else opt in
  _ ← (if Nat.ltb 1 (length options)
       then panic "The options parameter should only be provided once."
       else mret tt);
  match json.Marshal {[ "expand" := json.VStrings (Expand opt);
                     "filter" := json.VString (Filter opt) ]} with
  | inl err => mret (Some (newError err))
  | inr body =>
      invoice ← deref invoice;
      let path := "/invoices/" +:+ url.QueryEscape (Invoice.ID invoice) +:+ "/void" in
      host ← Host;
      req ← http_NewRequest "POST" (host +:+ path) body;
      match req with
      | inl err => mret (Some (newError err))
      | inr req =>
          let req := Header_Set "Content-Type" "application/json" req in
          client ← deref (p s);
          let req := Header_Set "API-Version" (APIVersion client) req in
          let req := Header_Set "Accept" "application/json" req in
          let req := if negb (String.eqb (IdempotencyKey opt) "")
                     then Header_Set "Idempotency-Key" (IdempotencyKey opt) req
                     else req in
          let req := if DisableLogging opt
                     then Header_Set "Disable-Logging" "true" req
                     else req in
          let req := http.SetBasicAuth (projectID client) (projectSecret client) req in
          res ← http_DefaultClient_Do req;
          match res with
          | inl err => mret (Some (newError err))
          | inr res =>
              payload ← json_Decode "Response"
                (fun _ => Response.bare)
                (Response.zero tt) res;
              match payload with
              | inl err => mret (Some (newError err))
              | inr payload =>
                  if negb (Response.Success payload) then
                    let erri := newError (errorString (Response.Message payload)) in
                    let erri := Error.set_Code (Response.Code payload) erri in
                    mret (Some erri)
                  else mret None
              end
          end
      end
  end.

(** [func (s Invoices) All(options ...Options) ([]*Invoice, *Error)] *)
Definition All (s : t) (options : list Options)
  : Go (option (list (option Invoice.t)) * option Error.t) :=
  let opt := Options_zero in
  let opt := if Nat.eqb (length options) 1 then nth 0 options opt else opt in
  _ ← (if Nat.ltb 1 (length options)
       then panic "The options parameter should only be provided once."
       else mret tt);
  match json.Marshal {[ "expand" := json.VStrings (Expand opt);
                     "filter" := json.VString (Filter opt) ]} with
  | inl err => mret (None, Some (newError err))
  | inr body =>
      let path := "/invoices" in
      host ← Host;
      req ← http_NewRequest "GET" (host +:+ path) body;
      match req with
      | inl err => mret (None, Some (newError err))
      | inr req =>
          let req := Header_Set "Content-Type" "application/json" req in
          client ← deref (p s);
          let req := Header_Set "API-Version" (APIVersion client) req in
          let req := Header_Set "Accept" "application/json" req in
          let req := if negb (String.eqb (IdempotencyKey opt) "")
                     then Header_Set "Idempotency-Key" (IdempotencyKey opt) req
                     else req in
          let req := if DisableLogging opt
                     then Header_Set "Disable-Logging" "true" req
                     else req in
          let req := http.SetBasicAuth (projectID client) (projectSecret client) req in
          res ← http_DefaultClient_Do req;
          match res with
          | inl err => mret (None, Some (newError err))
          | inr res =>
              payload ← json_Decode "Response"
                (fun tp => Response.field "invoices"
                  (slice_ "[]*Invoice" (pointer_ "Invoice" Invoice.zero (Invoice.field tp)) None))
                (Response.zero None) res;
              match payload with
              | inl err => mret (None, Some (newError err))
              | inr payload =>
                  if negb (Response.Success payload) then
                    let erri := newError (errorString (Response.Message payload)) in
                    let erri := Error.set_Code (Response.Code payload) erri in
                    mret (None, Some erri)
                  else mret (Response.Payload payload, None)
              end
          end
      end
  end.

(** [func (s Invoices) Create(invoice *Invoice, options ...Options) ( *Invoice, *Error)] *)
Definition Create (s : t) (invoice : option Invoice.t) (options : list Options)
  : Go (option Invoice.t * option Error.t) :=
  let opt := Options_zero in
  let opt := if Nat.eqb (length options) 1 then nth 0 options opt else opt in
  _ ← (if Nat.ltb 1 (length options)
       then panic "The options parameter should only be provided once."
       else mret tt);
  invoice ← deref invoice;
  match json.Marshal {[ "name" := json.VString (Invoice.Name invoice);
                     "amount" := json.VString (Invoice.Amount invoice);
                     "currency" := json.VString (Invoice.Currency invoice);
                     "metadata" := json.VStringMap (Invoice.Metadata invoice);
                     "request_email" := json.VBool (Invoice.RequestEmail invoice);
                     "request_shipping" := json.VBool (Invoice.RequestShipping invoice);
                     "return_url" := json.VString (Invoice.ReturnURL invoice);
                     "cancel_url" := json.VString (Invoice.CancelURL invoice);
                     "expand" := json.VStrings (Expand opt);
                     "filter" := json.VString (Filter opt) ]} with
  | inl err => mret (None, Some (newError err))
  | inr body =>
      let path := "/invoices" in
      host ← Host;
      req ← http_NewRequest "POST" (host +:+ path) body;
      match req with
      | inl err => mret (None, Some (newError err))
      | inr req =>
          let req := Header_Set "Content-Type" "application/json" req in
          client ← deref (p s);
          let req := Header_Set "API-Version" (APIVersion client) req in
          let req := Header_Set "Accept" "application/json" req in
          let req := if negb (String.eqb (IdempotencyKey opt) "")
                     then Header_Set "Idempotency-Key" (IdempotencyKey opt) req
                     else req in
          let req := if DisableLogging opt
                     then Header_Set "Disable-Logging" "true" req
                     else req in
          let req := http.SetBasicAuth (projectID client) (projectSecret client) req in
          res ← http_DefaultClient_Do req;
          match res with
          | inl err => mret (None, Some (newError err))
          | inr res =>
              payload ← json_Decode "Response"
                (fun tp => Response.field "invoice" (struct_ "Invoice" (Invoice.field tp)))
                (Response.zero Invoice.zero) res;
              match payload with
              | inl err => mret (None, Some (newError err))
              | inr payload =>
                  if negb (Response.Success payload) then
                    let erri := newError (errorString (Response.Message payload)) in
                    let erri := Error.set_Code (Response.Code payload) erri in
                    mret (None, Some erri)
                  else mret (Some (Response.Payload payload), None)
              end
          end
      end
  end.

(** [func (s Invoices) Find(invoiceID string, options ...Options) ( *Invoice, *Error)] *)
Definition Find (s : t) (invoiceID : string) (options : list Options)
  : Go (option Invoice.t * option Error.t) :=
  let opt := Options_zero in
  let opt := if Nat.eqb (length options) 1 then nth 0 options opt else opt in
  _ ← (if Nat.ltb 1 (length options)
       then panic "The options parameter should only be provided once."
       else mret tt);
  match json.Marshal {[ "expand" := json.VStrings (Expand opt);
                     "filter" := json.VString (Filter opt) ]} with
  | inl err => mret (None, Some (newError err))
  | inr body =>
      let path := "/invoices/" +:+ url.QueryEscape invoiceID +:+ "" in
      host ← Host;
      req ← http_NewRequest "GET" (host +:+ path) body;
      match req with
      | inl err => mret (None, Some (newError err))
      | inr req =>
          let req := Header_Set "Content-Type" "application/json" req in
          client ← deref (p s);
          let req := Header_Set "API-Version" (APIVersion client) req in
          let req := Header_Set "Accept" "application/json" req in
          let req := if negb (String.eqb (IdempotencyKey opt) "")
                     then Header_Set "Idempotency-Key" (IdempotencyKey opt) req
                     else req in
          let req := if DisableLogging opt
                     then Header_Set "Disable-Logging" "true" req
                     else req in
          let req := http.SetBasicAuth (projectID client) (projectSecret client) req in
          res ← http_DefaultClient_Do req;
          match res with
          | inl err => mret (None, Some (newError err))
          | inr res =>
              payload ← json_Decode "Response"
                (fun tp => Response.field "invoice" (struct_ "Invoice" (Invoice.field tp)))
                (Response.zero Invoice.zero) res;
              match payload with
              | inl err => mret (None, Some (newError err))
              | inr payload =>
                  if negb (Response.Success payload) then
                    let erri := newError (errorString (Response.Message payload)) in
                    let erri := Error.set_Code (Response.Code payload) erri in
                    mret (None, Some erri)
                  else mret (Some (Response.Payload payload), None)
              end
          end
      end
  end.

End Invoices.

(* ===================================================================== *)
(** ** The TailoredInvoices bindings *)
(* ===================================================================== *)

Module TailoredInvoices.

(** [type TailoredInvoices struct { p *ProcessOut }] *)
Record t : Type := mk { p : option ProcessOut }.

(** [func (s TailoredInvoices) All(options ...Options) ([]*TailoredInvoice, *Error)] *)
Definition All (s : t) (options : list Options)
  : Go (option (list (option TailoredInvoice.t)) * option Error.t) :=
  let opt := Options_zero in
  let opt := if Nat.eqb (length options) 1 then nth 0 options opt else opt in
  _ ← (if Nat.ltb 1 (length options)
       then panic "The options parameter should only be provided once."
       else mret tt);
  match json.Marshal {[ "expand" := json.VStrings (Expand opt);
                     "filter" := json.VString (Filter opt) ]} with
  | inl err => mret (None, Some (newError err))
  | inr body =>
      let path := "/tailored-invoices" in
      host ← Host;
      req ← http_NewRequest "GET" (host +:+ path) body;
      match req with
      | inl err => mret (None, Some (newError err))
      | inr req =>
          let req := Header_Set "Content-Type" "application/json" req in
          client ← deref (p s);
          let req := Header_Set "API-Version" (APIVersion client) req in
          let req := Header_Set "Accept" "application/json" req in
          let req := if negb (String.eqb (IdempotencyKey opt) "")
                     then Header_Set "Idempotency-Key" (IdempotencyKey opt) req
                     else req in
          let req := if DisableLogging opt
                     then Header_Set "Disable-Logging" "true" req
                     else req in
          let req := http.SetBasicAuth (projectID client) (projectSecret client) req in
          res ← http_DefaultClient_Do req;
          match res with
          | inl err => mret (None, Some (newError err))
          | inr res =>
              payload ← json_Decode "Response"
                (fun tp => Response.field "tailored_invoices"
                  (slice_ "[]*TailoredInvoice"
                     (pointer_ "TailoredInvoice" TailoredInvoice.zero (TailoredInvoice.field tp)) None))
                (Response.zero None) res;
              match payload with
              | inl err => mret (None, Some (newError err))
              | inr payload =>
                  if negb (Response.Success payload) then
                    let erri := newError (errorString (Response.Message payload)) in
                    let erri := Error.set_Code (Response.Code payload) erri in
                    mret (None, Some erri)
                  else mret (Response.Payload payload, None)
              end
          end
      end
  end.

(** [func (s TailoredInvoices) Create(tailoredInvoice *TailoredInvoice, options ...Options) ( *TailoredInvoice, *Error)] *)
Definition Create (s : t) (tailoredInvoice : option TailoredInvoice.t) (options : list Options)
  : Go (option TailoredInvoice.t * option Error.t) :=
  let opt := Options_zero in
  let opt := if Nat.eqb (length options) 1 then nth 0 options opt else opt in
  _ ← (if Nat.ltb 1 (length options)
       then panic "The options parameter should only be provided once."
       else mret tt);
  tailoredInvoice ← deref tailoredInvoice;
  match json.Marshal {[ "name" := json.VString (TailoredInvoice.Name tailoredInvoice);
                     "amount" := json.VString (TailoredInvoice.Amount tailoredInvoice);
                     "currency" := json.VString (TailoredInvoice.Currency tailoredInvoice);
                     "metadata" := json.VStringMap (TailoredInvoice.Metadata tailoredInvoice);
                     "request_email" := json.VBool (TailoredInvoice.RequestEmail tailoredInvoice);
                     "request_shipping" := json.VBool (TailoredInvoice.RequestShipping tailoredInvoice);
                     "return_url" := json.VString (TailoredInvoice.ReturnURL tailoredInvoice);
                     "cancel_url" := json.VString (TailoredInvoice.CancelURL tailoredInvoice);
                     "expand" := json.VStrings (Expand opt);
                     "filter" := json.VString (Filter opt) ]} with
  | inl err => mret (None, Some (newError err))
  | inr body =>
      let path := "/tailored-invoices" in
      host ← Host;
      req ← http_NewRequest "POST" (host +:+ path) body;
      match req with
      | inl err => mret (None, Some (newError err))
      | inr req =>
          let req := Header_Set "Content-Type" "application/json" req in
          client ← deref (p s);
          let req := Header_Set "API-Version" (APIVersion client) req in
          let req := Header_Set "Accept" "application/json" req in
          let req := if negb (String.eqb (IdempotencyKey opt) "")
                     then Header_Set "Idempotency-Key" (IdempotencyKey opt) req
                     else req in
          let req := if DisableLogging opt
                     then Header_Set "Disable-Logging" "true" req
                     else req in
          let req := http.SetBasicAuth (projectID client) (projectSecret client) req in
          res ← http_DefaultClient_Do req;
          match res with
          | inl err => mret (None, Some (newError err))
          | inr res =>
              payload ← json_Decode "Response"
                (fun tp => Response.field "tailored_invoice"
                  (struct_ "TailoredInvoice" (TailoredInvoice.field tp)))
                (Response.zero TailoredInvoice.zero) res;
              match payload with
              | inl err => mret (None, Some (newError err))
              | inr payload =>
                  if negb (Response.Success payload) then
                    let erri := newError (errorString (Response.Message payload)) in
                    let erri := Error.set_Code (Response.Code payload) erri in
                    mret (None, Some erri)
                  else mret (Some (Response.Payload payload), None)
              end
          end
      end
  end.

(** [func (s TailoredInvoices) Find(tailoredInvoiceID string, options ...Options) ( *TailoredInvoice, *Error)] *)
Definition Find (s : t) (tailoredInvoiceID : string) (options : list Options)
  : Go (option TailoredInvoice.t * option Error.t) :=
  let opt := Options_zero in
  let opt := if Nat.eqb (length options) 1 then nth 0 options opt else opt in
  _ ← (if Nat.ltb 1 (length options)
       then panic "The options parameter should only be provided once."
       else mret tt);
  match json.Marshal {[ "expand" := json.VStrings (Expand opt);
                     "filter" := json.VString (Filter opt) ]} with
  | inl err => mret (None, Some (newError err))
  | inr body =>
      let path := "/tailored-invoices/" +:+ url.QueryEscape tailoredInvoiceID +:+ "" in
      host ← Host;
      req ← http_NewRequest "GET" (host +:+ path) body;
      match req with
      | inl err => mret (None, Some (newError err))
      | inr req =>
          let req := Header_Set "Content-Type" "application/json" req in
          client ← deref (p s);
          let req := Header_Set "API-Version" (APIVersion client) req in
          let req := Header_Set "Accept" "application/json" req in
          let req := if negb (String.eqb (IdempotencyKey opt) "")
                     then Header_Set "Idempotency-Key" (IdempotencyKey opt) req
                     else req in
          let req := if DisableLogging opt
                     then Header_Set "Disable-Logging" "true" req
                     else req in
          let req := http.SetBasicAuth (projectID client) (projectSecret client) req in
          res ← http_DefaultClient_Do req;
          match res with
          | inl err => mret (None, Some (newError err))
          | inr res =>
              payload ← json_Decode "Response"
                (fun tp => Response.field "tailored_invoice"
                  (struct_ "TailoredInvoice" (TailoredInvoice.field tp)))
                (Response.zero TailoredInvoice.zero) res;
              match payload with
              | inl err => mret (None, Some (newError err))
              | inr payload =>
                  if negb (Response.Success payload) then
                    let erri := newError (errorString (Response.Message payload)) in
                    let erri := Error.set_Code (Response.Code payload) erri in
                    mret (None, Some erri)
                  else mret (Some (Response.Payload payload), None)
              end
          end
      end
  end.

(** [func (s TailoredInvoices) Save(tailoredInvoice *TailoredInvoice, options ...Options) ( *TailoredInvoice, *Error)] *)
Definition Save (s : t) (tailoredInvoice : option TailoredInvoice.t) (options : list Options)
  : Go (option TailoredInvoice.t * option Error.t) :=
  let opt := Options_zero in
  let opt := if Nat.eqb (length options) 1 then nth 0 options opt else opt in
  _ ← (if Nat.ltb 1 (length options)
       then panic "The options parameter should only be provided once."
       else mret tt);
  tailoredInvoice ← deref tailoredInvoice;
  match json.Marshal {[ "name" := json.VString (TailoredInvoice.Name tailoredInvoice);
                     "amount" := json.VString (TailoredInvoice.Amount tailoredInvoice);
                     "currency" := json.VString (TailoredInvoice.Currency tailoredInvoice);
                     "metadata" := json.VStringMap (TailoredInvoice.Metadata tailoredInvoice);
                     "request_email" := json.VBool (TailoredInvoice.RequestEmail tailoredInvoice);
                     "request_shipping" := json.VBool (TailoredInvoice.RequestShipping tailoredInvoice);
                     "return_url" := json.VString (TailoredInvoice.ReturnURL tailoredInvoice);
                     "cancel_url" := json.VString (TailoredInvoice.CancelURL tailoredInvoice);
                     "expand" := json.VStrings (Expand opt);
                     "filter" := json.VString (Filter opt) ]} with
  | inl err => mret (None, Some (newError err))
  | inr body =>
      let path := "/tailored-invoices/" +:+ url.QueryEscape (TailoredInvoice.ID tailoredInvoice) +:+ "" in
      host ← Host;
      req ← http_NewRequest "PUT" (host +:+ path) body;
      match req with
      | inl err => mret (None, Some (newError err))
      | inr req =>
          let req := Header_Set "Content-Type" "application/json" req in
          client ← deref (p s);
          let req := Header_Set "API-Version" (APIVersion client) req in
          let req := Header_Set "Accept" "application/json" req in
          let req := if negb (String.eqb (IdempotencyKey opt) "")
                     then Header_Set "Idempotency-Key" (IdempotencyKey opt) req
                     else req in
          let req := if DisableLogging opt
                     then Header_Set "Disable-Logging" "true" req
                     else req in
          let req := http.SetBasicAuth (projectID client) (projectSecret client) req in
          res ← http_DefaultClient_Do req;
          match res with
          | inl err => mret (None, Some (newError err))
          | inr res =>
              payload ← json_Decode "Response"
                (fun tp => Response.field "tailored_invoice"
                  (struct_ "TailoredInvoice" (TailoredInvoice.field tp)))
                (Response.zero TailoredInvoice.zero) res;
              match payload with
              | inl err => mret (None, Some (newError err))
              | inr payload =>
                  if negb (Response.Success payload) then
                    let erri := newError (errorString (Response.Message payload)) in
                    let erri := Error.set_Code (Response.Code payload) erri in
                    mret (None, Some erri)
                  else mret (Some (Response.Payload payload), None)
              end
          end
      end
  end.

(** [func (s TailoredInvoices) Delete(tailoredInvoice *TailoredInvoice, options ...Options) *Error] *)
Definition Delete (s : t) (tailoredInvoice : option TailoredInvoice.t) (options : list Options)
  : Go (option Error.t) :=
  let opt := Options_zero in
  let opt := if Nat.eqb (length options) 1 then nth 0 options opt else opt in
  _ ← (if Nat.ltb 1 (length options)
       then panic "The options parameter should only be provided once."
       else mret tt);
  match json.Marshal {[ "expand" := json.VStrings (Expand opt);
                     "filter" := json.VString (Filter opt) ]} with
  | inl err => mret (Some (newError err))
  | inr body =>
      tailoredInvoice ← deref tailoredInvoice;
      let path := "/tailored-invoices/" +:+ url.QueryEscape (TailoredInvoice.ID tailoredInvoice) +:+ "" in
      host ← Host;
      req ← http_NewRequest "DELETE" (host +:+ path) body;
      match req with
      | inl err => mret (Some (newError err))
      | inr req =>
          let req := Header_Set "Content-Type" "application/json" req in
          client ← deref (p s);
          let req := Header_Set "API-Version" (APIVersion client) req in
          let req := Header_Set "Accept" "application/json" req in
          let req := if negb (String.eqb (IdempotencyKey opt) "")
                     then Header_Set "Idempotency-Key" (IdempotencyKey opt) req
                     else req in
          let req := if DisableLogging opt
                     then Header_Set "Disable-Logging" "true" req
                     else req in
          let req := http.SetBasicAuth (projectID client) (projectSecret client) req in
          res ← http_DefaultClient_Do req;
          match res with
          | inl err => mret (Some (newError err))
          | inr res =>
              payload ← json_Decode "Response"
                (fun _ => Response.bare)
                (Response.zero tt) res;
              match payload with
              | inl err => mret (Some (newError err))
              | inr payload =>
                  if negb (Response.Success payload) then
                    let erri := newError (errorString (Response.Message payload)) in
                    let erri := Error.set_Code (Response.Code payload) erri in
                    mret (Some erri)
                  else mret None
              end
          end
      end
  end.

(** [func (s TailoredInvoices) Invoice(tailoredInvoice *TailoredInvoice, options ...Options) ( *Invoice, *Error)] *)
Definition Invoice (s : t) (tailoredInvoice : option TailoredInvoice.t) (options : list Options)
  : Go (option Invoice.t * option Error.t) :=
  let opt := Options_zero in
  let opt := if Nat.eqb (length options) 1 then nth 0 options opt else opt in
  _ ← (if Nat.ltb 1 (length options)
       then panic "The options parameter should only be provided once."
       else mret tt);
  match json.Marshal {[ "expand" := json.VStrings (Expand opt);
                     "filter" := json.VString (Filter opt) ]} with
  | inl err => mret (None, Some (newError err))
  | inr body =>
      tailoredInvoice ← deref tailoredInvoice;
      let path := "/tailored-invoices/" +:+ url.QueryEscape (TailoredInvoice.ID tailoredInvoice)
                    +:+ "/invoices" in
      host ← Host;
      req ← http_NewRequest "POST" (host +:+ path) body;
      match req with
      | inl err => mret (None, Some (newError err))
      | inr req =>
          let req := Header_Set "Content-Type" "application/json" req in
          client ← deref (p s);
          let req := Header_Set "API-Version" (APIVersion client) req in
          let req := Header_Set "Accept" "application/json" req in
          let req := if negb (String.eqb (IdempotencyKey opt) "")
                     then Header_Set "Idempotency-Key" (IdempotencyKey opt) req
                     else req in
          let req := if DisableLogging opt
                     then Header_Set "Disable-Logging" "true" req
                     else req in
          let req := http.SetBasicAuth (projectID client) (projectSecret client) req in
          res ← http_DefaultClient_Do req;
          match res with
          | inl err => mret (None, Some (newError err))
          | inr res =>
              payload ← json_Decode "Response"
                (fun tp => Response.field "invoice" (struct_ "Invoice" (Invoice.field tp)))
                (Response.zero Invoice.zero) res;
              match payload with
              | inl err => mret (None, Some (newError err))
              | inr payload =>
                  if negb (Response.Success payload) then
                    let erri := newError (errorString (Response.Message payload)) in
                    let erri := Error.set_Code (Response.Code payload) erri in
                    mret (None, Some erri)
                  else mret (Some (Response.Payload payload), None)
              end
          end
      end
  end.

End TailoredInvoices.

(* ===================================================================== *)
(** ** refund.go *)
(* ===================================================================== *)

Module Refund.

(** Modelled from the spec: the [Transaction] that refund.go points to
    has a [SetClient] method, which the [Transaction] of the Transactions
    bindings has not; that type and its method are declared outside these
    files, and the spec takes a resource as an opaque payload.  So the
    value is kept opaque: it is held as the JSON object it was decoded
    from, next to the arguments of the calls of [SetClient] made on it,
    in order.  Nothing is said of what the method does with them. *)
Record child : Type := mkChild {
  child_object : json.value;
  child_SetClient : list (option ProcessOut)
}.

(** Modelled from the spec: [func (s *Transaction) SetClient(c *ProcessOut)],
    missing from these files and not described by the spec; the call is
    written down on the value and left uninterpreted. *)
Definition Transaction_SetClient (s : child) (c : option ProcessOut) : child :=
  mkChild (child_object s) (child_SetClient s ++ [c])%list.

Record t : Type := mk {
  Client : option ProcessOut;
  ID : string;
  Transaction : option child;
  Reason : string;
  Information : string;
  Amount : string;
  Metadata : option (gmap string string);
  Sandbox : bool;
  CreatedAt : option string
}.

Definition zero : t := mk None "" None "" "" "" None false None.

Definition child_ (v : json.value) (old : option child) : D (option child) :=
  match v with
  | json.Object _ => mret (Some (mkChild v (from_option child_SetClient [] old)))
  | json.Null => mret None
  | _ => mismatch v "Transaction" (Some (default (mkChild (json.Object []) []) old))
  end.

(** [Client] has no tag and is stored under its own name; [SetClient]
    overwrites it before the refund is returned. *)
Definition client_ (v : json.value) (old : option ProcessOut)
  : D (option ProcessOut) :=
  match v with
  | json.Object _ => mret old
  | json.Null => mret None
  | _ => mismatch v "ProcessOut" old
  end.

Definition timePointer_ (tp : string -> bool) (v : json.value)
  (old : option string) : D (option string) :=
  match v with
  | json.Null => mret None
  | _ => a ← time_ tp v (default Time_zero old); mret (Some a)
  end.

Definition field (tp : string -> bool) (k : string) (v : json.value) (x : t)
  : D t :=
  let '(mk cl id tx reason info amount md sb cr) := x in
  if keyIs "client" k then a ← client_ v cl; mret (mk a id tx reason info amount md sb cr)
  else if keyIs "id" k then a ← string_ v id; mret (mk cl a tx reason info amount md sb cr)
  else if keyIs "transaction" k then
    a ← child_ v tx; mret (mk cl id a reason info amount md sb cr)
  else if keyIs "reason" k then
    a ← string_ v reason; mret (mk cl id tx a info amount md sb cr)
  else if keyIs "information" k then
    a ← string_ v info; mret (mk cl id tx reason a amount md sb cr)
  else if keyIs "amount" k then
    a ← string_ v amount; mret (mk cl id tx reason info a md sb cr)
  else if keyIs "metadata" k then
    a ← stringMap_ v md; mret (mk cl id tx reason info amount a sb cr)
  else if keyIs "sandbox" k then
    a ← bool_ v sb; mret (mk cl id tx reason info amount md a cr)
  else if keyIs "created_at" k then
    a ← timePointer_ tp v cr; mret (mk cl id tx reason info amount md sb a)
  else mret x.

(** [func (s *Refund) SetClient(c *ProcessOut)] *)
Definition SetClient (s : option t) (c : option ProcessOut) : option t :=
  match s with
  | None => None
  | Some (mk _ id tx reason info amount md sb cr) =>
      let tx := match tx with
                | Some ch => Some (Transaction_SetClient ch c)
                | None => None
                end in
      Some (mk c id tx reason info amount md sb cr)
  end.

(** [func (s Refund) Find(transactionID, refundID string, options ...Options) ( *Refund, error)] *)
Definition Find (s : t) (transactionID : string) (refundID : string) (options : list Options)
  : Go (option t * option errors.t) :=
  _ ← (if is_nil (Client s)
       then panic "Please use the client.NewRefund() method to create a new Refund object"
       else mret tt);
  let opt := Options_zero in
  let opt := if Nat.eqb (length options) 1 then nth 0 options opt else opt in
  _ ← (if Nat.ltb 1 (length options)
       then panic "The options parameter should only be provided once."
       else mret tt);
  match json.Marshal {[ "expand" := json.VStrings (Expand opt);
                     "filter" := json.VString (Filter opt);
                     "limit" := json.VUint64 (Limit opt);
                     "page" := json.VUint64 (Page opt);
                     "end_before" := json.VString (EndBefore opt);
                     "start_after" := json.VString (StartAfter opt) ]} with
  | inl err => mret (None, Some (errors.New err "" ""))
  | inr body =>
      let path := "/transactions/" +:+ url.QueryEscape transactionID +:+ "/refunds/"
                    +:+ url.QueryEscape refundID +:+ "" in
      host ← Host;
      req ← http_NewRequest "GET" (host +:+ path) body;
      match req with
      | inl err => mret (None, Some (errors.New err "" ""))
      | inr req =>
          let req := Header_Set "Content-Type" "application/json" req in
          client ← deref (Client s);
          let req := Header_Set "API-Version" (APIVersion client) req in
          let req := Header_Set "Accept" "application/json" req in
          let req := if negb (String.eqb (IdempotencyKey opt) "")
                     then Header_Set "Idempotency-Key" (IdempotencyKey opt) req
                     else req in
          let req := if DisableLogging opt
                     then Header_Set "Disable-Logging" "true" req
                     else req in
          let req := http.SetBasicAuth (projectID client) (projectSecret client) req in
          res ← http_DefaultClient_Do req;
          match res with
          | inl err => mret (None, Some (errors.New err "" ""))
          | inr res =>
              payload ← json_Decode "Response"
                (fun tp => Response.field "refund" (pointer_ "Refund" zero (field tp)))
                (Response.zero None) res;
              match payload with
              | inl err => mret (None, Some (errors.New err "" ""))
              | inr payload =>
                  if negb (Response.Success payload) then
                    let erri := errors.NewFromResponse (http.StatusCode res)
                                  (Response.Code payload) (Response.Message payload) in
                    mret (None, Some erri)
                  else mret (SetClient (Response.Payload payload) (Client s), None)
              end
          end
      end
  end.

(** [func (s Refund) Apply(transactionID string, options ...Options) error] *)
Definition Apply (s : t) (transactionID : string) (options : list Options)
  : Go (option errors.t) :=
  _ ← (if is_nil (Client s)
       then panic "Please use the client.NewRefund() method to create a new Refund object"
       else mret tt);
  let opt := Options_zero in
  let opt := if Nat.eqb (length options) 1 then nth 0 options opt else opt in
  _ ← (if Nat.ltb 1 (length options)
       then panic "The options parameter should only be provided once."
       else mret tt);
  match json.Marshal {[ "amount" := json.VString (Amount s);
                     "metadata" := json.VStringMap (Metadata s);
                     "reason" := json.VString (Reason s);
                     "information" := json.VString (Information s);
                     "expand" := json.VStrings (Expand opt);
                     "filter" := json.VString (Filter opt);
                     "limit" := json.VUint64 (Limit opt);
                     "page" := json.VUint64 (Page opt);
                     "end_before" := json.VString (EndBefore opt);
                     "start_after" := json.VString (StartAfter opt) ]} with
  | inl err => mret (Some (errors.New err "" ""))
  | inr body =>
      let path := "/transactions/" +:+ url.QueryEscape transactionID +:+ "/refunds" in
      host ← Host;
      req ← http_NewRequest "POST" (host +:+ path) body;
      match req with
      | inl err => mret (Some (errors.New err "" ""))
      | inr req =>
          let req := Header_Set "Content-Type" "application/json" req in
          client ← deref (Client s);
          let req := Header_Set "API-Version" (APIVersion client) req in
          let req := Header_Set "Accept" "application/json" req in
          let req := if negb (String.eqb (IdempotencyKey opt) "")
                     then Header_Set "Idempotency-Key" (IdempotencyKey opt) req
                     else req in
          let req := if DisableLogging opt
                     then Header_Set "Disable-Logging" "true" req
                     else req in
          let req := http.SetBasicAuth (projectID client) (projectSecret client) req in
          res ← http_DefaultClient_Do req;
          match res with
          | inl err => mret (Some (errors.New err "" ""))
          | inr res =>
              payload ← json_Decode "Response"
                (fun _ => Response.bare)
                (Response.zero tt) res;
              match payload with
              | inl err => mret (Some (errors.New err "" ""))
              | inr payload =>
                  if negb (Response.Success payload) then
                    let erri := errors.NewFromResponse (http.StatusCode res)
                                  (Response.Code payload) (Response.Message payload) in
                    mret (Some erri)
                  else mret None
              end
          end
      end
  end.

End Refund.

(* ===================================================================== *)
(** ** The Transactions bindings *)
(* ===================================================================== *)

Module Transactions.

(** [type Transactions struct { p *ProcessOut }] *)
Record t : Type := mk { p : option ProcessOut }.

(** [func (s Transactions) All(options ...Options) ([]*Transaction, error)] *)
Definition All (s : t) (options : list Options)
  : Go (option (list (option Transaction.t)) * option error) :=
  let opt := Options_zero in
  let opt := if Nat.eqb (length options) 1 then nth 0 options opt else opt in
  _ ← (if Nat.ltb 1 (length options)
       then panic "The options parameter should only be provided once."
       else mret tt);
  match json.Marshal {[ "expand" := json.VStrings (Expand opt) ]} with
  | inl err => mret (None, Some (err))
  | inr body =>
      let path := "/transactions" in
      host ← Host;
      req ← http_NewRequest "GET" (host +:+ path) body;
      match req with
      | inl err => mret (None, Some (err))
      | inr req =>
          client ← deref (p s);
          let req := Header_Set "API-Version" (APIVersion client) req in
          let req := Header_Set "Accept" "application/json" req in
          let req := if negb (String.eqb (IdempotencyKey opt) "")
                     then Header_Set "Idempotency-Key" (IdempotencyKey opt) req
                     else req in
          let req := http.SetBasicAuth (projectID client) (projectSecret client) req in
          res ← http_DefaultClient_Do req;
          match res with
          | inl err => mret (None, Some (err))
          | inr res =>
              payload ← json_Decode "Response"
                (fun tp => Response.short_field "transactions"
                  (slice_ "[]*Transaction"
                     (pointer_ "Transaction" Transaction.zero (Transaction.field tp)) None))
                (Response.short_zero None) res;
              match payload with
              | inl err => mret (None, Some (err))
              | inr payload =>
                  if negb (Response.short_Success payload) then
                    mret (None, Some (errorString (Response.short_Message payload)))
                  else mret (Response.short_Payload payload, None)
              end
          end
      end
  end.

(** [func (s Transactions) Find(transactionID string, options ...Options) ( *Transaction, error)] *)
Definition Find (s : t) (transactionID : string) (options : list Options)
  : Go (option Transaction.t * option error) :=
  let opt := Options_zero in
  let opt := if Nat.eqb (length options) 1 then nth 0 options opt else opt in
  _ ← (if Nat.ltb 1 (length options)
       then panic "The options parameter should only be provided once."
       else mret tt);
  match json.Marshal {[ "expand" := json.VStrings (Expand opt) ]} with
  | inl err => mret (None, Some (err))
  | inr body =>
      let path := "/transactions/" +:+ url.QueryEscape transactionID +:+ "" in
      host ← Host;
      req ← http_NewRequest "GET" (host +:+ path) body;
      match req with
      | inl err => mret (None, Some (err))
      | inr req =>
          client ← deref (p s);
          let req := Header_Set "API-Version" (APIVersion client) req in
          let req := Header_Set "Accept" "application/json" req in
          let req := if negb (String.eqb (IdempotencyKey opt) "")
                     then Header_Set "Idempotency-Key" (IdempotencyKey opt) req
                     else req in
          let req := http.SetBasicAuth (projectID client) (projectSecret client) req in
          res ← http_DefaultClient_Do req;
          match res with
          | inl err => mret (None, Some (err))
          | inr res =>
              payload ← json_Decode "Response"
                (fun tp => Response.short_field "transaction"
                  (struct_ "Transaction" (Transaction.field tp)))
                (Response.short_zero Transaction.zero) res;
              match payload with
              | inl err => mret (None, Some (err))
              | inr payload =>
                  if negb (Response.short_Success payload) then
                    mret (None, Some (errorString (Response.short_Message payload)))
                  else mret (Some (Response.short_Payload payload), None)
              end
          end
      end
  end.

End Transactions.


(* ===================================================================== *)
(** ** Every binding, seen the same way *)
(* ===================================================================== *)

(** A call: the method, its receiver and its arguments but the options. *)
Inductive call : Type :=
| Invoices_Authorize (s : Invoices.t) (invoice : option Invoice.t) (source : string)
| Invoices_Capture (s : Invoices.t) (invoice : option Invoice.t) (source : string)
| Invoices_Customer (s : Invoices.t) (invoice : option Invoice.t)
| Invoices_AssignCustomer (s : Invoices.t) (invoice : option Invoice.t) (customerID : string)
| Invoices_CustomerAction (s : Invoices.t) (invoice : option Invoice.t)
    (gatewayConfigurationID : string)
| Invoices_Transaction (s : Invoices.t) (invoice : option Invoice.t)
| Invoices_Void (s : Invoices.t) (invoice : option Invoice.t)
| Invoices_All (s : Invoices.t)
| Invoices_Create (s : Invoices.t) (invoice : option Invoice.t)
| Invoices_Find (s : Invoices.t) (invoiceID : string)
| TailoredInvoices_Invoice (s : TailoredInvoices.t) (tailoredInvoice : option TailoredInvoice.t)
| TailoredInvoices_All (s : TailoredInvoices.t)
| TailoredInvoices_Create (s : TailoredInvoices.t) (tailoredInvoice : option TailoredInvoice.t)
| TailoredInvoices_Find (s : TailoredInvoices.t) (tailoredInvoiceID : string)
| TailoredInvoices_Save (s : TailoredInvoices.t) (tailoredInvoice : option TailoredInvoice.t)
| TailoredInvoices_Delete (s : TailoredInvoices.t) (tailoredInvoice : option TailoredInvoice.t)
| Refund_Find (s : Refund.t) (transactionID refundID : string)
| Refund_Apply (s : Refund.t) (transactionID : string)
| Transactions_All (s : Transactions.t)
| Transactions_Find (s : Transactions.t) (transactionID : string).

(** What a call hands back besides the error. *)
Inductive payload : Type :=
| NoPayload
| AnInvoice (p : option Invoice.t)
| SomeInvoices (l : option (list (option Invoice.t)))
| ATailoredInvoice (p : option TailoredInvoice.t)
| SomeTailoredInvoices (l : option (list (option TailoredInvoice.t)))
| ATransaction (p : option Transaction.t)
| SomeTransactions (l : option (list (option Transaction.t)))
| ACustomer (p : option json.value)
| ACustomerAction (p : option json.value)
| ARefund (p : option Refund.t).

(** nil, or nothing to hand back *)
Definition absent (p : payload) : bool :=
  match p with
  | NoPayload
  | AnInvoice None | SomeInvoices None
  | ATailoredInvoice None | SomeTailoredInvoices None
  | ATransaction None | SomeTransactions None
  | ACustomer None | ACustomerAction None | ARefund None => true
  | _ => false
  end.

(** The three error types of the four files. *)
Inductive failure : Type :=
| OfError (e : Error.t)
| OfErrors (e : errors.t)
| Oferror (e : error).

(** the code an error carries, when its type has one *)
Definition failure_code (f : failure) : option string :=
  match f with
  | OfError e => Some (Error.Code e)
  | OfErrors e => Some (errors.Code e)
  | Oferror _ => None
  end.

Definition failure_message (f : failure) : string :=
  match f with
  | OfError e => Error.Message e
  | OfErrors e => errors.Message e
  | Oferror e => error_Error e
  end.

Record reply : Type := mkReply {
  reply_payload : payload;
  reply_error : option failure
}.

Definition with_payload {T} (wrap : T -> payload) (x : T * option Error.t) : reply :=
  mkReply (wrap x.1) (OfError <$> x.2).

Definition only_error (x : option Error.t) : reply := mkReply NoPayload (OfError <$> x).

Definition exec (c : call) (options : list Options) : Go reply :=
  match c with
  | Invoices_Authorize s invoice source =>
      x ← Invoices.Authorize s invoice source options; mret (only_error x)
  | Invoices_Capture s invoice source =>
      x ← Invoices.Capture s invoice source options; mret (only_error x)
  | Invoices_Customer s invoice =>
      x ← Invoices.Customer s invoice options; mret (with_payload ACustomer x)
  | Invoices_AssignCustomer s invoice customerID =>
      x ← Invoices.AssignCustomer s invoice customerID options;
      mret (with_payload ACustomer x)
  | Invoices_CustomerAction s invoice gatewayConfigurationID =>
      x ← Invoices.CustomerAction s invoice gatewayConfigurationID options;
      mret (with_payload ACustomerAction x)
  | Invoices_Transaction s invoice =>
      x ← Invoices.Transaction s invoice options; mret (with_payload ATransaction x)
  | Invoices_Void s invoice =>
      x ← Invoices.Void s invoice options; mret (only_error x)
  | Invoices_All s =>
      x ← Invoices.All s options; mret (with_payload SomeInvoices x)
  | Invoices_Create s invoice =>
      x ← Invoices.Create s invoice options; mret (with_payload AnInvoice x)
  | Invoices_Find s invoiceID =>
      x ← Invoices.Find s invoiceID options; mret (with_payload AnInvoice x)
  | TailoredInvoices_Invoice s tailoredInvoice =>
      x ← TailoredInvoices.Invoice s tailoredInvoice options;
      mret (with_payload AnInvoice x)
  | TailoredInvoices_All s =>
      x ← TailoredInvoices.All s options; mret (with_payload SomeTailoredInvoices x)
  | TailoredInvoices_Create s tailoredInvoice =>
      x ← TailoredInvoices.Create s tailoredInvoice options;
      mret (with_payload ATailoredInvoice x)
  | TailoredInvoices_Find s tailoredInvoiceID =>
      x ← TailoredInvoices.Find s tailoredInvoiceID options;
      mret (with_payload ATailoredInvoice x)
  | TailoredInvoices_Save s tailoredInvoice =>
      x ← TailoredInvoices.Save s tailoredInvoice options;
      mret (with_payload ATailoredInvoice x)
  | TailoredInvoices_Delete s tailoredInvoice =>
      x ← TailoredInvoices.Delete s tailoredInvoice options; mret (only_error x)
  | Refund_Find s transactionID refundID =>
      x ← Refund.Find s transactionID refundID options;
      mret (mkReply (ARefund x.1) (OfErrors <$> x.2))
  | Refund_Apply s transactionID =>
      x ← Refund.Apply s transactionID options;
      mret (mkReply NoPayload (OfErrors <$> x))
  | Transactions_All s =>
      x ← Transactions.All s options;
      mret (mkReply (SomeTransactions x.1) (Oferror <$> x.2))
  | Transactions_Find s transactionID =>
      x ← Transactions.Find s transactionID options;
      mret (mkReply (ATransaction x.1) (Oferror <$> x.2))
  end.


(* ===================================================================== *)
(** ** The one executor behind the bindings *)
(* ===================================================================== *)

(** The spec describes the bindings as instances of a single request
    executor.  [execute] is that executor, written after the spec's
    contract; [row_of] is the table of its instances; [exec_execute] below
    proves that each binding, as embedded from its source, runs as its row
    says. *)

(** the generation a file belongs to: it fixes the headers and the error
    type *)
Inductive family : Type :=
| WithError      (* invoice.go and the TailoredInvoices bindings *)
| WithErrors     (* refund.go *)
| Witherror.     (* the Transactions bindings *)

(** a decoded envelope *)
Record decoded : Type := mkDecoded {
  d_success : bool;
  d_message : string;
  d_code : string;
  d_payload : payload
}.

Record row : Type := mkRow {
  r_family : family;
  r_client : option ProcessOut;
  r_nil_argument : bool;
  r_method : string;
  r_path : string;
  r_fields : Options -> gmap string json.govalue;
  r_decode : (string -> bool) -> string -> error + decoded;
  r_none : payload
}.

Definition full {T} (wrap : T -> payload) (r : error + Response.t T) : error + decoded :=
  match r with
  | inl e => inl e
  | inr r => inr (mkDecoded (Response.Success r) (Response.Message r)
                    (Response.Code r) (wrap (Response.Payload r)))
  end.

Definition short {T} (wrap : T -> payload) (r : error + Response.short T)
  : error + decoded :=
  match r with
  | inl e => inl e
  | inr r => inr (mkDecoded (Response.short_Success r) (Response.short_Message r)
                    "" (wrap (Response.short_Payload r)))
  end.

Definition expand_filter (opt : Options) : gmap string json.govalue :=
  {[ "expand" := json.VStrings (Expand opt);
     "filter" := json.VString (Filter opt) ]}.

Definition decode_bare (tp : string -> bool) (body : string) : error + decoded :=
  full (fun _ => NoPayload) (decode "Response" Response.bare (Response.zero tt) body).

Definition decode_invoice (tp : string -> bool) (body : string) : error + decoded :=
  full (fun x => AnInvoice (Some x))
    (decode "Response" (Response.field "invoice" (struct_ "Invoice" (Invoice.field tp)))
       (Response.zero Invoice.zero) body).

Definition decode_tailored (tp : string -> bool) (body : string) : error + decoded :=
  full (fun x => ATailoredInvoice (Some x))
    (decode "Response"
       (Response.field "tailored_invoice"
          (struct_ "TailoredInvoice" (TailoredInvoice.field tp)))
       (Response.zero TailoredInvoice.zero) body).

Definition decode_customer (tp : string -> bool) (body : string) : error + decoded :=
  full (fun x => ACustomer (Some x))
    (decode "Response" (Response.field "customer" (opaque_ "Customer"))
       (Response.zero (json.Object [])) body).

Definition invoice_path (invoice : option Invoice.t) (suffix : string) : string :=
  "/invoices/" +:+ url.QueryEscape (from_option Invoice.ID "" invoice) +:+ suffix.

Definition tailored_path (x : option TailoredInvoice.t) (suffix : string) : string :=
  "/tailored-invoices/" +:+ url.QueryEscape (from_option TailoredInvoice.ID "" x)
    +:+ suffix.

Definition paging (opt : Options) : gmap string json.govalue :=
  {[ "expand" := json.VStrings (Expand opt);
     "filter" := json.VString (Filter opt);
     "limit" := json.VUint64 (Limit opt);
     "page" := json.VUint64 (Page opt);
     "end_before" := json.VString (EndBefore opt);
     "start_after" := json.VString (StartAfter opt) ]}.

Definition row_of (c : call) : row :=
  match c with
  | Invoices_Authorize s invoice source =>
      mkRow WithError (Invoices.p s) (is_nil invoice) "POST"
        (invoice_path invoice "/authorize")
        (fun opt => <["source" := json.VString source]> (expand_filter opt))
        decode_bare NoPayload
  | Invoices_Capture s invoice source =>
      mkRow WithError (Invoices.p s) (is_nil invoice) "POST"
        (invoice_path invoice "/capture")
        (fun opt => <["source" := json.VString source]> (expand_filter opt))
        decode_bare NoPayload
  | Invoices_Customer s invoice =>
      mkRow WithError (Invoices.p s) (is_nil invoice) "GET"
        (invoice_path invoice "/customers") expand_filter
        decode_customer (ACustomer None)
  | Invoices_AssignCustomer s invoice customerID =>
      mkRow WithError (Invoices.p s) (is_nil invoice) "POST"
        (invoice_path invoice "/customers")
        (fun opt => <["customer_id" := json.VString customerID]> (expand_filter opt))
        decode_customer (ACustomer None)
  | Invoices_CustomerAction s invoice gatewayConfigurationID =>
      mkRow WithError (Invoices.p s) (is_nil invoice) "GET"
        (invoice_path invoice
           ("/gateway-configurations/" +:+ url.QueryEscape gatewayConfigurationID
              +:+ "/customer-action"))
        expand_filter
        (fun tp body =>
           full (fun x => ACustomerAction (Some x))
             (decode "Response"
                (Response.field "customer_action" (opaque_ "CustomerAction"))
                (Response.zero (json.Object [])) body))
        (ACustomerAction None)
  | Invoices_Transaction s invoice =>
      mkRow WithError (Invoices.p s) (is_nil invoice) "GET"
        (invoice_path invoice "/transactions") expand_filter
        (fun tp body =>
           full (fun x => ATransaction (Some x))
             (decode "Response"
                (Response.field "transaction" (struct_ "Transaction" (Transaction.field tp)))
                (Response.zero Transaction.zero) body))
        (ATransaction None)
  | Invoices_Void s invoice =>
      mkRow WithError (Invoices.p s) (is_nil invoice) "POST"
        (invoice_path invoice "/void") expand_filter decode_bare NoPayload
  | Invoices_All s =>
      mkRow WithError (Invoices.p s) false "GET" "/invoices" expand_filter
        (fun tp body =>
           full SomeInvoices
             (decode "Response"
                (Response.field "invoices"
                   (slice_ "[]*Invoice"
                      (pointer_ "Invoice" Invoice.zero (Invoice.field tp)) None))
                (Response.zero None) body))
        (SomeInvoices None)
  | Invoices_Create s invoice =>
      let i := default Invoice.zero invoice in
      mkRow WithError (Invoices.p s) (is_nil invoice) "POST" "/invoices"
        (fun opt =>
           <["name" := json.VString (Invoice.Name i)]>
             (<["amount" := json.VString (Invoice.Amount i)]>
                (<["currency" := json.VString (Invoice.Currency i)]>
                   (<["metadata" := json.VStringMap (Invoice.Metadata i)]>
                      (<["request_email" := json.VBool (Invoice.RequestEmail i)]>
                         (<["request_shipping" := json.VBool (Invoice.RequestShipping i)]>
                            (<["return_url" := json.VString (Invoice.ReturnURL i)]>
                               (<["cancel_url" := json.VString (Invoice.CancelURL i)]>
                                  (expand_filter opt)))))))))
        decode_invoice (AnInvoice None)
  | Invoices_Find s invoiceID =>
      mkRow WithError (Invoices.p s) false "GET"
        ("/invoices/" +:+ url.QueryEscape invoiceID +:+ "") expand_filter
        decode_invoice (AnInvoice None)
  | TailoredInvoices_Invoice s tailoredInvoice =>
      mkRow WithError (TailoredInvoices.p s) (is_nil tailoredInvoice) "POST"
        (tailored_path tailoredInvoice "/invoices") expand_filter
        decode_invoice (AnInvoice None)
  | TailoredInvoices_All s =>
      mkRow WithError (TailoredInvoices.p s) false "GET" "/tailored-invoices"
        expand_filter
        (fun tp body =>
           full SomeTailoredInvoices
             (decode "Response"
                (Response.field "tailored_invoices"
                   (slice_ "[]*TailoredInvoice"
                      (pointer_ "TailoredInvoice" TailoredInvoice.zero
                         (TailoredInvoice.field tp)) None))
                (Response.zero None) body))
        (SomeTailoredInvoices None)
  | TailoredInvoices_Create s tailoredInvoice
  | TailoredInvoices_Save s tailoredInvoice =>
      let i := default TailoredInvoice.zero tailoredInvoice in
      mkRow WithError (TailoredInvoices.p s) (is_nil tailoredInvoice)
        (match c with TailoredInvoices_Save _ _ => "PUT" | _ => "POST" end)
        (match c with
         | TailoredInvoices_Save _ _ => tailored_path tailoredInvoice ""
         | _ => "/tailored-invoices"
         end)
        (fun opt =>
           <["name" := json.VString (TailoredInvoice.Name i)]>
             (<["amount" := json.VString (TailoredInvoice.Amount i)]>
                (<["currency" := json.VString (TailoredInvoice.Currency i)]>
                   (<["metadata" := json.VStringMap (TailoredInvoice.Metadata i)]>
                      (<["request_email" := json.VBool (TailoredInvoice.RequestEmail i)]>
                         (<["request_shipping" :=
                              json.VBool (TailoredInvoice.RequestShipping i)]>
                            (<["return_url" := json.VString (TailoredInvoice.ReturnURL i)]>
                               (<["cancel_url" :=
                                    json.VString (TailoredInvoice.CancelURL i)]>
                                  (expand_filter opt)))))))))
        decode_tailored (ATailoredInvoice None)
  | TailoredInvoices_Find s tailoredInvoiceID =>
      mkRow WithError (TailoredInvoices.p s) false "GET"
        ("/tailored-invoices/" +:+ url.QueryEscape tailoredInvoiceID +:+ "")
        expand_filter decode_tailored (ATailoredInvoice None)
  | TailoredInvoices_Delete s tailoredInvoice =>
      mkRow WithError (TailoredInvoices.p s) (is_nil tailoredInvoice) "DELETE"
        (tailored_path tailoredInvoice "") expand_filter decode_bare NoPayload
  | Refund_Find s transactionID refundID =>
      mkRow WithErrors (Refund.Client s) false "GET"
        ("/transactions/" +:+ url.QueryEscape transactionID +:+ "/refunds/"
           +:+ url.QueryEscape refundID +:+ "")
        paging
        (fun tp body =>
           full (fun x => ARefund (Refund.SetClient x (Refund.Client s)))
             (decode "Response"
                (Response.field "refund"
                   (pointer_ "Refund" Refund.zero (Refund.field tp)))
                (Response.zero None) body))
        (ARefund None)
  | Refund_Apply s transactionID =>
      mkRow WithErrors (Refund.Client s) false "POST"
        ("/transactions/" +:+ url.QueryEscape transactionID +:+ "/refunds")
        (fun opt =>
           <["amount" := json.VString (Refund.Amount s)]>
             (<["metadata" := json.VStringMap (Refund.Metadata s)]>
                (<["reason" := json.VString (Refund.Reason s)]>
                   (<["information" := json.VString (Refund.Information s)]>
                      (paging opt)))))
        decode_bare NoPayload
  | Transactions_All s =>
      mkRow Witherror (Transactions.p s) false "GET" "/transactions"
        (fun opt => {[ "expand" := json.VStrings (Expand opt) ]})
        (fun tp body =>
           short SomeTransactions
             (decode "Response"
                (Response.short_field "transactions"
                   (slice_ "[]*Transaction"
                      (pointer_ "Transaction" Transaction.zero (Transaction.field tp))
                      None))
                (Response.short_zero None) body))
        (SomeTransactions None)
  | Transactions_Find s transactionID =>
      mkRow Witherror (Transactions.p s) false "GET"
        ("/transactions/" +:+ url.QueryEscape transactionID +:+ "")
        (fun opt => {[ "expand" := json.VStrings (Expand opt) ]})
        (fun tp body =>
           short (fun x => ATransaction (Some x))
             (decode "Response"
                (Response.short_field "transaction"
                   (struct_ "Transaction" (Transaction.field tp)))
                (Response.short_zero Transaction.zero) body))
        (ATransaction None)
  end.

Definition options_once : string :=
  "The options parameter should only be provided once.".

Definition use_NewRefund : string :=
  "Please use the client.NewRefund() method to create a new Refund object".

(** the error a family wraps a Go error in *)
Definition wrap (f : family) (err : error) : failure :=
  match f with
  | WithError => OfError (newError err)
  | WithErrors => OfErrors (errors.New err "" "")
  | Witherror => Oferror err
  end.

(** the error a family makes of an envelope that does not report success *)
Definition refusal (f : family) (status : Z) (d : decoded) : failure :=
  match f with
  | WithError =>
      OfError (Error.set_Code (d_code d) (newError (errorString (d_message d))))
  | WithErrors => OfErrors (errors.NewFromResponse status (d_code d) (d_message d))
  | Witherror => Oferror (errorString (d_message d))
  end.

Definition headers (f : family) (client : ProcessOut) (opt : Options)
  (req : http.Request) : http.Request :=
  let req := match f with
             | Witherror => req
             | _ => Header_Set "Content-Type" "application/json" req
             end in
  let req := Header_Set "API-Version" (APIVersion client) req in
  let req := Header_Set "Accept" "application/json" req in
  let req := if negb (String.eqb (IdempotencyKey opt) "")
             then Header_Set "Idempotency-Key" (IdempotencyKey opt) req
             else req in
  let req := match f with
             | Witherror => req
             | _ => if DisableLogging opt
                    then Header_Set "Disable-Logging" "true" req
                    else req
             end in
  http.SetBasicAuth (projectID client) (projectSecret client) req.

(** what is done with the response, or with the transport's error *)
Definition conclude (r : row) (w : World) (res : error + http.Response) : reply :=
  match res with
  | inl err => mkReply (r_none r) (Some (wrap (r_family r) err))
  | inr res =>
      match r_decode r (time_Parse_ok w) (http.RespBody res) with
      | inl err => mkReply (r_none r) (Some (wrap (r_family r) err))
      | inr d =>
          if d_success d then mkReply (d_payload d) None
          else mkReply (r_none r)
                 (Some (refusal (r_family r) (http.StatusCode res) d))
      end
  end.

Definition execute (r : row) (options : list Options) : Go reply :=
  fun w sent =>
    if match r_family r with WithErrors => is_nil (r_client r) | _ => false end
    then (Panics (PanicString use_NewRefund), sent)
    else
      match options with
      | _ :: _ :: _ => (Panics (PanicString options_once), sent)
      | _ =>
          let opt := hd Options_zero options in
          if r_nil_argument r then (Panics NilDereference, sent)
          else
            match http.NewRequest (url_Parse_ok w) (r_method r)
                    (w_Host w +:+ r_path r)
                    (json.encode (r_fields r opt)) with
            | inl err => (Returns (mkReply (r_none r) (Some (wrap (r_family r) err))), sent)
            | inr req =>
                match r_client r with
                | None => (Panics NilDereference, sent)
                | Some client =>
                    let req := headers (r_family r) client opt req in
                    (Returns (conclude r w (RoundTrip w req)), (sent ++ [req])%list)
                end
            end
      end.


(* ===================================================================== *)
(** ** What is observed of a run *)
(* ===================================================================== *)

Definition is_Refund (c : call) : bool :=
  match c with
  | Refund_Find _ _ _ | Refund_Apply _ _ => true
  | _ => false
  end.

Definition is_Transactions (c : call) : bool :=
  match c with
  | Transactions_All _ | Transactions_Find _ _ => true
  | _ => false
  end.

(** the client the receiver of a call holds *)
Definition client_of (c : call) : option ProcessOut := r_client (row_of c).

(** no nil pointer among the receiver's client and the arguments *)
Definition pointers_set (c : call) : bool :=
  negb (is_nil (client_of c)) && negb (r_nil_argument (row_of c)).

(** the URL a call asks for *)
Definition target (c : call) (w : World) : string := w_Host w +:+ r_path (row_of c).

(** the options a call works with: the one given, or [Options{}] *)
Definition chosen (options : list Options) : Options := hd Options_zero options.

(** the values a request carries under a header name *)
Definition carried (key : string) (req : http.Request) : option (list string) :=
  http.Header req !! http.CanonicalMIMEHeaderKey key.

Definition some_client : ProcessOut := mkProcessOut "1.3.0.0" "proj_1" "key_1".

(** a world whose transport answers every request with the same response *)
Definition answering (status : Z) (body : string) : World :=
  mkWorld "https://api.processout.com" (fun _ => true)
    (fun _ => inr (http.mkResponse status body)) (fun _ => true).

(** C3 as the spec words it: all five headers on every request of every
    binding. *)
Definition carries_all_headers (opt : Options) (req : http.Request) : Prop :=
  carried "Content-Type" req = Some ["application/json"]
  /\ carried "Accept" req = Some ["application/json"]
  /\ is_Some (carried "API-Version" req)
  /\ (is_Some (carried "Idempotency-Key" req) <-> IdempotencyKey opt <> "")
  /\ (carried "Disable-Logging" req = Some ["true"] <-> DisableLogging opt = true).

(** C8 as the spec words it.  The body is marshaled and the request is
    constructed: no nil argument stops the call on the way, [json.Marshal]
    returns the body and [http.NewRequest] returns a request. *)
Definition request_constructed (c : call) (options : list Options) (w : World)
  : Prop :=
  r_nil_argument (row_of c) = false
  /\ exists body req,
       json.Marshal (r_fields (row_of c) (chosen options)) = inr body
       /\ http.NewRequest (url_Parse_ok w) (r_method (row_of c)) (target c w) body
          = inr req.

(** With at most one options value, a call whose request is constructed
    sends exactly one request. *)
Definition one_request_when_constructed (c : call) (options : list Options)
  (w : World) (sent : list http.Request) : Prop :=
  (length options <= 1)%nat ->
  request_constructed c options w ->
  exists req, (exec c options w sent).2 = (sent ++ [req])%list.

(** The spec's envelope: the three fields every response has.  It is the
    payload-free [Response] struct of the bindings. *)
Definition Envelope : Type := Response.t unit.

Definition decode_Envelope (body : string) : error + Envelope :=
  decode "Response" Response.bare (Response.zero tt) body.

(** the envelope fields of a struct with a payload and of the bare struct *)
Definition same_envelope {T} (r : Response.t T) (e : Envelope) : Prop :=
  Response.Success r = Response.Success e
  /\ Response.Message r = Response.Message e
  /\ Response.Code r = Response.Code e.

Definition same_short {T} (r : Response.short T) (e : Envelope) : Prop :=
  Response.short_Success r = Response.Success e
  /\ Response.short_Message r = Response.Message e.

(** the envelope as the binding behind a call decodes it, payload included *)
Definition envelope_of (c : call) (w : World) (body : string) : error + decoded :=
  r_decode (row_of c) (time_Parse_ok w) body.

Definition not_found : string :=
  quoted "{'success':false,'message':'Transaction not found','error_type':'resource.transaction.not-found'}".

(** C1 as the spec words it, for one call in one world. *)
Definition error_mirrors_envelope (c : call) (options : list Options) (w : World)
  : Prop :=
  forall (req : http.Request) (status : Z) (body : string) (d : decoded)
         (e : Envelope),
    (exec c options w []).2 = [req] ->
    RoundTrip w req = inr (http.mkResponse status body) ->
    envelope_of c w body = inr d ->
    decode_Envelope body = inr e ->
    Response.Success e = false ->
    exists p f,
      (exec c options w []).1 = Returns (mkReply p (Some f))
      /\ absent p = true
      /\ failure_code f = Some (Response.Code e)
      /\ failure_message f = Response.Message e.

(** the same world with another transport *)
Definition with_transport (rt : http.Request -> error + http.Response) (w : World)
  : World :=
  mkWorld (w_Host w) (url_Parse_ok w) rt (time_Parse_ok w).

(** how a run ended: with the payload, with an error, or ([None]) with a
    panic *)
Definition succeeded (o : outcome reply) : option bool :=
  match o with
  | Returns r => Some (is_nil (reply_error r))
  | Panics _ => None
  end.

Definition found_invoice : string :=
  quoted "{'success':true,'invoice':{'id':'inv_123','name':'Test'}}".

(** Percent-encoding as the spec asks for it: every byte that is not
    unreserved is written as [%] and two hexadecimal digits. *)
Fixpoint percent_encode (s : string) : string :=
  match s with
  | EmptyString => ""
  | String c s' =>
      (if url.shouldEscape c then url.hex2 c else String c "") +:+ percent_encode s'
  end.

(** what [url.QueryEscape] makes of one byte: as above, but for the space *)
Definition escape_byte (c : ascii) : string :=
  if Bytes.eqb c " " then "+" else percent_encode (String c "").

Fixpoint escape_bytes (s : string) : string :=
  match s with
  | EmptyString => ""
  | String c s' => escape_byte c +:+ escape_bytes s'
  end.

(** the bytes an escaped identifier is made of *)
Definition segment_byte (c : ascii) : bool :=
  Bytes.is_alnum c || Bytes.mem c "-_.~+%".

(** the path templates: fixed words and identifiers, one per segment *)
Inductive piece : Type :=
| Fixed (word : string)
| Ident (id : string).

Definition segment (p : piece) : string :=
  match p with
  | Fixed word => word
  | Ident id => url.QueryEscape id
  end.

Fixpoint render (t : list piece) : string :=
  match t with
  | [] => ""
  | p :: t' => "/" +:+ segment p +:+ render t'
  end.

Definition template (c : call) : list piece :=
  let invoice i := Ident (from_option Invoice.ID "" i) in
  let tailored i := Ident (from_option TailoredInvoice.ID "" i) in
  match c with
  | Invoices_Authorize _ i _ => [Fixed "invoices"; invoice i; Fixed "authorize"]
  | Invoices_Capture _ i _ => [Fixed "invoices"; invoice i; Fixed "capture"]
  | Invoices_Customer _ i => [Fixed "invoices"; invoice i; Fixed "customers"]
  | Invoices_AssignCustomer _ i _ => [Fixed "invoices"; invoice i; Fixed "customers"]
  | Invoices_CustomerAction _ i g =>
      [Fixed "invoices"; invoice i; Fixed "gateway-configurations"; Ident g;
       Fixed "customer-action"]
  | Invoices_Transaction _ i => [Fixed "invoices"; invoice i; Fixed "transactions"]
  | Invoices_Void _ i => [Fixed "invoices"; invoice i; Fixed "void"]
  | Invoices_All _ => [Fixed "invoices"]
  | Invoices_Create _ _ => [Fixed "invoices"]
  | Invoices_Find _ id => [Fixed "invoices"; Ident id]
  | TailoredInvoices_Invoice _ i => [Fixed "tailored-invoices"; tailored i; Fixed "invoices"]
  | TailoredInvoices_All _ => [Fixed "tailored-invoices"]
  | TailoredInvoices_Create _ _ => [Fixed "tailored-invoices"]
  | TailoredInvoices_Find _ id => [Fixed "tailored-invoices"; Ident id]
  | TailoredInvoices_Save _ i => [Fixed "tailored-invoices"; tailored i]
  | TailoredInvoices_Delete _ i => [Fixed "tailored-invoices"; tailored i]
  | Refund_Find _ t r => [Fixed "transactions"; Ident t; Fixed "refunds"; Ident r]
  | Refund_Apply _ t => [Fixed "transactions"; Ident t; Fixed "refunds"]
  | Transactions_All _ => [Fixed "transactions"]
  | Transactions_Find _ id => [Fixed "transactions"; Ident id]
  end.

(** the number of [/] in a string *)
Fixpoint slashes (s : string) : nat :=
  match s with
  | EmptyString => 0
  | String c s' => (if Bytes.eqb c "/" then 1 else 0) + slashes s'
  end.


(* ===================================================================== *)
(** ** More of what is observed of a run *)
(* ===================================================================== *)

(** a nil pointer among the arguments of a call *)
Definition nil_argument (c : call) : bool :=
  match c with
  | Invoices_Authorize _ i _ | Invoices_Capture _ i _ | Invoices_Customer _ i
  | Invoices_AssignCustomer _ i _ | Invoices_CustomerAction _ i _
  | Invoices_Transaction _ i | Invoices_Void _ i | Invoices_Create _ i => is_nil i
  | TailoredInvoices_Invoice _ i | TailoredInvoices_Create _ i
  | TailoredInvoices_Save _ i | TailoredInvoices_Delete _ i => is_nil i
  | _ => false
  end.

(** the error type of the file a call belongs to, around a Go error *)
Definition wrapped (c : call) (err : error) : failure :=
  if is_Refund c then OfErrors (errors.New err "" "")
  else if is_Transactions c then Oferror err
  else OfError (newError err).

(** the calls that hand back one resource through a pointer into the
    decoded struct: [return &payload.Invoice, nil] and the like *)
Definition returns_address (c : call) : bool :=
  match c with
  | Invoices_Customer _ _ | Invoices_AssignCustomer _ _ _
  | Invoices_CustomerAction _ _ _ | Invoices_Transaction _ _
  | Invoices_Create _ _ | Invoices_Find _ _
  | TailoredInvoices_Invoice _ _ | TailoredInvoices_Create _ _
  | TailoredInvoices_Find _ _ | TailoredInvoices_Save _ _
  | Transactions_Find _ _ => true
  | _ => false
  end.

(** the calls that hand back a slice or the decoded pointer itself:
    [return payload.Invoices, nil], [return payload.Refund, nil] *)
Definition returns_field (c : call) : bool :=
  match c with
  | Invoices_All _ | TailoredInvoices_All _ | Transactions_All _
  | Refund_Find _ _ _ => true
  | _ => false
  end.

(** what a binding that only addresses an invoice reads of it: the ID *)
Definition Invoice_addressed (i : Invoice.t) : Invoice.t :=
  Invoice.mk (Invoice.ID i) None None None None "" "" "" "" None false false "" ""
    false Time_zero.

(** what [Invoices.Create] reads of the invoice: the eight attributes it
    puts in the body *)
Definition Invoice_created (i : Invoice.t) : Invoice.t :=
  Invoice.mk "" None None None None "" (Invoice.Name i) (Invoice.Amount i)
    (Invoice.Currency i) (Invoice.Metadata i) (Invoice.RequestEmail i)
    (Invoice.RequestShipping i) (Invoice.ReturnURL i) (Invoice.CancelURL i)
    false Time_zero.

Definition TailoredInvoice_addressed (i : TailoredInvoice.t) : TailoredInvoice.t :=
  TailoredInvoice.mk (TailoredInvoice.ID i) "" "" "" None false false "" "" "" Time_zero.

(** what [TailoredInvoices.Save] reads: the ID and the eight attributes;
    [Create] reads the attributes only *)
Definition TailoredInvoice_saved (i : TailoredInvoice.t) : TailoredInvoice.t :=
  TailoredInvoice.mk (TailoredInvoice.ID i) (TailoredInvoice.Name i)
    (TailoredInvoice.Amount i) (TailoredInvoice.Currency i)
    (TailoredInvoice.Metadata i) (TailoredInvoice.RequestEmail i)
    (TailoredInvoice.RequestShipping i) (TailoredInvoice.ReturnURL i)
    (TailoredInvoice.CancelURL i) "" Time_zero.

Definition TailoredInvoice_created (i : TailoredInvoice.t) : TailoredInvoice.t :=
  TailoredInvoice.mk "" (TailoredInvoice.Name i)
    (TailoredInvoice.Amount i) (TailoredInvoice.Currency i)
    (TailoredInvoice.Metadata i) (TailoredInvoice.RequestEmail i)
    (TailoredInvoice.RequestShipping i) (TailoredInvoice.ReturnURL i)
    (TailoredInvoice.CancelURL i) "" Time_zero.

(** a call with the resource argument cut down to what the binding reads *)
Definition argument_read (c : call) : call :=
  match c with
  | Invoices_Authorize s i source => Invoices_Authorize s (Invoice_addressed <$> i) source
  | Invoices_Capture s i source => Invoices_Capture s (Invoice_addressed <$> i) source
  | Invoices_Customer s i => Invoices_Customer s (Invoice_addressed <$> i)
  | Invoices_AssignCustomer s i customerID =>
      Invoices_AssignCustomer s (Invoice_addressed <$> i) customerID
  | Invoices_CustomerAction s i g => Invoices_CustomerAction s (Invoice_addressed <$> i) g
  | Invoices_Transaction s i => Invoices_Transaction s (Invoice_addressed <$> i)
  | Invoices_Void s i => Invoices_Void s (Invoice_addressed <$> i)
  | Invoices_Create s i => Invoices_Create s (Invoice_created <$> i)
  | TailoredInvoices_Invoice s i =>
      TailoredInvoices_Invoice s (TailoredInvoice_addressed <$> i)
  | TailoredInvoices_Create s i =>
      TailoredInvoices_Create s (TailoredInvoice_created <$> i)
  | TailoredInvoices_Save s i => TailoredInvoices_Save s (TailoredInvoice_saved <$> i)
  | TailoredInvoices_Delete s i =>
      TailoredInvoices_Delete s (TailoredInvoice_addressed <$> i)
  | _ => c
  end.

(** what [Refund.Find] reads of its receiver: the client; what
    [Refund.Apply] reads: the client and the four fields it sends *)
Definition Refund_finding (s : Refund.t) : Refund.t :=
  Refund.mk (Refund.Client s) "" None "" "" "" None false None.

Definition Refund_applied (s : Refund.t) : Refund.t :=
  Refund.mk (Refund.Client s) "" None (Refund.Reason s) (Refund.Information s)
    (Refund.Amount s) (Refund.Metadata s) false None.

Definition receiver_read (c : call) : call :=
  match c with
  | Refund_Find s t r => Refund_Find (Refund_finding s) t r
  | Refund_Apply s t => Refund_Apply (Refund_applied s) t
  | _ => c
  end.

(** the key under which the envelope struct of a call stores the payload *)
Definition payload_key (c : call) : option string :=
  match c with
  | Invoices_Customer _ _ | Invoices_AssignCustomer _ _ _ => Some "customer"
  | Invoices_CustomerAction _ _ _ => Some "customer_action"
  | Invoices_Transaction _ _ | Transactions_Find _ _ => Some "transaction"
  | Invoices_All _ => Some "invoices"
  | Invoices_Create _ _ | Invoices_Find _ _ | TailoredInvoices_Invoice _ _ =>
      Some "invoice"
  | TailoredInvoices_All _ => Some "tailored_invoices"
  | TailoredInvoices_Create _ _ | TailoredInvoices_Find _ _
  | TailoredInvoices_Save _ _ => Some "tailored_invoice"
  | Refund_Find _ _ _ => Some "refund"
  | Transactions_All _ => Some "transactions"
  | _ => None
  end.

(** what a call hands back of an envelope struct whose payload field was
    never stored into *)
Definition untouched_payload (c : call) : payload :=
  match c with
  | Invoices_Customer _ _ | Invoices_AssignCustomer _ _ _ =>
      ACustomer (Some (json.Object []))
  | Invoices_CustomerAction _ _ _ => ACustomerAction (Some (json.Object []))
  | Invoices_Transaction _ _ | Transactions_Find _ _ =>
      ATransaction (Some Transaction.zero)
  | Invoices_All _ => SomeInvoices None
  | Invoices_Create _ _ | Invoices_Find _ _ | TailoredInvoices_Invoice _ _ =>
      AnInvoice (Some Invoice.zero)
  | TailoredInvoices_All _ => SomeTailoredInvoices None
  | TailoredInvoices_Create _ _ | TailoredInvoices_Find _ _
  | TailoredInvoices_Save _ _ => ATailoredInvoice (Some TailoredInvoice.zero)
  | Refund_Find _ _ _ => ARefund None
  | Transactions_All _ => SomeTransactions None
  | _ => NoPayload
  end.

(** no member of an object is stored under a field name *)
Definition without_key (name : string) (l : list (string * json.value)) : Prop :=
  Forall (fun kv => keyIs name kv.1 = false) l.

(** [url.QueryUnescape], what a server does to a path segment written by
    [url.QueryEscape]: [%] and two hexadecimal digits give a byte, [+]
    gives a space; [None] is the escape error. *)
Fixpoint url_QueryUnescape (s : string) : option string :=
  match s with
  | EmptyString => Some ""
  | String c rest =>
      if Bytes.eqb c "%" then
        match rest with
        | String h1 (String h2 rest') =>
            match json.hexval h1, json.hexval h2 with
            | Some a, Some b =>
                String (Bytes.chr (Z.lor (Z.shiftl a 4) b)) <$> url_QueryUnescape rest'
            | _, _ => None
            end
        | _ => None
        end
      else if Bytes.eqb c "+" then String " " <$> url_QueryUnescape rest
      else String c <$> url_QueryUnescape rest
  end.

(** the pattern of a path: its fixed words, and where identifiers go *)
Definition shape (t : list piece) : list (option string) :=
  map (fun p => match p with Fixed word => Some word | Ident _ => None end) t.

(** a fixed word of a template is one segment *)
Definition one_segment (p : piece) : Prop :=
  match p with
  | Fixed word => slashes word = 0%nat
  | Ident _ => True
  end.

(** bodies and receivers for the examples *)
Definition refund_body : string :=
  quoted "{'success':true,'refund':{'id':'re_1','client':{},'transaction':{'id':'tr_1'}}}".

Definition applied_refund : Refund.t :=
  Refund.mk (Some some_client) "" None "duplicate" "" "10.00" None false None.

Definition only_an_invoice : string :=
  quoted "{'invoice':{'id':'inv_123'},'message':'here it is'}".

Definition bare_success : string := quoted "{'success':true}".


(* ===================================================================== *)
(** ** Checks of the library model on small inputs *)
(* ===================================================================== *)

Example QueryEscape_plain : url.QueryEscape "inv_123" = "inv_123".
Proof. reflexivity. Qed.

Example QueryEscape_reserved : url.QueryEscape "a b/c?d#e~f" = "a+b%2Fc%3Fd%23e~f".
Proof. reflexivity. Qed.

Example base64_padding :
  base64.EncodeToString "Man" = "TWFu"
  /\ base64.EncodeToString "Ma" = "TWE="
  /\ base64.EncodeToString "M" = "TQ==".
Proof. repeat split. Qed.

Example canonical_header_names :
  http.CanonicalMIMEHeaderKey "API-Version" = "Api-Version"
  /\ http.CanonicalMIMEHeaderKey "content-type" = "Content-Type"
  /\ http.CanonicalMIMEHeaderKey "Disable-Logging" = "Disable-Logging".
Proof. repeat split. Qed.

Example Marshal_sorts_and_escapes :
  json.Marshal {[ "filter" := json.VString "a<b";
                  "expand" := json.VStrings (Some ["card"; "customer"]);
                  "limit" := json.VUint64 20 ]}
  = inr (quoted "{'expand':['card','customer'],'filter':'a\u003cb','limit':20}").
Proof. vm_compute. reflexivity. Qed.

Example readValue_object :
  json.readValue (quoted "{'success':false, 'message':'no', 'n':[1,2.5e3,null]} trailing")
  = inr (json.Object [("success", json.Bool false); ("message", json.Str "no");
                      ("n", json.Array [json.Number "1"; json.Number "2.5e3"; json.Null])]).
Proof. vm_compute. reflexivity. Qed.

Example readValue_errors :
  json.readValue "" = inl EOF
  /\ json.readValue (quoted "{'success':") = inl ErrUnexpectedEOF
  /\ json.readValue "<html>"
     = inl (SyntaxError "invalid character < looking for beginning of value").
Proof. repeat split. Qed.

Example decode_Envelope_folds_keys :
  decode_Envelope (quoted "{'Success':true,'MESSAGE':'ok','error_type':null}")
  = inr (Response.mk tt true "ok" "").
Proof. vm_compute. reflexivity. Qed.

Example decode_Envelope_type_error :
  decode_Envelope (quoted "{'success':'yes'}")
  = inl (UnmarshalTypeError "string" "bool").
Proof. vm_compute. reflexivity. Qed.


(* ===================================================================== *)
(** ** The bindings run as their rows say *)
(* ===================================================================== *)

(** Unfolding a binding down to the library calls it is made of. *)
Ltac unfold_bindings :=
  cbv beta iota zeta delta
    [exec execute row_of conclude headers wrap refusal full short
     only_error with_payload
     Invoices.Authorize Invoices.Capture Invoices.Customer Invoices.AssignCustomer
     Invoices.CustomerAction Invoices.Transaction Invoices.Void Invoices.All
     Invoices.Create Invoices.Find
     TailoredInvoices.Invoice TailoredInvoices.All TailoredInvoices.Create
     TailoredInvoices.Find TailoredInvoices.Save TailoredInvoices.Delete
     Refund.Find Refund.Apply Transactions.All Transactions.Find
     mbind mret Go_bind Go_ret panic deref is_nil Host http_NewRequest
     http_DefaultClient_Do json_Decode json.Marshal
     decode_bare decode_invoice decode_tailored decode_customer
     invoice_path tailored_path expand_filter paging
     r_family r_client r_nil_argument r_method r_path r_fields r_decode r_none
     d_success d_message d_code d_payload
     options_once use_NewRefund
     fmap option_fmap option_map fst snd default from_option id
     length Nat.eqb Nat.ltb Nat.leb nth hd
     Invoices.p TailoredInvoices.p Transactions.p Refund.Client].

Ltac split_run :=
  repeat first
    [ progress cbn [Response.Success Response.Message Response.Code Response.Payload
                    Response.short_Success Response.short_Message
                    Response.short_Payload negb]
    | match goal with
      | |- context [match ?x with _ => _ end] =>
          lazymatch x with
          | http.NewRequest _ _ _ _ => destruct x
          | RoundTrip _ _ => destruct x
          | decode _ _ _ _ => destruct x
          | _ => is_var x; destruct x
          end
      | |- context [negb ?x] => is_var x; destruct x
      | |- context [Response.Success ?x] => is_var x; destruct x
      | |- context [Response.short_Success ?x] => is_var x; destruct x
      | |- context [if ?x then _ else _] => is_var x; destruct x
      end ].

Lemma exec_execute (c : call) (options : list Options) (w : World)
  (sent : list http.Request) :
  exec c options w sent = execute (row_of c) options w sent.
Proof.
  destruct options as [|o [|o' options]];
    destruct c; try destruct s; unfold_bindings; split_run; reflexivity.
Qed.


(* ===================================================================== *)
(** ** Properties of the bindings *)
(* ===================================================================== *)

Lemma family_of_call (c : call) :
  r_family (row_of c) =
    if is_Refund c then WithErrors
    else if is_Transactions c then Witherror else WithError.
Proof. destruct c; reflexivity. Qed.

Lemma execute_twice (r : row) (o o' : Options) (options : list Options)
  (w : World) (sent : list http.Request) :
  execute r (o :: o' :: options) w sent =
    (Panics (PanicString
               (if match r_family r with WithErrors => is_nil (r_client r) | _ => false end
                then use_NewRefund else options_once)), sent).
Proof. unfold execute. destruct (match r_family r with WithErrors => _ | _ => _ end); reflexivity. Qed.

(** What [execute] does with at most one options value, case by case. *)
Lemma execute_once (r : row) (options : list Options) (w : World)
  (sent : list http.Request) :
  (length options <= 1)%nat ->
  execute r options w sent =
    if match r_family r with WithErrors => is_nil (r_client r) | _ => false end
    then (Panics (PanicString use_NewRefund), sent)
    else if r_nil_argument r then (Panics NilDereference, sent)
    else
      match http.NewRequest (url_Parse_ok w) (r_method r) (w_Host w +:+ r_path r)
              (json.encode (r_fields r (chosen options))) with
      | inl err => (Returns (mkReply (r_none r) (Some (wrap (r_family r) err))), sent)
      | inr req =>
          match r_client r with
          | None => (Panics NilDereference, sent)
          | Some client =>
              let req := headers (r_family r) client (chosen options) req in
              (Returns (conclude r w (RoundTrip w req)), (sent ++ [req])%list)
          end
      end.
Proof.
  intros Hlen. unfold execute, chosen.
  destruct options as [|o [|o' options]]; [reflexivity | reflexivity |].
  simpl in Hlen. lia.
Qed.

(** C5: calling a binding with no options value gives the same requests
    and the same result as calling it with one zero-valued options value,
    whatever the other arguments and the world are. *)
Theorem no_options_is_zero_options (c : call) (w : World) (sent : list http.Request) :
  exec c [] w sent = exec c [Options_zero] w sent.
Proof. rewrite !exec_execute. reflexivity. Qed.

(** C2: with two or more options values every binding panics with a
    message, whatever the values hold and whatever the other arguments are,
    and nothing has been sent; with at most one options value the panic
    about the options never happens. *)
Theorem options_given_twice (c : call) (options : list Options) (w : World)
  (sent : list http.Request) :
  ((2 <= length options)%nat ->
   exists msg, exec c options w sent = (Panics (PanicString msg), sent)
               /\ msg = (if is_Refund c && is_nil (client_of c)
                         then use_NewRefund else options_once))
  /\ ((length options <= 1)%nat ->
      (exec c options w sent).1 <> Panics (PanicString options_once)).
Proof.
  rewrite exec_execute. split.
  - intros Hlen. destruct options as [|o [|o' options]]; simpl in Hlen; try lia.
    rewrite execute_twice. eexists; split; [reflexivity|].
    unfold client_of. rewrite family_of_call.
    destruct (is_Refund c) eqn:Hr; [reflexivity|].
    destruct (is_Transactions c); reflexivity.
  - intros Hlen. rewrite execute_once by assumption.
    repeat match goal with
           | |- context [match ?x with _ => _ end] => destruct x
           end; simpl; discriminate.
Qed.

Lemma options_given_twice_witness :
  (exists msg,
      exec (Invoices_Find (Invoices.mk None) "inv_123")
        [Options_zero; Options_zero]
        (mkWorld "" (fun _ => true) (fun _ => inl EOF) (fun _ => true)) []
      = (Panics (PanicString msg), [])
      /\ msg = options_once)
  /\ (exec (Invoices_Find (Invoices.mk None) "inv_123") []
        (mkWorld "" (fun _ => true) (fun _ => inl EOF) (fun _ => true)) []).1
     <> Panics (PanicString options_once).
Proof.
  split.
  - apply (proj1 (options_given_twice (Invoices_Find (Invoices.mk None) "inv_123")
                    [Options_zero; Options_zero]
                    (mkWorld "" (fun _ => true) (fun _ => inl EOF) (fun _ => true)) [])).
    simpl. lia.
  - apply (proj2 (options_given_twice (Invoices_Find (Invoices.mk None) "inv_123") []
                    (mkWorld "" (fun _ => true) (fun _ => inl EOF) (fun _ => true)) [])).
    simpl. lia.
Defined.


(** C9: a Refund without a client panics in [Find] and in [Apply] with the
    message that points to [client.NewRefund], whatever the options are
    and before anything is sent; the bindings of the other three resource
    types never raise that panic, and with a nil client and two options
    values they panic about the options: the client is not looked at
    first. *)
Theorem refund_checks_its_client (c : call) (options : list Options) (w : World)
  (sent : list http.Request) :
  (is_Refund c = true -> client_of c = None ->
   exec c options w sent = (Panics (PanicString use_NewRefund), sent))
  /\ (is_Refund c = false ->
      (exec c options w sent).1 <> Panics (PanicString use_NewRefund)
      /\ (client_of c = None -> (2 <= length options)%nat ->
          exec c options w sent = (Panics (PanicString options_once), sent))).
Proof.
  rewrite exec_execute. unfold client_of. split.
  - intros Hr Hc. pose proof (family_of_call c) as Hf. rewrite Hr in Hf.
    unfold execute. rewrite Hf, Hc. reflexivity.
  - intros Hr. pose proof (family_of_call c) as Hf. rewrite Hr in Hf. split.
    + destruct options as [|o [|o' options]].
      1,2: rewrite execute_once by (simpl; lia); rewrite Hf;
        destruct (is_Transactions c);
        repeat match goal with
               | |- context [match ?x with _ => _ end] => destruct x
               end; simpl; discriminate.
      rewrite execute_twice, Hf. destruct (is_Transactions c); simpl; discriminate.
    + intros Hc Hlen. destruct options as [|o [|o' options]]; simpl in Hlen; try lia.
      rewrite execute_twice, Hf. destruct (is_Transactions c); reflexivity.
Qed.

Lemma refund_checks_its_client_witness :
  exec (Refund_Find Refund.zero "tr_1" "re_1") [Options_zero; Options_zero]
    (mkWorld "" (fun _ => true) (fun _ => inl EOF) (fun _ => true)) []
  = (Panics (PanicString use_NewRefund), [])
  /\ (exec (Transactions_All (Transactions.mk None)) [Options_zero; Options_zero]
        (mkWorld "" (fun _ => true) (fun _ => inl EOF) (fun _ => true)) []).1
     <> Panics (PanicString use_NewRefund)
  /\ exec (Transactions_All (Transactions.mk None)) [Options_zero; Options_zero]
       (mkWorld "" (fun _ => true) (fun _ => inl EOF) (fun _ => true)) []
     = (Panics (PanicString options_once), []).
Proof.
  split; [|split].
  - apply (proj1 (refund_checks_its_client (Refund_Find Refund.zero "tr_1" "re_1")
                    [Options_zero; Options_zero]
                    (mkWorld "" (fun _ => true) (fun _ => inl EOF) (fun _ => true)) []));
      reflexivity.
  - apply (proj2 (refund_checks_its_client (Transactions_All (Transactions.mk None))
                    [Options_zero; Options_zero]
                    (mkWorld "" (fun _ => true) (fun _ => inl EOF) (fun _ => true)) [])).
    reflexivity.
  - apply (proj2 (refund_checks_its_client (Transactions_All (Transactions.mk None))
                    [Options_zero; Options_zero]
                    (mkWorld "" (fun _ => true) (fun _ => inl EOF) (fun _ => true)) []));
      [reflexivity | reflexivity | simpl; lia].
Defined.

(** C10: for [Transactions.All] and [Transactions.Find], two options values
    that agree on [Expand] and on [IdempotencyKey] give the same run, so
    the same request: [Filter], [Limit], [Page], [EndBefore], [StartAfter]
    and [DisableLogging] have no influence on what is sent. *)
Theorem transactions_read_expand_and_key_only (c : call) (o1 o2 : Options)
  (w : World) (sent : list http.Request) :
  is_Transactions c = true ->
  Expand o1 = Expand o2 ->
  IdempotencyKey o1 = IdempotencyKey o2 ->
  exec c [o1] w sent = exec c [o2] w sent.
Proof.
  intros Ht He Hk. rewrite !exec_execute.
  destruct c; try discriminate Ht;
    unfold execute, headers;
    cbn [row_of r_family r_client r_nil_argument r_method r_path r_fields r_none hd];
    rewrite He, Hk; reflexivity.
Qed.

Lemma transactions_read_expand_and_key_only_witness :
  exec (Transactions_Find (Transactions.mk (Some (mkProcessOut "1.3" "proj" "key"))) "tr_1")
    [mkOptions (Some ["card"]) "" 0 0 "" "" "k1" false]
    (mkWorld "https://api.processout.com" (fun _ => true) (fun _ => inl EOF)
       (fun _ => true)) []
  = exec (Transactions_Find (Transactions.mk (Some (mkProcessOut "1.3" "proj" "key"))) "tr_1")
      [mkOptions (Some ["card"]) "status == paid" 10 2 "tr_0" "tr_9" "k1" true]
      (mkWorld "https://api.processout.com" (fun _ => true) (fun _ => inl EOF)
         (fun _ => true)) [].
Proof.
  apply (transactions_read_expand_and_key_only
           (Transactions_Find (Transactions.mk (Some (mkProcessOut "1.3" "proj" "key"))) "tr_1")
           (mkOptions (Some ["card"]) "" 0 0 "" "" "k1" false)
           (mkOptions (Some ["card"]) "status == paid" 10 2 "tr_0" "tr_9" "k1" true));
    reflexivity.
Defined.

(** C8: a call sends at most one request, whatever the transport answers
    and whatever the envelope holds; with at most one options value, no
    nil pointer and a URL that parses, it sends exactly one. *)
Theorem one_request_per_call (c : call) (options : list Options) (w : World)
  (sent : list http.Request) :
  (exists l, (exec c options w sent).2 = (sent ++ l)%list /\ (length l <= 1)%nat)
  /\ ((length options <= 1)%nat ->
      pointers_set c = true ->
      url_Parse_ok w (target c w) = true ->
      exists req, (exec c options w sent).2 = (sent ++ [req])%list).
Proof.
  rewrite exec_execute. split.
  - destruct options as [|o [|o' options]].
    1,2: rewrite execute_once by (simpl; lia);
      repeat match goal with
             | |- context [match ?x with _ => _ end] => destruct x
             end; cbn [snd];
      first [ exists []; rewrite app_nil_r; split; [reflexivity | simpl; lia]
            | eexists [_]; split; [reflexivity | simpl; lia] ].
    rewrite execute_twice. exists []. rewrite app_nil_r. split; [reflexivity | simpl; lia].
  - intros Hlen Hp Hurl. rewrite execute_once by assumption.
    unfold pointers_set, client_of in Hp. apply andb_true_iff in Hp as [Hc Ha].
    apply negb_true_iff in Hc, Ha. rewrite Ha.
    destruct (r_client (row_of c)) as [client|] eqn:Hcl; [|discriminate Hc].
    replace (match r_family (row_of c) with WithErrors => is_nil (Some client) | _ => false end)
      with false by (destruct (r_family (row_of c)); reflexivity).
    unfold http.NewRequest. unfold target in Hurl. rewrite Hurl.
    replace (http.validMethod (r_method (row_of c))) with true
      by (destruct c; reflexivity).
    cbn [negb snd]. eexists. reflexivity.
Qed.

Lemma one_request_per_call_witness :
  exists req,
    (exec (Refund_Apply (Refund.mk (Some (mkProcessOut "1.3" "proj" "key")) "" None
                           "duplicate" "" "10.00" None false None) "tr_1")
       [Options_zero]
       (mkWorld "https://api.processout.com" (fun _ => true) (fun _ => inl EOF)
          (fun _ => true)) []).2
    = ([] ++ [req])%list.
Proof.
  apply (proj2 (one_request_per_call
                  (Refund_Apply (Refund.mk (Some (mkProcessOut "1.3" "proj" "key")) "" None
                                   "duplicate" "" "10.00" None false None) "tr_1")
                  [Options_zero]
                  (mkWorld "https://api.processout.com" (fun _ => true) (fun _ => inl EOF)
                     (fun _ => true)) []));
    [simpl; lia | reflexivity | reflexivity].
Defined.

(** [Invoices{}.All()]: the receiver holds no client.  The body is
    marshaled and [http.NewRequest] returns the request, and the call
    panics on [s.p.APIVersion], the first header line, before
    [http.DefaultClient.Do]: nothing is sent. *)
Lemma nil_client_counterexample :
  request_constructed (Invoices_All (Invoices.mk None)) [] (answering 200 found_invoice)
  /\ (exists req,
        json.Marshal {[ "expand" := json.VStrings (Expand Options_zero);
                        "filter" := json.VString (Filter Options_zero) ]}
        = inr (quoted "{'expand':null,'filter':''}")
        /\ http.NewRequest (url_Parse_ok (answering 200 found_invoice)) "GET"
             (w_Host (answering 200 found_invoice) +:+ "/invoices")
             (quoted "{'expand':null,'filter':''}") = inr req)
  /\ exec (Invoices_All (Invoices.mk None)) [] (answering 200 found_invoice) []
     = (Panics NilDereference, [])
  /\ ~ one_request_when_constructed (Invoices_All (Invoices.mk None)) []
         (answering 200 found_invoice) [].
Proof.
  assert (Hc : request_constructed (Invoices_All (Invoices.mk None)) []
                 (answering 200 found_invoice)).
  { split; [reflexivity|]. eexists _, _. split; vm_compute; reflexivity. }
  split; [exact Hc|]. split; [eexists; split; vm_compute; reflexivity|].
  split; [vm_compute; reflexivity|].
  intros H. destruct (H ltac:(simpl; lia) Hc) as [req Hreq].
  vm_compute in Hreq. discriminate Hreq.
Qed.


(* --------------------------------------------------------------------- *)
(** *** What a sent request tells about the run *)

Lemma NewRequest_inr (parse_ok : string -> bool) (method urlStr body : string)
  (req : http.Request) :
  http.NewRequest parse_ok method urlStr body = inr req ->
  req = http.mkRequest method urlStr ∅ body.
Proof.
  unfold http.NewRequest. intros H.
  destruct (negb (http.validMethod method)); [discriminate|].
  destruct (negb (parse_ok urlStr)); [discriminate|].
  congruence.
Qed.

(** A run that sent a request had at most one options value, a client and
    no nil argument; the request is the one [http.NewRequest] built, with
    the headers of the family, and the run ends with what [conclude] makes
    of the transport's answer. *)
Lemma sent_request (c : call) (options : list Options) (w : World)
  (sent : list http.Request) (req : http.Request) :
  (exec c options w sent).2 = (sent ++ [req])%list ->
  exists client,
    client_of c = Some client
    /\ req = headers (r_family (row_of c)) client (chosen options)
               (http.mkRequest (r_method (row_of c)) (target c w) ∅
                  (json.encode (r_fields (row_of c) (chosen options))))
    /\ (exec c options w sent).1 = Returns (conclude (row_of c) w (RoundTrip w req)).
Proof.
  rewrite exec_execute. unfold client_of, target.
  assert (Hnone : forall o : outcome reply,
             (o, sent).2 = (sent ++ [req])%list -> False).
  { intros o H. cbn [snd] in H. rewrite <- (app_nil_r sent) in H at 1.
    apply app_inv_head in H. discriminate H. }
  destruct options as [|o [|o' options]].
  3: { rewrite execute_twice. intros H. destruct (Hnone _ H). }
  all: rewrite execute_once by (simpl; lia).
  all: destruct (match r_family (row_of c) with WithErrors => _ | _ => false end);
    [intros H; destruct (Hnone _ H)|].
  all: destruct (r_nil_argument (row_of c)); [intros H; destruct (Hnone _ H)|].
  all: destruct (http.NewRequest _ _ _ _) as [err|req0] eqn:Hreq;
    [intros H; destruct (Hnone _ H)|].
  all: destruct (r_client (row_of c)) as [client|]; [|intros H; destruct (Hnone _ H)].
  all: apply NewRequest_inr in Hreq; subst req0.
  all: cbn [fst snd]; intros H; apply app_inv_head in H; injection H as H.
  all: exists client; rewrite <- H; repeat split; reflexivity.
Qed.

(* --------------------------------------------------------------------- *)
(** *** Headers *)

Lemma carried_Header_Set (key key' value : string) (req : http.Request) :
  carried key (Header_Set key' value req) =
    if decide (http.CanonicalMIMEHeaderKey key' = http.CanonicalMIMEHeaderKey key)
    then Some [value] else carried key req.
Proof.
  unfold carried, Header_Set, http.set_Header, http.Header_Set.
  cbn [http.Header]. apply lookup_insert.
Qed.

Lemma carried_SetBasicAuth (key username password : string) (req : http.Request) :
  carried key (http.SetBasicAuth username password req) =
    if decide (http.CanonicalMIMEHeaderKey "Authorization"
               = http.CanonicalMIMEHeaderKey key)
    then Some ["Basic " +:+ http.basicAuth username password]
    else carried key req.
Proof. apply carried_Header_Set. Qed.

Lemma carried_fresh (key method urlStr body : string) :
  carried key (http.mkRequest method urlStr ∅ body) = None.
Proof. apply lookup_empty. Qed.

(** deciding whether two header names written out in full are the same *)
Ltac same_header :=
  match goal with
  | |- context [decide (http.CanonicalMIMEHeaderKey ?a = http.CanonicalMIMEHeaderKey ?b)] =>
      let d := eval vm_compute in
        (bool_decide (http.CanonicalMIMEHeaderKey a = http.CanonicalMIMEHeaderKey b)) in
      lazymatch d with
      | true =>
          rewrite (decide_True (P := http.CanonicalMIMEHeaderKey a
                                     = http.CanonicalMIMEHeaderKey b))
            by (vm_compute; reflexivity)
      | false =>
          rewrite (decide_False (P := http.CanonicalMIMEHeaderKey a
                                      = http.CanonicalMIMEHeaderKey b))
            by (vm_compute; discriminate)
      end
  end.

Ltac header_lookup :=
  repeat first
    [ rewrite carried_SetBasicAuth
    | rewrite carried_Header_Set
    | rewrite carried_fresh
    | same_header ].

Lemma headers_carried (f : family) (client : ProcessOut) (opt : Options)
  (method urlStr body : string) :
  let req := headers f client opt (http.mkRequest method urlStr ∅ body) in
  carried "Accept" req = Some ["application/json"]
  /\ carried "API-Version" req = Some [APIVersion client]
  /\ carried "Idempotency-Key" req =
       (if String.eqb (IdempotencyKey opt) "" then None
        else Some [IdempotencyKey opt])
  /\ carried "Content-Type" req =
       match f with Witherror => None | _ => Some ["application/json"] end
  /\ carried "Disable-Logging" req =
       match f with
       | Witherror => None
       | _ => if DisableLogging opt then Some ["true"] else None
       end
  /\ carried "Authorization" req =
       Some ["Basic " +:+ http.basicAuth (projectID client) (projectSecret client)].
Proof.
  unfold headers.
  destruct f, (String.eqb (IdempotencyKey opt) ""), (DisableLogging opt);
    cbn [negb]; repeat split; header_lookup; reflexivity.
Qed.


(** C3, as amended: a request that a binding sends carries [Accept:
    application/json], the client's [API-Version], and [Idempotency-Key]
    exactly when the chosen options have a non-empty key; from the
    Invoices, TailoredInvoices and Refund bindings it also carries
    [Content-Type: application/json], and [Disable-Logging: true] exactly
    when the chosen options ask for it; from the Transactions bindings it
    carries neither of these two. *)
Theorem headers_of_a_request (c : call) (options : list Options) (w : World)
  (sent : list http.Request) (req : http.Request) :
  (exec c options w sent).2 = (sent ++ [req])%list ->
  carried "Accept" req = Some ["application/json"]
  /\ (exists client, client_of c = Some client
                     /\ carried "API-Version" req = Some [APIVersion client])
  /\ carried "Idempotency-Key" req =
       (if String.eqb (IdempotencyKey (chosen options)) "" then None
        else Some [IdempotencyKey (chosen options)])
  /\ carried "Content-Type" req =
       (if is_Transactions c then None else Some ["application/json"])
  /\ carried "Disable-Logging" req =
       (if is_Transactions c then None
        else if DisableLogging (chosen options) then Some ["true"] else None).
Proof.
  intros H. apply sent_request in H as (client & Hc & Hreq & _).
  pose proof (headers_carried (r_family (row_of c)) client (chosen options)
                (r_method (row_of c)) (target c w)
                (json.encode (r_fields (row_of c) (chosen options)))) as Hh.
  cbv zeta in Hh. rewrite <- Hreq in Hh.
  destruct Hh as (Ha & Hv & Hk & Ht & Hl & _).
  rewrite family_of_call in Ht, Hl.
  repeat split; try assumption.
  - exists client. split; assumption.
  - rewrite Ht. destruct c; reflexivity.
  - rewrite Hl. destruct c; reflexivity.
Qed.

Lemma headers_of_a_request_witness :
  exists req,
    (exec (Invoices_All (Invoices.mk (Some some_client)))
       [mkOptions None "" 0 0 "" "" "key-7" true]
       (answering 200 (quoted "{'success':true,'invoices':[]}")) []).2 = [req]
    /\ carried "Content-Type" req = Some ["application/json"]
    /\ carried "Disable-Logging" req = Some ["true"]
    /\ carried "Idempotency-Key" req = Some ["key-7"].
Proof.
  eexists. split; [vm_compute; reflexivity|].
  pose proof (headers_of_a_request
                (Invoices_All (Invoices.mk (Some some_client)))
                [mkOptions None "" 0 0 "" "" "key-7" true]
                (answering 200 (quoted "{'success':true,'invoices':[]}")) [] _
                ltac:(vm_compute; reflexivity)) as (_ & _ & Hk & Ht & Hl).
  repeat split; assumption.
Defined.

(** [Transactions.All], asked not to be logged, sends a request without
    [Content-Type] and without [Disable-Logging]. *)
Lemma transactions_headers_counterexample :
  exists req,
    (exec (Transactions_All (Transactions.mk (Some some_client)))
       [mkOptions None "" 0 0 "" "" "" true]
       (answering 200 (quoted "{'success':true,'transactions':[]}")) []).2 = [req]
    /\ carried "Content-Type" req = None
    /\ carried "Disable-Logging" req = None
    /\ ~ carries_all_headers (mkOptions None "" 0 0 "" "" "" true) req.
Proof.
  eexists. split; [vm_compute; reflexivity|].
  assert (Ht : forall r : http.Request, carried "Content-Type" r = None ->
                 ~ carries_all_headers (mkOptions None "" 0 0 "" "" "" true) r).
  { intros r Hr [Hc _]. rewrite Hr in Hc. discriminate Hc. }
  split; [vm_compute; reflexivity|].
  split; [vm_compute; reflexivity|].
  apply Ht. vm_compute. reflexivity.
Qed.


(* --------------------------------------------------------------------- *)
(** *** The envelope inside a decoded response *)

Lemma D_bind_inr {A B} (m : D A) (f : A -> D B) (b : B) (s : option error) :
  (m ≫= f) = inr (b, s) ->
  exists a s1 s2, m = inr (a, s1) /\ f a = inr (b, s2) /\ s = first s1 s2.
Proof.
  unfold mbind, D_bind. destruct m as [e|[a s1]]; [discriminate|].
  destruct (f a) as [e|[b' s2]] eqn:Hf; [discriminate|].
  intros H. injection H as -> <-. exists a, s1, s2. auto.
Qed.

Lemma keyIs_other (name name' k : string) :
  name <> name' -> keyIs name k = true -> keyIs name' k = false.
Proof.
  unfold keyIs. intros Hne H. apply String.eqb_eq in H.
  apply String.eqb_neq. congruence.
Qed.

Ltac invert_bind :=
  repeat match goal with
    | H : (_ ≫= _) = inr _ |- _ =>
        apply D_bind_inr in H as (? & ? & ? & ? & ? & ?)
    | H : mret _ = inr _ |- _ => injection H as ? ?
    | H : inr _ = inr _ |- _ => injection H as ? ?
    end; subst.

Section Envelopes.

Context {T : Type} (key : string) (dec : json.value -> T -> D T).
Hypothesis key_success : key <> "success".
Hypothesis key_message : key <> "message".
Hypothesis key_error_type : key <> "error_type".

Lemma field_step (k : string) (v : json.value) (r r' : Response.t T)
  (e e' : Envelope) (s s' : option error) :
  Response.field key dec k v r = inr (r', s) ->
  Response.bare k v e = inr (e', s') ->
  same_envelope r e -> same_envelope r' e'.
Proof.
  unfold Response.field, Response.bare, same_envelope.
  destruct r as [p su me co], e as [[] su' me' co']. cbn.
  intros Hr He (-> & -> & ->).
  destruct (keyIs key k) eqn:Hk.
  - rewrite (keyIs_other _ _ _ key_success Hk),
      (keyIs_other _ _ _ key_message Hk),
      (keyIs_other _ _ _ key_error_type Hk) in He.
    invert_bind. cbn. auto.
  - destruct (keyIs "success" k); [|destruct (keyIs "message" k);
                                     [|destruct (keyIs "error_type" k)]];
      invert_bind; cbn; repeat split; congruence.
Qed.

Lemma field_members (l : list (string * json.value)) :
  forall (r r' : Response.t T) (e e' : Envelope) (s s' : option error),
    members (Response.field key dec) l r = inr (r', s) ->
    members Response.bare l e = inr (e', s') ->
    same_envelope r e -> same_envelope r' e'.
Proof.
  induction l as [|[k v] l IH]; intros r r' e e' s s' Hr He Hsame; cbn in Hr, He.
  - invert_bind. assumption.
  - apply D_bind_inr in Hr as (r1 & s1 & s2 & Hr1 & Hr & _).
    apply D_bind_inr in He as (e1 & t1 & t2 & He1 & He & _).
    eapply IH; [exact Hr | exact He |].
    eapply field_step; eassumption.
Qed.

(** When a response decodes into the struct with a payload and into the
    bare struct, the envelope fields agree. *)
Lemma decode_field_envelope (zero : T) (body : string) (r : Response.t T)
  (e : Envelope) :
  decode "Response" (Response.field key dec) (Response.zero zero) body = inr r ->
  decode_Envelope body = inr e ->
  same_envelope r e.
Proof.
  unfold decode_Envelope, decode. destruct (json.readValue body) as [err|v];
    [discriminate|].
  unfold unmarshal.run, struct_.
  destruct v; cbn;
    try (intros Hr He; injection Hr as <-; injection He as <-;
         repeat split; reflexivity);
    try discriminate.
  destruct (members (Response.field key dec) members0 (Response.zero zero))
    as [err|[r0 [err|]]] eqn:Hr; try discriminate.
  destruct (members Response.bare members0 (Response.zero tt))
    as [err|[e0 [err|]]] eqn:He; try discriminate.
  intros H1 H2. injection H1 as <-. injection H2 as <-.
  eapply field_members; [exact Hr | exact He |].
  repeat split; reflexivity.
Qed.

Lemma short_step (k : string) (v : json.value) (r r' : Response.short T)
  (e e' : Envelope) (s s' : option error) :
  Response.short_field key dec k v r = inr (r', s) ->
  Response.bare k v e = inr (e', s') ->
  same_short r e -> same_short r' e'.
Proof.
  unfold Response.short_field, Response.bare, same_short.
  destruct r as [p su me], e as [[] su' me' co']. cbn.
  intros Hr He (-> & ->).
  destruct (keyIs key k) eqn:Hk.
  - rewrite (keyIs_other _ _ _ key_success Hk),
      (keyIs_other _ _ _ key_message Hk),
      (keyIs_other _ _ _ key_error_type Hk) in He.
    invert_bind. cbn. auto.
  - destruct (keyIs "success" k); [|destruct (keyIs "message" k);
                                     [|destruct (keyIs "error_type" k)]];
      invert_bind; cbn; repeat split; congruence.
Qed.

Lemma short_members (l : list (string * json.value)) :
  forall (r r' : Response.short T) (e e' : Envelope) (s s' : option error),
    members (Response.short_field key dec) l r = inr (r', s) ->
    members Response.bare l e = inr (e', s') ->
    same_short r e -> same_short r' e'.
Proof.
  induction l as [|[k v] l IH]; intros r r' e e' s s' Hr He Hsame; cbn in Hr, He.
  - invert_bind. assumption.
  - apply D_bind_inr in Hr as (r1 & s1 & s2 & Hr1 & Hr & _).
    apply D_bind_inr in He as (e1 & t1 & t2 & He1 & He & _).
    eapply IH; [exact Hr | exact He |].
    eapply short_step; eassumption.
Qed.

Lemma decode_short_envelope (zero : T) (body : string) (r : Response.short T)
  (e : Envelope) :
  decode "Response" (Response.short_field key dec) (Response.short_zero zero) body
  = inr r ->
  decode_Envelope body = inr e ->
  same_short r e.
Proof.
  unfold decode_Envelope, decode. destruct (json.readValue body) as [err|v];
    [discriminate|].
  unfold unmarshal.run, struct_.
  destruct v; cbn;
    try (intros Hr He; injection Hr as <-; injection He as <-;
         repeat split; reflexivity);
    try discriminate.
  destruct (members (Response.short_field key dec) members0 (Response.short_zero zero))
    as [err|[r0 [err|]]] eqn:Hr; try discriminate.
  destruct (members Response.bare members0 (Response.zero tt))
    as [err|[e0 [err|]]] eqn:He; try discriminate.
  intros H1 H2. injection H1 as <-. injection H2 as <-.
  eapply short_members; [exact Hr | exact He |].
  repeat split; reflexivity.
Qed.

End Envelopes.

Lemma envelope_agrees (c : call) (w : World) (body : string) (d : decoded)
  (e : Envelope) :
  envelope_of c w body = inr d ->
  decode_Envelope body = inr e ->
  d_success d = Response.Success e
  /\ d_message d = Response.Message e
  /\ (is_Transactions c = false -> d_code d = Response.Code e).
Proof.
  unfold envelope_of. intros Hd He.
  destruct c; cbn [row_of r_decode] in Hd;
    unfold decode_bare, decode_invoice, decode_tailored, decode_customer,
      full, short in Hd;
    match type of Hd with
    | match ?x with _ => _ end = _ => destruct x as [err|r] eqn:Hr; [discriminate|]
    end;
    injection Hd as <-; cbn [d_success d_message d_code is_Transactions];
    first
      [ (* the bare struct is the envelope itself *)
        unfold decode_Envelope in He; rewrite He in Hr; injection Hr as <-;
        repeat split; reflexivity
      | edestruct (fun H1 H2 H3 => decode_field_envelope _ _ H1 H2 H3 _ _ _ _ Hr He)
          as (? & ? & ?); [discriminate..|]; repeat split; auto
      | edestruct (fun H1 H2 H3 => decode_short_envelope _ _ H1 H2 H3 _ _ _ _ Hr He)
          as (? & ?); [discriminate..|]; repeat split; auto; discriminate ].
Qed.

Lemma none_is_absent (c : call) : absent (r_none (row_of c)) = true.
Proof. destruct c; reflexivity. Qed.

(** C1, as amended: when a binding has sent its request, the response
    decodes into the binding's envelope and reports no success, the binding
    returns no payload and an error whose message is the response's
    [message]; the error's code is the response's [error_type] for the
    Invoices, TailoredInvoices and Refund bindings, and the error of the
    Transactions bindings has no code. *)
Theorem refusal_mirrors_envelope (c : call) (options : list Options) (w : World)
  (sent : list http.Request) (req : http.Request) (status : Z) (body : string)
  (d : decoded) (e : Envelope) :
  (exec c options w sent).2 = (sent ++ [req])%list ->
  RoundTrip w req = inr (http.mkResponse status body) ->
  envelope_of c w body = inr d ->
  decode_Envelope body = inr e ->
  Response.Success e = false ->
  exists p f,
    (exec c options w sent).1 = Returns (mkReply p (Some f))
    /\ absent p = true
    /\ failure_message f = Response.Message e
    /\ failure_code f =
         if is_Transactions c then None else Some (Response.Code e).
Proof.
  intros Hsent Hrt Hd He Hs.
  apply sent_request in Hsent as (client & _ & _ & Hres).
  destruct (envelope_agrees _ _ _ _ _ Hd He) as (Hsu & Hme & Hco).
  rewrite Hres. unfold conclude. rewrite Hrt. cbn [http.RespBody http.StatusCode].
  unfold envelope_of in Hd. rewrite Hd, Hsu, Hs.
  eexists _, _. split; [reflexivity|]. split; [apply none_is_absent|].
  rewrite family_of_call.
  destruct (is_Refund c) eqn:Hr.
  - replace (is_Transactions c) with false by (destruct c; try reflexivity; discriminate).
    cbn. rewrite Hme, Hco by (destruct c; try reflexivity; discriminate).
    split; reflexivity.
  - destruct (is_Transactions c) eqn:Ht; cbn.
    + rewrite Hme. split; reflexivity.
    + rewrite Hme, Hco by reflexivity. split; reflexivity.
Qed.

Lemma refusal_mirrors_envelope_witness :
  exists p f,
    (exec (Invoices_Find (Invoices.mk (Some some_client)) "inv_9") []
       (answering 404 not_found) []).1 = Returns (mkReply p (Some f))
    /\ absent p = true
    /\ failure_message f = "Transaction not found"
    /\ failure_code f = Some "resource.transaction.not-found".
Proof.
  refine (refusal_mirrors_envelope
            (Invoices_Find (Invoices.mk (Some some_client)) "inv_9") []
            (answering 404 not_found) [] _ 404 not_found _
            (Response.mk tt false "Transaction not found"
               "resource.transaction.not-found") _ _ _ _ _);
    vm_compute; reflexivity.
Defined.

(** [Transactions.Find] on a response that carries an [error_type] returns
    an error that has the message and no code. *)
Lemma transactions_error_counterexample :
  (exec (Transactions_Find (Transactions.mk (Some some_client)) "tr_9") []
     (answering 404 not_found) []).1
  = Returns (mkReply (ATransaction None)
               (Some (Oferror (errorString "Transaction not found"))))
  /\ ~ error_mirrors_envelope
         (Transactions_Find (Transactions.mk (Some some_client)) "tr_9") []
         (answering 404 not_found).
Proof.
  split; [vm_compute; reflexivity|].
  intros H.
  edestruct H as (p & f & Hres & _ & Hcode & _).
  - vm_compute. reflexivity.
  - vm_compute. reflexivity.
  - vm_compute. reflexivity.
  - vm_compute. reflexivity.
  - reflexivity.
  - vm_compute in Hres. injection Hres as <- <-. discriminate Hcode.
Qed.


(* --------------------------------------------------------------------- *)
(** *** The success flag *)

(** What is sent does not depend on what the transport answers. *)
Lemma sent_whatever_the_transport (c : call) (options : list Options) (w : World)
  (rt1 rt2 : http.Request -> error + http.Response) (sent : list http.Request) :
  (exec c options (with_transport rt1 w) sent).2
  = (exec c options (with_transport rt2 w) sent).2.
Proof.
  rewrite !exec_execute. destruct options as [|o [|o' options]].
  3: rewrite !execute_twice; reflexivity.
  all: rewrite !execute_once by (simpl; lia); cbn [with_transport url_Parse_ok w_Host].
  all: repeat match goal with
         | |- context [match ?x with _ => _ end] => destruct x
         end; reflexivity.
Qed.

(** C4: the envelope decides.  Two runs of a call that sent the request and
    got responses decoding to the same envelope end the same way, whatever
    the two HTTP status codes are: both with an error when the flag is
    false, both with the envelope's payload and no error when it is
    true. *)
Theorem success_flag_decides (c : call) (options : list Options) (w : World)
  (rt1 rt2 : http.Request -> error + http.Response) (sent : list http.Request)
  (req : http.Request) (status1 status2 : Z) (body1 body2 : string) (d : decoded) :
  (exec c options (with_transport rt1 w) sent).2 = (sent ++ [req])%list ->
  rt1 req = inr (http.mkResponse status1 body1) ->
  rt2 req = inr (http.mkResponse status2 body2) ->
  envelope_of c w body1 = inr d ->
  envelope_of c w body2 = inr d ->
  let o1 := (exec c options (with_transport rt1 w) sent).1 in
  let o2 := (exec c options (with_transport rt2 w) sent).1 in
  succeeded o1 = Some (d_success d)
  /\ succeeded o2 = Some (d_success d)
  /\ (d_success d = true ->
      o1 = Returns (mkReply (d_payload d) None)
      /\ o2 = Returns (mkReply (d_payload d) None)).
Proof.
  intros Hsent1 Hrt1 Hrt2 Hd1 Hd2 o1 o2.
  assert (Hsent2 := Hsent1).
  rewrite (sent_whatever_the_transport c options w rt1 rt2) in Hsent2.
  apply sent_request in Hsent1 as (client1 & _ & _ & Hres1).
  apply sent_request in Hsent2 as (client2 & _ & _ & Hres2).
  subst o1 o2. rewrite Hres1, Hres2. unfold conclude.
  cbn [with_transport RoundTrip time_Parse_ok]. rewrite Hrt1, Hrt2.
  cbn [http.RespBody http.StatusCode].
  unfold envelope_of in Hd1, Hd2. rewrite Hd1, Hd2.
  destruct (d_success d); cbn; repeat split; auto; discriminate.
Qed.

Lemma success_flag_decides_witness :
  exists p,
    (exec (Invoices_Find (Invoices.mk (Some some_client)) "inv_123") []
       (answering 200 found_invoice) []).1 = Returns (mkReply p None)
    /\ (exec (Invoices_Find (Invoices.mk (Some some_client)) "inv_123") []
          (answering 500 found_invoice) []).1 = Returns (mkReply p None).
Proof.
  eexists.
  refine (proj2 (proj2 (success_flag_decides
                   (Invoices_Find (Invoices.mk (Some some_client)) "inv_123") []
                   (answering 200 found_invoice)
                   (fun _ => inr (http.mkResponse 200 found_invoice))
                   (fun _ => inr (http.mkResponse 500 found_invoice))
                   [] _ 200 500 found_invoice found_invoice _ _ _ _ _ _)) _);
    vm_compute; reflexivity.
Defined.


(* --------------------------------------------------------------------- *)
(** *** The worked example: finding an invoice *)

(** C6, as amended: [Invoices.Find] with the ID [inv_123] and no options
    sends one request, a GET of [/invoices/inv_123] on the host, with basic
    authentication from the client's project ID and secret and the body
    [{'expand':null,'filter':''}] (the empty filter is an empty string, not
    null); when the response body is
    [{'success':true,'invoice':{'id':'inv_123','name':'Test'}}] the call
    returns an invoice whose ID is [inv_123] and no error. *)
Theorem find_invoice_example (w : World) (client : ProcessOut) (status : Z) :
  url_Parse_ok w (w_Host w +:+ "/invoices/inv_123") = true ->
  (forall req, RoundTrip w req = inr (http.mkResponse status found_invoice)) ->
  exists req inv,
    exec (Invoices_Find (Invoices.mk (Some client)) "inv_123") [] w []
    = (Returns (mkReply (AnInvoice (Some inv)) None), [req])
    /\ http.Method req = "GET"
    /\ http.URL req = w_Host w +:+ "/invoices/inv_123"
    /\ carried "Authorization" req =
         Some ["Basic "
               +:+ base64.EncodeToString (projectID client +:+ ":" +:+ projectSecret client)]
    /\ http.Body req = quoted "{'expand':null,'filter':''}"
    /\ Invoice.ID inv = "inv_123"
    /\ Invoice.Name inv = "Test".
Proof.
  intros Hurl Hrt. rewrite exec_execute, execute_once by (simpl; lia).
  cbn [row_of r_family r_client r_nil_argument r_method r_path r_fields r_none
       Invoices.p is_nil chosen hd].
  change (url.QueryEscape "inv_123" +:+ "") with "inv_123".
  change ("/invoices/" +:+ "inv_123") with "/invoices/inv_123".
  unfold http.NewRequest. rewrite Hurl.
  change (http.validMethod "GET") with true. cbn [negb].
  unfold conclude. rewrite Hrt. cbn [http.RespBody r_decode r_none r_family].
  replace (decode_invoice (time_Parse_ok w) found_invoice)
    with (inr (A := error)
            (mkDecoded true "" ""
               (AnInvoice (Some (Invoice.mk "inv_123" None None None None "" "Test" ""
                                   "" None false false "" "" false Time_zero)))))
    by (vm_compute; reflexivity).
  cbn [d_success d_payload app].
  eexists _, _. split; [reflexivity|].
  pose proof (headers_carried WithError client Options_zero "GET"
                (w_Host w +:+ "/invoices/inv_123")
                (json.encode (expand_filter Options_zero)))
    as (_ & _ & _ & _ & _ & Hauth).
  repeat split; first [exact Hauth | vm_compute; reflexivity].
Qed.

Lemma find_invoice_example_witness :
  exists req inv,
    exec (Invoices_Find (Invoices.mk (Some some_client)) "inv_123") []
      (answering 200 found_invoice) []
    = (Returns (mkReply (AnInvoice (Some inv)) None), [req])
    /\ http.Method req = "GET"
    /\ http.URL req = "https://api.processout.com/invoices/inv_123"
    /\ carried "Authorization" req = Some ["Basic cHJval8xOmtleV8x"]
    /\ http.Body req = quoted "{'expand':null,'filter':''}"
    /\ Invoice.ID inv = "inv_123"
    /\ Invoice.Name inv = "Test".
Proof.
  apply (find_invoice_example (answering 200 found_invoice) some_client 200);
    [reflexivity | intros req; reflexivity].
Defined.

(** The body of that request is not [{'expand':null,'filter':null}]. *)
Lemma find_invoice_body_counterexample :
  ~ exists req,
      (exec (Invoices_Find (Invoices.mk (Some some_client)) "inv_123") []
         (answering 200 found_invoice) []).2 = [req]
      /\ http.Body req = quoted "{'expand':null,'filter':null}".
Proof.
  intros (req & Hsent & Hbody).
  assert (Hb : http.Body req = quoted "{'expand':null,'filter':''}").
  { revert Hsent. vm_compute. intros H. injection H as <-. reflexivity. }
  rewrite Hb in Hbody. vm_compute in Hbody. discriminate Hbody.
Qed.


(* --------------------------------------------------------------------- *)
(** *** Identifiers in the path *)

Lemma all_app (p : ascii -> bool) (a b : string) :
  Bytes.all p (a +:+ b) = Bytes.all p a && Bytes.all p b.
Proof.
  induction a as [|c a IH]; [reflexivity|].
  simpl. rewrite IH. apply andb_assoc.
Qed.

Lemma slashes_app (a b : string) : slashes (a +:+ b) = (slashes a + slashes b)%nat.
Proof.
  induction a as [|c a IH]; [reflexivity|].
  simpl. rewrite IH. lia.
Qed.

Lemma hex_digit_is_segment_byte (n : Z) :
  0 <= n < 16 ->
  segment_byte (Bytes.index url.upperhex (Z.to_nat n)) = true.
Proof.
  intros Hn.
  assert (H : forall k, (k < 16)%nat ->
                segment_byte (Bytes.index url.upperhex k) = true).
  { intros k Hk. do 16 (destruct k as [|k]; [reflexivity|]). lia. }
  apply H. lia.
Qed.

Lemma hex2_is_segment (c : ascii) : Bytes.all segment_byte (url.hex2 c) = true.
Proof.
  unfold url.hex2. cbn [Bytes.all].
  assert (Hc : 0 <= Bytes.val c < 256).
  { unfold Bytes.val. pose proof (N_ascii_bounded c). lia. }
  rewrite !hex_digit_is_segment_byte.
  - reflexivity.
  - change 15 with (Z.ones 4). rewrite Z.land_ones by lia.
    apply Z.mod_pos_bound. lia.
  - rewrite Z.shiftr_div_pow2 by lia. change (2 ^ 4) with 16.
    split; [apply Z.div_pos; lia | apply Z.div_lt_upper_bound; lia].
Qed.

Lemma unescaped_is_segment_byte (c : ascii) :
  url.shouldEscape c = false -> segment_byte c = true.
Proof.
  unfold url.shouldEscape, segment_byte.
  destruct (Bytes.is_alnum c); [reflexivity|].
  destruct (Bytes.mem c "-_.~") eqn:Hm; [|discriminate].
  intros _. cbn in Hm |- *.
  repeat (destruct (Bytes.eqb c _); [reflexivity|]); discriminate Hm.
Qed.

Lemma QueryEscape_bytes (id : string) :
  Bytes.all segment_byte (url.QueryEscape id) = true.
Proof.
  unfold url.QueryEscape. induction id as [|c id IH]; [reflexivity|].
  cbn [url.escape]. destruct (Bytes.eqb c " "); [exact IH|].
  destruct (url.shouldEscape c) eqn:He.
  - rewrite all_app, hex2_is_segment, IH. reflexivity.
  - cbn [Bytes.all]. rewrite (unescaped_is_segment_byte _ He), IH. reflexivity.
Qed.

Lemma QueryEscape_escape_bytes (id : string) : url.QueryEscape id = escape_bytes id.
Proof.
  unfold url.QueryEscape. induction id as [|c id IH]; [reflexivity|].
  cbn [url.escape escape_bytes]. unfold escape_byte. rewrite IH.
  destruct (Bytes.eqb c " "); [reflexivity|].
  cbn [percent_encode]. destruct (url.shouldEscape c); cbn.
  - reflexivity.
  - reflexivity.
Qed.

Lemma QueryEscape_without_space (id : string) :
  Bytes.mem " " id = false -> url.QueryEscape id = percent_encode id.
Proof.
  unfold url.QueryEscape. induction id as [|c id IH]; [reflexivity|].
  cbn [Bytes.mem url.escape percent_encode]. intros H.
  apply orb_false_iff in H as [Hc Hid]. rewrite IH by exact Hid.
  assert (Hc' : Bytes.eqb c " " = false).
  { unfold Bytes.eqb in *. rewrite Ascii.eqb_sym. exact Hc. }
  rewrite Hc'. destruct (url.shouldEscape c); reflexivity.
Qed.

Lemma segment_bytes_no_slash (s : string) :
  Bytes.all segment_byte s = true -> slashes s = 0%nat.
Proof.
  induction s as [|c s IH]; [reflexivity|].
  cbn [Bytes.all slashes]. intros H. apply andb_true_iff in H as [Hc Hs].
  rewrite (IH Hs).
  destruct (Bytes.eqb c "/") eqn:Heq; [|reflexivity].
  apply Ascii.eqb_eq in Heq. subst c. discriminate Hc.
Qed.

Lemma slashes_render (t : list piece) :
  Forall (fun p => match p with Fixed word => slashes word = 0%nat | Ident _ => True end) t ->
  slashes (render t) = length t.
Proof.
  induction 1 as [|p t Hp _ IH]; [reflexivity|].
  cbn [render length]. change ("/" +:+ segment p +:+ render t)
    with (String "/" (segment p +:+ render t)).
  cbn [slashes]. rewrite slashes_app, IH.
  destruct p as [word|id]; cbn [segment].
  - rewrite Hp. reflexivity.
  - rewrite (segment_bytes_no_slash _ (QueryEscape_bytes id)). reflexivity.
Qed.

Lemma Header_Set_keeps_the_line (key value : string) (req : http.Request) :
  http.Method (Header_Set key value req) = http.Method req
  /\ http.URL (Header_Set key value req) = http.URL req
  /\ http.Body (Header_Set key value req) = http.Body req.
Proof. unfold Header_Set, http.set_Header. cbn [http.Method http.URL http.Body]. auto. Qed.

Lemma headers_keep_the_line (f : family) (client : ProcessOut) (opt : Options)
  (req : http.Request) :
  http.Method (headers f client opt req) = http.Method req
  /\ http.URL (headers f client opt req) = http.URL req
  /\ http.Body (headers f client opt req) = http.Body req.
Proof.
  unfold headers, http.SetBasicAuth. fold (Header_Set "Authorization").
  destruct f, (negb (String.eqb (IdempotencyKey opt) "")), (DisableLogging opt);
    repeat match goal with
      | |- context [Header_Set ?k ?v ?r] =>
          destruct (Header_Set_keeps_the_line k v r) as (-> & -> & ->)
      end; auto.
Qed.

Lemma path_is_template (c : call) : r_path (row_of c) = render (template c).
Proof. destruct c; reflexivity. Qed.

(** C7, as amended: the path of a request is the fixed template of the
    binding, with every caller-supplied identifier passed through
    [url.QueryEscape].  That writes each byte by itself: unchanged when it
    is unreserved, [+] for a space, percent-encoded otherwise (so an
    identifier without a space is percent-encoded).  The escaped identifier
    is made of unreserved bytes, [+] and [%] only, hence is a single
    segment: the path has as many [/] as the template has segments. *)
Theorem identifiers_are_query_escaped (c : call) (options : list Options)
  (w : World) (sent : list http.Request) (req : http.Request) :
  (exec c options w sent).2 = (sent ++ [req])%list ->
  http.URL req = w_Host w +:+ render (template c)
  /\ slashes (render (template c)) = length (template c)
  /\ forall id, In (Ident id) (template c) ->
       url.QueryEscape id = escape_bytes id
       /\ Bytes.all segment_byte (url.QueryEscape id) = true
       /\ (Bytes.mem " " id = false -> url.QueryEscape id = percent_encode id).
Proof.
  intros H. apply sent_request in H as (client & _ & Hreq & _).
  split; [|split].
  - rewrite Hreq, (proj1 (proj2 (headers_keep_the_line _ _ _ _))).
    cbn [http.URL]. unfold target. rewrite path_is_template. reflexivity.
  - apply slashes_render. destruct c; repeat constructor.
  - intros id _. split; [apply QueryEscape_escape_bytes|].
    split; [apply QueryEscape_bytes | apply QueryEscape_without_space].
Qed.

Lemma identifiers_are_query_escaped_witness :
  exists req,
    (exec (Refund_Find (Refund.mk (Some some_client) "" None "" "" "" None false None)
       "tr/1?x" "re 1#")
       [] (answering 200 found_invoice) []).2 = [req]
    /\ http.URL req = "https://api.processout.com/transactions/tr%2F1%3Fx/refunds/re+1%23"
    /\ slashes "/transactions/tr%2F1%3Fx/refunds/re+1%23" = 4%nat.
Proof.
  eexists. split; [vm_compute; reflexivity|].
  pose proof (identifiers_are_query_escaped
                (Refund_Find (Refund.mk (Some some_client) "" None "" "" "" None false None)
                   "tr/1?x" "re 1#")
                [] (answering 200 found_invoice) [] _ ltac:(vm_compute; reflexivity))
    as (Hurl & Hn & _).
  split; [exact Hurl | exact Hn].
Defined.

(** An identifier with a space is not percent-encoded in the path: the
    space is written [+]. *)
Lemma space_in_identifier_counterexample :
  url.QueryEscape "a b" = "a+b"
  /\ percent_encode "a b" = "a%20b"
  /\ exists req,
       (exec (Invoices_Find (Invoices.mk (Some some_client)) "a b") []
          (answering 200 found_invoice) []).2 = [req]
       /\ http.URL req = "https://api.processout.com/invoices/a+b"
       /\ http.URL req
          <> "https://api.processout.com/invoices/" +:+ percent_encode "a b".
Proof.
  split; [reflexivity|]. split; [reflexivity|].
  eexists. split; [vm_compute; reflexivity|].
  split; [reflexivity|]. vm_compute. discriminate.
Qed.


(* ===================================================================== *)
(** ** Failures, panics and what is handed back *)
(* ===================================================================== *)

Lemma nil_argument_row (c : call) : r_nil_argument (row_of c) = nil_argument c.
Proof. destruct c; reflexivity. Qed.

Lemma wrapped_row (c : call) (err : error) : wrap (r_family (row_of c)) err = wrapped c err.
Proof. destruct c; reflexivity. Qed.

Lemma refund_guard (c : call) :
  match r_family (row_of c) with WithErrors => is_nil (r_client (row_of c)) | _ => false end
  = is_Refund c && is_nil (client_of c).
Proof. destruct c; reflexivity. Qed.

Lemma valid_method (c : call) : http.validMethod (r_method (row_of c)) = true.
Proof. destruct c; reflexivity. Qed.

(** the request that a call with a client builds *)
Lemma NewRequest_of_call (c : call) (options : list Options) (w : World) :
  http.NewRequest (url_Parse_ok w) (r_method (row_of c)) (w_Host w +:+ r_path (row_of c))
    (json.encode (r_fields (row_of c) (chosen options)))
  = if url_Parse_ok w (target c w)
    then inr (http.mkRequest (r_method (row_of c)) (target c w) ∅
                (json.encode (r_fields (row_of c) (chosen options))))
    else inl (url_Error "parse" (target c w)).
Proof.
  unfold http.NewRequest, target. rewrite valid_method. cbn [negb].
  destruct (url_Parse_ok w _); reflexivity.
Qed.

(** Every run, case by case: the two panics with a message, the nil
    dereference, the URL that does not parse, and the request sent. *)
Lemma run_cases (c : call) (options : list Options) (w : World)
  (sent : list http.Request) :
  exec c options w sent =
    if is_Refund c && is_nil (client_of c)
    then (Panics (PanicString use_NewRefund), sent)
    else if (1 <? length options)%nat
    then (Panics (PanicString options_once), sent)
    else if nil_argument c then (Panics NilDereference, sent)
    else if negb (url_Parse_ok w (target c w))
    then (Returns (mkReply (r_none (row_of c))
                     (Some (wrapped c (url_Error "parse" (target c w))))), sent)
    else
      match client_of c with
      | None => (Panics NilDereference, sent)
      | Some client =>
          let req := headers (r_family (row_of c)) client (chosen options)
                       (http.mkRequest (r_method (row_of c)) (target c w) ∅
                          (json.encode (r_fields (row_of c) (chosen options)))) in
          (Returns (conclude (row_of c) w (RoundTrip w req)), (sent ++ [req])%list)
      end.
Proof.
  rewrite exec_execute. destruct options as [|o [|o' options]].
  3: { rewrite execute_twice, refund_guard.
       destruct (is_Refund c && is_nil (client_of c)); reflexivity. }
  all: rewrite execute_once by (simpl; lia).
  all: rewrite refund_guard, nil_argument_row, NewRequest_of_call.
  all: cbn [length Nat.ltb Nat.leb].
  all: destruct (is_Refund c && is_nil (client_of c)); [reflexivity|].
  all: destruct (nil_argument c); [reflexivity|].
  all: destruct (url_Parse_ok w (target c w)); cbn [negb];
    [|rewrite wrapped_row; reflexivity].
  all: unfold client_of; destruct (r_client (row_of c)); reflexivity.
Qed.

Lemma conclude_cases (c : call) (w : World) (res : error + http.Response) :
  conclude (row_of c) w res =
    match res with
    | inl err => mkReply (r_none (row_of c)) (Some (wrapped c err))
    | inr res =>
        match envelope_of c w (http.RespBody res) with
        | inl err => mkReply (r_none (row_of c)) (Some (wrapped c err))
        | inr d =>
            if d_success d then mkReply (d_payload d) None
            else mkReply (r_none (row_of c))
                   (Some (refusal (r_family (row_of c)) (http.StatusCode res) d))
        end
    end.
Proof.
  unfold conclude, envelope_of. destruct res as [err|res]; [rewrite wrapped_row; reflexivity|].
  destruct (r_decode _ _ _); [rewrite wrapped_row|]; reflexivity.
Qed.

(** X1: when the transport fails, the call returns the transport's error
    in the error type of its file and no payload; the one request has been
    sent. *)
Theorem transport_failure_is_returned (c : call) (options : list Options)
  (w : World) (sent : list http.Request) (req : http.Request) (err : error) :
  (exec c options w sent).2 = (sent ++ [req])%list ->
  RoundTrip w req = inl err ->
  exists p,
    (exec c options w sent).1 = Returns (mkReply p (Some (wrapped c err)))
    /\ absent p = true.
Proof.
  intros Hsent Hrt. apply sent_request in Hsent as (client & _ & _ & Hres).
  rewrite Hres, conclude_cases, Hrt.
  eexists. split; [reflexivity | apply none_is_absent].
Qed.

Lemma transport_failure_is_returned_witness :
  exists p,
    (exec (Invoices_Void (Invoices.mk (Some some_client)) (Some Invoice.zero)) []
       (mkWorld "https://api.processout.com" (fun _ => true)
          (fun _ => inl (net_Error "connection refused")) (fun _ => true)) []).1
    = Returns (mkReply p (Some (OfError (newError (net_Error "connection refused")))))
    /\ absent p = true.
Proof.
  refine (transport_failure_is_returned
            (Invoices_Void (Invoices.mk (Some some_client)) (Some Invoice.zero)) []
            (mkWorld "https://api.processout.com" (fun _ => true)
               (fun _ => inl (net_Error "connection refused")) (fun _ => true)) []
            _ (net_Error "connection refused") _ _);
    vm_compute; reflexivity.
Defined.

Lemma invalid_json_fails (c : call) (w : World) (body : string) (err : error) :
  json.readValue body = inl err -> envelope_of c w body = inl err.
Proof.
  intros H. unfold envelope_of.
  destruct c; cbn [row_of r_decode];
    unfold decode_bare, decode_invoice, decode_tailored, decode_customer, full, short,
      decode; rewrite H; reflexivity.
Qed.

(** X2: when the response body is not JSON, or does not fit the envelope
    struct of the call, the call returns the decoder's error in the error
    type of its file and no payload, whatever the status code is. *)
Theorem undecodable_response_is_an_error (c : call) (options : list Options)
  (w : World) (sent : list http.Request) (req : http.Request) (status : Z)
  (body : string) (err : error) :
  (exec c options w sent).2 = (sent ++ [req])%list ->
  RoundTrip w req = inr (http.mkResponse status body) ->
  json.readValue body = inl err \/ envelope_of c w body = inl err ->
  exists p,
    (exec c options w sent).1 = Returns (mkReply p (Some (wrapped c err)))
    /\ absent p = true.
Proof.
  intros Hsent Hrt Herr.
  assert (He : envelope_of c w body = inl err).
  { destruct Herr as [H|H]; [apply invalid_json_fails|]; exact H. }
  apply sent_request in Hsent as (client & _ & _ & Hres).
  rewrite Hres, conclude_cases, Hrt. cbn [http.RespBody]. rewrite He.
  eexists. split; [reflexivity | apply none_is_absent].
Qed.

Lemma undecodable_response_is_an_error_witness :
  exists p,
    (exec (Transactions_All (Transactions.mk (Some some_client))) []
       (answering 502 "<html>Bad Gateway</html>") []).1
    = Returns (mkReply p
                 (Some (Oferror (SyntaxError
                    "invalid character < looking for beginning of value"))))
    /\ absent p = true.
Proof.
  refine (undecodable_response_is_an_error
            (Transactions_All (Transactions.mk (Some some_client))) []
            (answering 502 "<html>Bad Gateway</html>") [] _ 502
            "<html>Bad Gateway</html>" _ _ _ (or_introl _));
    vm_compute; reflexivity.
Defined.

(** X3: when the URL does not parse, a call with at most one options value
    and no nil argument returns the URL error and no payload, and sends
    nothing; a binding of Invoices, TailoredInvoices or Transactions does
    so even without a client, which it has not looked at yet. *)
Theorem unparsable_url_is_an_error (c : call) (options : list Options) (w : World)
  (sent : list http.Request) :
  (length options <= 1)%nat ->
  nil_argument c = false ->
  (is_Refund c = true -> client_of c <> None) ->
  url_Parse_ok w (target c w) = false ->
  exists p,
    exec c options w sent
    = (Returns (mkReply p (Some (wrapped c (url_Error "parse" (target c w))))), sent)
    /\ absent p = true.
Proof.
  intros Hlen Harg Hcl Hurl. rewrite run_cases, Harg, Hurl.
  replace (is_Refund c && is_nil (client_of c)) with false.
  - replace (1 <? length options)%nat with false
      by (symmetry; apply Nat.ltb_ge; exact Hlen).
    cbn [negb]. eexists. split; [reflexivity | apply none_is_absent].
  - destruct (is_Refund c); [|reflexivity].
    destruct (client_of c); [reflexivity|]. destruct (Hcl eq_refl eq_refl).
Qed.

Lemma unparsable_url_is_an_error_witness :
  exists p,
    exec (Invoices_Find (Invoices.mk None) "inv_1") []
      (mkWorld "ht tp://" (fun _ => false) (fun _ => inl EOF) (fun _ => true)) []
    = (Returns (mkReply p (Some (OfError (newError
                                   (url_Error "parse" "ht tp:///invoices/inv_1"))))),
       [])
    /\ absent p = true.
Proof.
  apply (unparsable_url_is_an_error (Invoices_Find (Invoices.mk None) "inv_1") []
           (mkWorld "ht tp://" (fun _ => false) (fun _ => inl EOF) (fun _ => true)) []);
    [simpl; lia | reflexivity | discriminate | reflexivity].
Defined.

(** X4: with at most one options value, a nil resource argument, or a nil
    client in a binding of Invoices, TailoredInvoices or Transactions whose
    URL parses, ends the call in a nil dereference; nothing is sent. *)
Theorem nil_pointer_panics (c : call) (options : list Options) (w : World)
  (sent : list http.Request) :
  (length options <= 1)%nat ->
  is_Refund c = false ->
  nil_argument c = true
  \/ (client_of c = None /\ url_Parse_ok w (target c w) = true) ->
  exec c options w sent = (Panics NilDereference, sent).
Proof.
  intros Hlen Hr H. rewrite run_cases, Hr.
  replace (1 <? length options)%nat with false
    by (symmetry; apply Nat.ltb_ge; exact Hlen).
  cbn [andb]. destruct H as [Harg|[Hcl Hurl]].
  - rewrite Harg. reflexivity.
  - rewrite Hurl, Hcl. cbn [negb]. destruct (nil_argument c); reflexivity.
Qed.

Lemma nil_pointer_panics_witness :
  exec (Invoices_Create (Invoices.mk (Some some_client)) None) [] (answering 200 "") []
  = (Panics NilDereference, [])
  /\ exec (TailoredInvoices_All (TailoredInvoices.mk None)) [] (answering 200 "") []
     = (Panics NilDereference, []).
Proof.
  split.
  - apply (nil_pointer_panics (Invoices_Create (Invoices.mk (Some some_client)) None) []
             (answering 200 "") []); [simpl; lia | reflexivity | left; reflexivity].
  - apply (nil_pointer_panics (TailoredInvoices_All (TailoredInvoices.mk None)) []
             (answering 200 "") []);
      [simpl; lia | reflexivity | right; split; reflexivity].
Defined.


Lemma address_is_not_nil (c : call) (w : World) (body : string) (d : decoded) :
  envelope_of c w body = inr d ->
  returns_address c = true ->
  absent (d_payload d) = false.
Proof.
  unfold envelope_of. intros Hd Ha.
  destruct c; try discriminate Ha; cbn [row_of r_decode] in Hd;
    unfold decode_invoice, decode_tailored, decode_customer, full, short in Hd;
    match type of Hd with
    | match ?x with _ => _ end = _ => destruct x as [err|r]; [discriminate|]
    end;
    injection Hd as <-; reflexivity.
Qed.

(** X5: a call never returns both a payload and an error: with an error
    the payload is nil (or there is none).  Without an error, the bindings
    that return the address of the decoded resource return a non-nil
    pointer. *)
Theorem payload_or_error (c : call) (options : list Options) (w : World)
  (sent : list http.Request) (p : payload) (e : option failure) :
  (exec c options w sent).1 = Returns (mkReply p e) ->
  (e <> None -> absent p = true)
  /\ (e = None -> returns_address c = true -> absent p = false).
Proof.
  rewrite run_cases.
  destruct (is_Refund c && is_nil (client_of c)); [discriminate|].
  destruct (1 <? length options)%nat; [discriminate|].
  destruct (nil_argument c); [discriminate|].
  assert (Herr : forall f, Returns (mkReply (r_none (row_of c)) (Some f))
                           = Returns (mkReply p e) ->
                 (e <> None -> absent p = true)
                 /\ (e = None -> returns_address c = true -> absent p = false)).
  { intros f H. injection H as <- <-. split; [intros _; apply none_is_absent|].
    discriminate. }
  destruct (negb (url_Parse_ok w (target c w))); [cbn [fst]; apply Herr|].
  destruct (client_of c) as [client|]; [|discriminate].
  cbn [fst]. rewrite conclude_cases.
  destruct (RoundTrip w _) as [err|res]; [apply Herr|].
  destruct (envelope_of c w (http.RespBody res)) as [err|d] eqn:Hd; [apply Herr|].
  destruct (d_success d); [|apply Herr].
  intros H. injection H as <- <-. split; [intros H; destruct (H eq_refl)|].
  intros _. apply (address_is_not_nil _ _ _ _ Hd).
Qed.

Lemma payload_or_error_witness :
  exists p e,
    (exec (Transactions_Find (Transactions.mk (Some some_client)) "tr_9") []
       (answering 404 not_found) []).1 = Returns (mkReply p e)
    /\ e <> None
    /\ absent p = true.
Proof.
  eexists _, _. split; [vm_compute; reflexivity|]. split; [discriminate|].
  apply (proj1 (payload_or_error
                  (Transactions_Find (Transactions.mk (Some some_client)) "tr_9") []
                  (answering 404 not_found) [] _ _ ltac:(vm_compute; reflexivity))).
  discriminate.
Defined.

Lemma SetClient_Some (s : option Refund.t) (c : option ProcessOut) (x : Refund.t) :
  Refund.SetClient s c = Some x -> Refund.Client x = c.
Proof.
  destruct s as [[cl id tx reason info amount md sb cr]|]; [|discriminate].
  cbn. intros H. injection H as <-. reflexivity.
Qed.

(** X6: the refund that [Refund.Find] returns comes without an error and
    holds the client of the receiver, whatever the response said of a
    client.  That client is not nil, so the refund can be the receiver of
    a call in its turn: neither [Find] nor [Apply] on it panics about
    [NewRefund]. *)
Theorem found_refund_holds_the_client (s : Refund.t) (transactionID refundID : string)
  (options : list Options) (w : World) (sent : list http.Request) (x : Refund.t)
  (e : option failure) :
  (exec (Refund_Find s transactionID refundID) options w sent).1
  = Returns (mkReply (ARefund (Some x)) e) ->
  e = None
  /\ Refund.Client x = Refund.Client s
  /\ Refund.Client x <> None
  /\ forall (c : call) (options' : list Options) (w' : World)
        (sent' : list http.Request),
        (exists t, c = Refund_Apply x t) \/ (exists t r, c = Refund_Find x t r) ->
        (exec c options' w' sent').1 <> Panics (PanicString use_NewRefund).
Proof.
  rewrite run_cases.
  destruct (is_Refund _ && _) eqn:Hguard; [discriminate|].
  destruct (1 <? length options)%nat; [discriminate|].
  destruct (nil_argument _); [discriminate|].
  destruct (negb _); [discriminate|].
  destruct (client_of _) as [client|] eqn:Hclient; [|discriminate].
  cbn [fst]. rewrite conclude_cases.
  destruct (RoundTrip w _) as [err|res]; [discriminate|].
  unfold envelope_of. cbn [row_of r_decode r_none]. unfold full.
  destruct (decode _ _ _ _) as [err|r]; [discriminate|].
  cbn [d_success d_payload]. destruct (Response.Success r); [|discriminate].
  intros H. injection H as H <-. split; [reflexivity|].
  apply SetClient_Some in H.
  assert (Hs : Refund.Client s = Some client) by exact Hclient.
  split; [exact H|]. split; [rewrite H, Hs; discriminate|].
  intros c options' w' sent' Hc. rewrite run_cases.
  assert (Hx : is_Refund c && is_nil (client_of c) = false).
  { destruct Hc as [[t ->]|(t & r' & ->)]; cbn; unfold client_of; cbn;
      rewrite H, Hs; reflexivity. }
  rewrite Hx.
  repeat match goal with
         | |- context [if ?b then _ else _] => destruct b
         | |- context [match ?b with _ => _ end] => destruct b
         end; cbn [fst]; discriminate.
Qed.

Lemma found_refund_holds_the_client_witness :
  exists x,
    (exec (Refund_Find (Refund.mk (Some some_client) "" None "" "" "" None false None)
            "tr_1" "re_1") [] (answering 200 refund_body) []).1
    = Returns (mkReply (ARefund (Some x)) None)
    /\ Refund.ID x = "re_1"
    /\ Refund.Client x = Some some_client
    /\ (exec (Refund_Apply x "tr_1") [] (answering 200 bare_success) []).1
       <> Panics (PanicString use_NewRefund).
Proof.
  eexists. split; [vm_compute; reflexivity|]. split; [reflexivity|].
  pose proof (found_refund_holds_the_client
                (Refund.mk (Some some_client) "" None "" "" "" None false None)
                "tr_1" "re_1" [] (answering 200 refund_body) [] _ None
                ltac:(vm_compute; reflexivity)) as (_ & Hc & _ & Ha).
  split; [exact Hc|].
  apply Ha. left. eexists. reflexivity.
Defined.

(** X7: the bindings of Invoices and TailoredInvoices (and of
    Transactions) never read [Limit], [Page], [EndBefore] and
    [StartAfter]: two options values that agree on [Expand], [Filter],
    [IdempotencyKey] and [DisableLogging] give the same run. *)
Theorem paging_is_read_by_refunds_only (c : call) (o1 o2 : Options) (w : World)
  (sent : list http.Request) :
  is_Refund c = false ->
  Expand o1 = Expand o2 ->
  Filter o1 = Filter o2 ->
  IdempotencyKey o1 = IdempotencyKey o2 ->
  DisableLogging o1 = DisableLogging o2 ->
  exec c [o1] w sent = exec c [o2] w sent.
Proof.
  intros Hr He Hf Hk Hl. rewrite !exec_execute.
  destruct c; try discriminate Hr;
    unfold execute, headers, expand_filter;
    cbn [row_of r_family r_client r_nil_argument r_method r_path r_fields r_none hd];
    unfold expand_filter; rewrite ?He, ?Hf, ?Hk, ?Hl; reflexivity.
Qed.

Lemma paging_is_read_by_refunds_only_witness :
  exec (Invoices_All (Invoices.mk (Some some_client)))
    [mkOptions None "" 10 3 "inv_0" "inv_9" "" false] (answering 200 "") []
  = exec (Invoices_All (Invoices.mk (Some some_client)))
      [mkOptions None "" 0 0 "" "" "" false] (answering 200 "") [].
Proof.
  apply (paging_is_read_by_refunds_only (Invoices_All (Invoices.mk (Some some_client)))
           (mkOptions None "" 10 3 "inv_0" "inv_9" "" false)
           (mkOptions None "" 0 0 "" "" "" false)); reflexivity.
Defined.

Lemma row_of_argument_read (c : call) : row_of (argument_read c) = row_of c.
Proof.
  destruct c; try reflexivity;
    match goal with
    | i : option Invoice.t |- _ => destruct i as [[]|]
    | i : option TailoredInvoice.t |- _ => destruct i as [[]|]
    end; reflexivity.
Qed.

(** X8: of the invoice or tailored invoice it is given, a binding reads
    the ID alone ([Authorize], [Capture], [Customer], [AssignCustomer],
    [CustomerAction], [Transaction], [Void], [TailoredInvoices.Invoice],
    [Delete]), the eight attributes of the body alone ([Create]), or both
    ([Save]); every other field, [Custom] of a tailored invoice among them,
    has no influence on the run. *)
Theorem unread_fields_of_the_argument (c : call) (options : list Options)
  (w : World) (sent : list http.Request) :
  exec c options w sent = exec (argument_read c) options w sent.
Proof. rewrite !exec_execute, row_of_argument_read. reflexivity. Qed.

Lemma row_of_receiver_read (c : call) : row_of (receiver_read c) = row_of c.
Proof. destruct c; try reflexivity; destruct s; reflexivity. Qed.

(** X9: [Refund.Find] reads of its receiver the client alone, and
    [Refund.Apply] the client, [Amount], [Metadata], [Reason] and
    [Information]: the ID, the transaction, [Sandbox] and [CreatedAt] of
    the receiver have no influence on the run. *)
Theorem unread_fields_of_the_refund (c : call) (options : list Options)
  (w : World) (sent : list http.Request) :
  exec c options w sent = exec (receiver_read c) options w sent.
Proof. rewrite !exec_execute, row_of_receiver_read. reflexivity. Qed.


(* ===================================================================== *)
(** ** What the request and the outcome depend on *)
(* ===================================================================== *)

Lemma fields_read (c : call) (o1 o2 : Options) :
  Expand o1 = Expand o2 -> Filter o1 = Filter o2 ->
  Limit o1 = Limit o2 -> Page o1 = Page o2 ->
  EndBefore o1 = EndBefore o2 -> StartAfter o1 = StartAfter o2 ->
  r_fields (row_of c) o1 = r_fields (row_of c) o2.
Proof.
  intros He Hf Hl Hp Hb Ha.
  destruct c; cbn [row_of r_fields]; unfold expand_filter, paging;
    rewrite ?He, ?Hf, ?Hl, ?Hp, ?Hb, ?Ha; reflexivity.
Qed.

(** X10: the idempotency key and the logging flag travel in headers only:
    two options values that agree on the other six fields give requests
    with the same method, URL and body, in every binding. *)
Theorem key_and_flag_stay_out_of_the_body (c : call) (o1 o2 : Options) (w : World)
  (sent : list http.Request) (req1 req2 : http.Request) :
  Expand o1 = Expand o2 -> Filter o1 = Filter o2 ->
  Limit o1 = Limit o2 -> Page o1 = Page o2 ->
  EndBefore o1 = EndBefore o2 -> StartAfter o1 = StartAfter o2 ->
  (exec c [o1] w sent).2 = (sent ++ [req1])%list ->
  (exec c [o2] w sent).2 = (sent ++ [req2])%list ->
  http.Method req1 = http.Method req2
  /\ http.URL req1 = http.URL req2
  /\ http.Body req1 = http.Body req2.
Proof.
  intros He Hf Hl Hp Hb Ha H1 H2.
  apply sent_request in H1 as (client1 & _ & -> & _).
  apply sent_request in H2 as (client2 & _ & -> & _).
  destruct (headers_keep_the_line (r_family (row_of c)) client1 (chosen [o1])
              (http.mkRequest (r_method (row_of c)) (target c w) ∅
                 (json.encode (r_fields (row_of c) (chosen [o1]))))) as (-> & -> & ->).
  destruct (headers_keep_the_line (r_family (row_of c)) client2 (chosen [o2])
              (http.mkRequest (r_method (row_of c)) (target c w) ∅
                 (json.encode (r_fields (row_of c) (chosen [o2]))))) as (-> & -> & ->).
  cbn [http.Method http.URL http.Body chosen hd].
  rewrite (fields_read c o1 o2) by assumption. auto.
Qed.

Lemma key_and_flag_stay_out_of_the_body_witness :
  exists req1 req2,
    (exec (Refund_Apply applied_refund "tr_1")
       [mkOptions None "" 0 0 "" "" "key-1" true] (answering 200 "") []).2 = [req1]
    /\ (exec (Refund_Apply applied_refund "tr_1")
          [mkOptions None "" 0 0 "" "" "" false] (answering 200 "") []).2 = [req2]
    /\ http.Body req1 = http.Body req2.
Proof.
  eexists _, _. split; [vm_compute; reflexivity|]. split; [vm_compute; reflexivity|].
  refine (proj2 (proj2 (key_and_flag_stay_out_of_the_body
                          (Refund_Apply applied_refund "tr_1")
                          (mkOptions None "" 0 0 "" "" "key-1" true)
                          (mkOptions None "" 0 0 "" "" "" false)
                          (answering 200 "") [] _ _ _ _ _ _ _ _ _ _)));
    vm_compute; reflexivity.
Defined.

Lemma refusal_without_status (c : call) (status1 status2 : Z) (d : decoded) :
  is_Refund c = false ->
  refusal (r_family (row_of c)) status1 d = refusal (r_family (row_of c)) status2 d.
Proof. destruct c; try discriminate; reflexivity. Qed.

(** X11: the bindings of Invoices, TailoredInvoices and Transactions never
    read the HTTP status code: two transports that answer the request with
    the same body under different status codes give the same run, error
    value included. *)
Theorem status_code_is_not_read (c : call) (options : list Options) (w : World)
  (rt1 rt2 : http.Request -> error + http.Response) (sent : list http.Request)
  (req : http.Request) (status1 status2 : Z) (body : string) :
  is_Refund c = false ->
  (exec c options (with_transport rt1 w) sent).2 = (sent ++ [req])%list ->
  rt1 req = inr (http.mkResponse status1 body) ->
  rt2 req = inr (http.mkResponse status2 body) ->
  exec c options (with_transport rt1 w) sent = exec c options (with_transport rt2 w) sent.
Proof.
  intros Hr Hsent Hrt1 Hrt2.
  assert (Hsent2 := Hsent).
  rewrite (sent_whatever_the_transport c options w rt1 rt2) in Hsent2.
  apply injective_projections.
  - apply sent_request in Hsent as (client1 & _ & _ & ->).
    apply sent_request in Hsent2 as (client2 & _ & _ & ->).
    unfold conclude. cbn [with_transport RoundTrip time_Parse_ok].
    rewrite Hrt1, Hrt2. cbn [http.RespBody http.StatusCode].
    destruct (r_decode _ _ _) as [err|d]; [reflexivity|].
    rewrite (refusal_without_status c status1 status2 d Hr). reflexivity.
  - apply sent_whatever_the_transport.
Qed.

Lemma status_code_is_not_read_witness :
  exec (Invoices_Find (Invoices.mk (Some some_client)) "inv_9") []
    (with_transport (fun _ => inr (http.mkResponse 404 not_found)) (answering 0 "")) []
  = exec (Invoices_Find (Invoices.mk (Some some_client)) "inv_9") []
      (with_transport (fun _ => inr (http.mkResponse 200 not_found)) (answering 0 "")) [].
Proof.
  refine (status_code_is_not_read
            (Invoices_Find (Invoices.mk (Some some_client)) "inv_9") [] (answering 0 "")
            (fun _ => inr (http.mkResponse 404 not_found))
            (fun _ => inr (http.mkResponse 200 not_found)) [] _ 404 200 not_found
            _ _ _ _);
    vm_compute; reflexivity.
Defined.

(** X13: every request carries the basic authentication of the client's
    project ID and secret, and no header besides [Accept], [API-Version],
    [Authorization], [Content-Type], [Disable-Logging] and
    [Idempotency-Key]. *)
Theorem requests_are_authenticated (c : call) (options : list Options) (w : World)
  (sent : list http.Request) (req : http.Request) :
  (exec c options w sent).2 = (sent ++ [req])%list ->
  (exists client,
      client_of c = Some client
      /\ carried "Authorization" req =
           Some ["Basic " +:+ base64.EncodeToString
                                (projectID client +:+ ":" +:+ projectSecret client)])
  /\ forall key,
       carried key req <> None ->
       In (http.CanonicalMIMEHeaderKey key)
          ["Accept"; "Api-Version"; "Authorization"; "Content-Type";
           "Disable-Logging"; "Idempotency-Key"].
Proof.
  intros H. apply sent_request in H as (client & Hc & -> & _). split.
  - exists client. split; [exact Hc|].
    apply (headers_carried (r_family (row_of c)) client (chosen options)).
  - intros key. unfold headers.
    destruct (r_family (row_of c)),
      (negb (String.eqb (IdempotencyKey (chosen options)) "")),
      (DisableLogging (chosen options));
      rewrite ?carried_SetBasicAuth, ?carried_Header_Set, ?carried_fresh;
      repeat match goal with
        | |- context [decide (?a = ?b)] =>
            destruct (decide (a = b)) as [<-|_];
            [intros _; vm_compute; tauto|]
        end;
      rewrite ?carried_Header_Set, ?carried_fresh;
      repeat match goal with
        | |- context [decide (?a = ?b)] =>
            destruct (decide (a = b)) as [<-|_];
            [intros _; vm_compute; tauto|]
        end;
      try (intros H; destruct (H eq_refl)).
Qed.

Lemma requests_are_authenticated_witness :
  exists req,
    (exec (Transactions_All (Transactions.mk (Some some_client))) []
       (answering 200 "") []).2 = [req]
    /\ carried "Authorization" req = Some ["Basic cHJval8xOmtleV8x"]
    /\ carried "Cookie" req = None.
Proof.
  eexists. split; [vm_compute; reflexivity|].
  pose proof (requests_are_authenticated
                (Transactions_All (Transactions.mk (Some some_client))) []
                (answering 200 "") [] _ ltac:(vm_compute; reflexivity))
    as [(client & Hc & Ha) Hno].
  injection Hc as <-. split; [exact Ha|].
  destruct (carried "Cookie" _) eqn:Hk; [|reflexivity].
  exfalso. specialize (Hno "Cookie"). rewrite Hk in Hno.
  specialize (Hno ltac:(discriminate)). vm_compute in Hno.
  repeat destruct Hno as [Hno|Hno]; try discriminate Hno; exact Hno.
Defined.


(* ===================================================================== *)
(** ** Keys that the response does not have *)
(* ===================================================================== *)

Section MissingKeys.

Context {T : Type} (key : string) (dec : json.value -> T -> D T).

Lemma field_keeps_success (k : string) (v : json.value) (r r' : Response.t T)
  (s : option error) :
  keyIs "success" k = false ->
  Response.field key dec k v r = inr (r', s) ->
  Response.Success r' = Response.Success r.
Proof.
  unfold Response.field. destruct r as [p su me co]. intros Hk H.
  rewrite Hk in H.
  destruct (keyIs key k); [|destruct (keyIs "message" k);
                             [|destruct (keyIs "error_type" k)]];
    invert_bind; reflexivity.
Qed.

Lemma field_keeps_payload (k : string) (v : json.value) (r r' : Response.t T)
  (s : option error) :
  keyIs key k = false ->
  Response.field key dec k v r = inr (r', s) ->
  Response.Payload r' = Response.Payload r.
Proof.
  unfold Response.field. destruct r as [p su me co]. intros Hk H.
  rewrite Hk in H.
  destruct (keyIs "success" k); [|destruct (keyIs "message" k);
                                   [|destruct (keyIs "error_type" k)]];
    invert_bind; reflexivity.
Qed.

Lemma short_keeps_success (k : string) (v : json.value) (r r' : Response.short T)
  (s : option error) :
  keyIs "success" k = false ->
  Response.short_field key dec k v r = inr (r', s) ->
  Response.short_Success r' = Response.short_Success r.
Proof.
  unfold Response.short_field. destruct r as [p su me]. intros Hk H.
  rewrite Hk in H.
  destruct (keyIs key k); [|destruct (keyIs "message" k)];
    invert_bind; reflexivity.
Qed.

Lemma short_keeps_payload (k : string) (v : json.value) (r r' : Response.short T)
  (s : option error) :
  keyIs key k = false ->
  Response.short_field key dec k v r = inr (r', s) ->
  Response.short_Payload r' = Response.short_Payload r.
Proof.
  unfold Response.short_field. destruct r as [p su me]. intros Hk H.
  rewrite Hk in H.
  destruct (keyIs "success" k); [|destruct (keyIs "message" k)];
    invert_bind; reflexivity.
Qed.

(** a projection that every store into an object without the key keeps *)
Lemma members_keep {A B} (field : string -> json.value -> A -> D A) (proj : A -> B)
  (name : string) :
  (forall k v r r' s, keyIs name k = false -> field k v r = inr (r', s) ->
                      proj r' = proj r) ->
  forall l r r' s,
    without_key name l -> members field l r = inr (r', s) -> proj r' = proj r.
Proof.
  intros Hstep l. induction l as [|[k v] l IH]; intros r r' s Hl H; cbn in H.
  - invert_bind. reflexivity.
  - apply D_bind_inr in H as (r1 & s1 & s2 & H1 & H & _).
    inversion Hl as [|? ? Hk Hl']; subst. cbn in Hk.
    rewrite (IH _ _ _ Hl' H). exact (Hstep _ _ _ _ _ Hk H1).
Qed.

Lemma decode_keeps {A B} (field : string -> json.value -> A -> D A) (proj : A -> B)
  (name : string) (zero : A) (body : string) (l : list (string * json.value))
  (r : A) :
  (forall k v r r' s, keyIs name k = false -> field k v r = inr (r', s) ->
                      proj r' = proj r) ->
  json.readValue body = inr (json.Object l) ->
  without_key name l ->
  decode "Response" field zero body = inr r ->
  proj r = proj zero.
Proof.
  intros Hstep Hbody Hl. unfold decode. rewrite Hbody.
  unfold unmarshal.run, struct_.
  destruct (members field l zero) as [err|[r0 [err|]]] eqn:Hm; try discriminate.
  intros H. injection H as <-. exact (members_keep field proj name Hstep _ _ _ _ Hl Hm).
Qed.

End MissingKeys.

Lemma bare_keeps_success (k : string) (v : json.value) (r r' : Response.t unit)
  (s : option error) :
  keyIs "success" k = false ->
  Response.bare k v r = inr (r', s) ->
  Response.Success r' = Response.Success r.
Proof.
  unfold Response.bare. destruct r as [p su me co]. intros Hk H.
  rewrite Hk in H.
  destruct (keyIs "message" k); [|destruct (keyIs "error_type" k)];
    invert_bind; reflexivity.
Qed.

Lemma no_success_key (c : call) (w : World) (body : string)
  (l : list (string * json.value)) (d : decoded) :
  json.readValue body = inr (json.Object l) ->
  without_key "success" l ->
  envelope_of c w body = inr d ->
  d_success d = false.
Proof.
  intros Hbody Hl. unfold envelope_of.
  destruct c; cbn [row_of r_decode];
    unfold decode_bare, decode_invoice, decode_tailored, decode_customer, full, short;
    match goal with
    | |- match ?x with _ => _ end = _ -> _ =>
        destruct x as [err|r] eqn:Hr; [discriminate|]
    end;
    intros H; injection H as <-; cbn [d_success];
    first
      [ exact (decode_keeps _ Response.Success "success" _ _ _ _
                 (field_keeps_success _ _) Hbody Hl Hr)
      | exact (decode_keeps _ Response.short_Success "success" _ _ _ _
                 (short_keeps_success _ _) Hbody Hl Hr)
      | exact (decode_keeps _ Response.Success "success" _ _ _ _
                 bare_keeps_success Hbody Hl Hr) ].
Qed.

Lemma null_body (c : call) (w : World) (body : string) (d : decoded) :
  json.readValue body = inr json.Null ->
  envelope_of c w body = inr d ->
  d_success d = false.
Proof.
  intros Hbody. unfold envelope_of.
  destruct c; cbn [row_of r_decode];
    unfold decode_bare, decode_invoice, decode_tailored, decode_customer, full, short,
      decode; rewrite Hbody; cbn; intros H; injection H as <-; reflexivity.
Qed.

(** X14: success has to be said.  When the response body is the JSON
    [null], or an object none of whose keys is [success] (in any case of
    the letters), the call returns an error and no payload, whatever else
    the body holds. *)
Theorem success_has_to_be_said (c : call) (options : list Options) (w : World)
  (sent : list http.Request) (req : http.Request) (status : Z) (body : string) :
  (exec c options w sent).2 = (sent ++ [req])%list ->
  RoundTrip w req = inr (http.mkResponse status body) ->
  json.readValue body = inr json.Null
  \/ (exists l, json.readValue body = inr (json.Object l) /\ without_key "success" l) ->
  exists p f,
    (exec c options w sent).1 = Returns (mkReply p (Some f)) /\ absent p = true.
Proof.
  intros Hsent Hrt Hbody.
  apply sent_request in Hsent as (client & _ & _ & ->).
  rewrite conclude_cases, Hrt. cbn [http.RespBody].
  destruct (envelope_of c w body) as [err|d] eqn:Hd.
  - eexists _, _. split; [reflexivity | apply none_is_absent].
  - assert (Hs : d_success d = false).
    { destruct Hbody as [Hn|(l & Ho & Hl)];
        [exact (null_body _ _ _ _ Hn Hd) | exact (no_success_key _ _ _ _ _ Ho Hl Hd)]. }
    rewrite Hs. eexists _, _. split; [reflexivity | apply none_is_absent].
Qed.

Lemma success_has_to_be_said_witness :
  exists p f,
    (exec (Invoices_Find (Invoices.mk (Some some_client)) "inv_123") []
       (answering 200 only_an_invoice) []).1 = Returns (mkReply p (Some f))
    /\ absent p = true.
Proof.
  refine (success_has_to_be_said
            (Invoices_Find (Invoices.mk (Some some_client)) "inv_123") []
            (answering 200 only_an_invoice) [] _ 200 only_an_invoice _ _
            (or_intror (ex_intro _ _ (conj _ _)))).
  - vm_compute. reflexivity.
  - vm_compute. reflexivity.
  - vm_compute. reflexivity.
  - repeat constructor.
Defined.

Lemma no_payload_key (c : call) (w : World) (body : string)
  (l : list (string * json.value)) (d : decoded) (key : string) :
  json.readValue body = inr (json.Object l) ->
  payload_key c = Some key ->
  without_key key l ->
  envelope_of c w body = inr d ->
  d_payload d = untouched_payload c.
Proof.
  intros Hbody Hkey Hl. unfold envelope_of.
  destruct c; try discriminate Hkey; injection Hkey as <-; cbn [row_of r_decode];
    unfold decode_invoice, decode_tailored, decode_customer, full, short;
    match goal with
    | |- match ?x with _ => _ end = _ -> _ =>
        destruct x as [err|r] eqn:Hr; [discriminate|]
    end;
    intros H; injection H as <-; cbn [d_payload untouched_payload];
    first
      [ rewrite (decode_keeps _ Response.Payload _ _ _ _ _
                   (field_keeps_payload _ _) Hbody Hl Hr)
      | rewrite (decode_keeps _ Response.short_Payload _ _ _ _ _
                   (short_keeps_payload _ _) Hbody Hl Hr) ];
    reflexivity.
Qed.

(** X15: when a response reports success and has no key for the payload,
    the call returns no error and what the untouched envelope struct
    holds: a nil slice from the [All] bindings, a nil refund from
    [Refund.Find] (so both results are nil), and a zero-valued resource
    from the bindings that return the address of the decoded struct. *)
Theorem payload_key_missing (c : call) (options : list Options) (w : World)
  (sent : list http.Request) (req : http.Request) (status : Z) (body : string)
  (l : list (string * json.value)) (d : decoded) (key : string) :
  (exec c options w sent).2 = (sent ++ [req])%list ->
  RoundTrip w req = inr (http.mkResponse status body) ->
  json.readValue body = inr (json.Object l) ->
  payload_key c = Some key ->
  without_key key l ->
  envelope_of c w body = inr d ->
  d_success d = true ->
  (exec c options w sent).1 = Returns (mkReply (untouched_payload c) None)
  /\ (returns_field c = true -> absent (untouched_payload c) = true)
  /\ (returns_address c = true -> absent (untouched_payload c) = false).
Proof.
  intros Hsent Hrt Hbody Hkey Hl Hd Hs.
  apply sent_request in Hsent as (client & _ & _ & ->).
  rewrite conclude_cases, Hrt. cbn [http.RespBody]. rewrite Hd, Hs.
  rewrite (no_payload_key _ _ _ _ _ _ Hbody Hkey Hl Hd).
  split; [reflexivity|]. split; destruct c; try discriminate; reflexivity.
Qed.

Lemma payload_key_missing_witness :
  (exec (Refund_Find (Refund.mk (Some some_client) "" None "" "" "" None false None)
          "tr_1" "re_1") [] (answering 200 bare_success) []).1
  = Returns (mkReply (ARefund None) None).
Proof.
  refine (proj1 (payload_key_missing
                   (Refund_Find (Refund.mk (Some some_client) "" None "" "" "" None
                                   false None) "tr_1" "re_1")
                   [] (answering 200 bare_success) [] _ 200 bare_success
                   [("success", json.Bool true)]
                   (mkDecoded true "" "" (ARefund None)) "refund" _ _ _ _ _ _ _));
    try (vm_compute; reflexivity).
  repeat constructor.
Defined.


(* ===================================================================== *)
(** ** Identifiers can be read back from the path *)
(* ===================================================================== *)

Lemma unescape_escaped_byte (c : ascii) (s rest : string) :
  url.escape (String c s) = rest ->
  url_QueryUnescape rest = String c <$> url_QueryUnescape (url.escape s).
Proof.
  intros <-.
  destruct c as [[] [] [] [] [] [] [] []]; reflexivity.
Qed.

Lemma QueryUnescape_QueryEscape (s : string) :
  url_QueryUnescape (url.QueryEscape s) = Some s.
Proof.
  unfold url.QueryEscape. induction s as [|c s IH]; [reflexivity|].
  rewrite (unescape_escaped_byte c s _ eq_refl), IH. reflexivity.
Qed.

Lemma QueryEscape_inj (a b : string) : url.QueryEscape a = url.QueryEscape b -> a = b.
Proof.
  intros H. apply (f_equal url_QueryUnescape) in H.
  rewrite !QueryUnescape_QueryEscape in H. congruence.
Qed.

Lemma append_inv_head (h a b : string) : h +:+ a = h +:+ b -> a = b.
Proof.
  induction h as [|c h IH]; [trivial|]. simpl. intros H. injection H as H. auto.
Qed.

(** two segments followed by the rest of a path *)
Lemma segment_split (a : string) :
  forall b x y : string,
    slashes a = 0%nat -> slashes b = 0%nat ->
    (x = "" \/ exists x', x = String "/" x') ->
    (y = "" \/ exists y', y = String "/" y') ->
    a +:+ x = b +:+ y -> a = b /\ x = y.
Proof.
  induction a as [|c a IH]; intros b x y Ha Hb Hx Hy H.
  - destruct b as [|d b]; [simpl in H; auto|].
    simpl in H. exfalso. destruct Hx as [->|[x' ->]]; [discriminate H|].
    injection H as <- _. simpl in Hb. discriminate Hb.
  - destruct b as [|d b].
    + simpl in H. exfalso. destruct Hy as [->|[y' ->]]; [discriminate H|].
      injection H as -> _. simpl in Ha. discriminate Ha.
    + simpl in H. injection H as <- H. simpl in Ha, Hb.
      destruct (Bytes.eqb c "/"); [discriminate Ha|].
      destruct (IH b x y Ha Hb Hx Hy H) as [-> ->]. auto.
Qed.

Lemma render_starts (t : list piece) :
  render t = "" \/ exists x, render t = String "/" x.
Proof. destruct t; [left; reflexivity | right; eexists; reflexivity]. Qed.

Lemma segment_has_no_slash (p : piece) : one_segment p -> slashes (segment p) = 0%nat.
Proof.
  destruct p as [word|id]; [trivial|]. intros _.
  apply segment_bytes_no_slash, QueryEscape_bytes.
Qed.

Lemma render_inj (t1 : list piece) :
  forall t2, shape t1 = shape t2 ->
             Forall one_segment t1 -> Forall one_segment t2 ->
             render t1 = render t2 -> t1 = t2.
Proof.
  induction t1 as [|p1 t1 IH]; intros [|p2 t2] Hs H1 H2 H; try discriminate Hs;
    [reflexivity|].
  inversion H1 as [|? ? Hp1 Ht1]; inversion H2 as [|? ? Hp2 Ht2]; subst.
  cbn [shape map] in Hs. injection Hs as Hp Hs.
  cbn [render] in H.
  change ("/" +:+ segment p1 +:+ render t1) with (String "/" (segment p1 +:+ render t1)) in H.
  change ("/" +:+ segment p2 +:+ render t2) with (String "/" (segment p2 +:+ render t2)) in H.
  injection H as H.
  apply segment_split in H as [Hseg Hrest];
    auto using segment_has_no_slash, render_starts.
  rewrite (IH t2 Hs Ht1 Ht2 Hrest). f_equal.
  destruct p1 as [w1|a], p2 as [w2|b]; try discriminate Hp; cbn [segment] in Hseg.
  - congruence.
  - rewrite (QueryEscape_inj a b Hseg). reflexivity.
Qed.

Lemma template_words (c : call) : Forall one_segment (template c).
Proof. destruct c; repeat constructor. Qed.

(** X16: nothing of an identifier is lost in the path.  [url.QueryEscape]
    can be undone, and an escaped identifier has no [/]: so two requests
    of the same path pattern (of the same binding, say) to the same host
    have the same URL only when every identifier is the same. *)
Theorem paths_tell_identifiers_apart (c1 c2 : call) (options1 options2 : list Options)
  (w : World) (sent1 sent2 : list http.Request) (req1 req2 : http.Request) :
  (exec c1 options1 w sent1).2 = (sent1 ++ [req1])%list ->
  (exec c2 options2 w sent2).2 = (sent2 ++ [req2])%list ->
  shape (template c1) = shape (template c2) ->
  http.URL req1 = http.URL req2 ->
  template c1 = template c2
  /\ forall id, In (Ident id) (template c1) ->
                url_QueryUnescape (url.QueryEscape id) = Some id.
Proof.
  intros H1 H2 Hs Hurl.
  apply sent_request in H1 as (client1 & _ & -> & _).
  apply sent_request in H2 as (client2 & _ & -> & _).
  rewrite !(proj1 (proj2 (headers_keep_the_line _ _ _ _))) in Hurl.
  cbn [http.URL] in Hurl. unfold target in Hurl. rewrite !path_is_template in Hurl.
  apply append_inv_head in Hurl.
  split; [|intros id _; apply QueryUnescape_QueryEscape].
  apply render_inj; auto using template_words.
Qed.

Lemma paths_tell_identifiers_apart_witness :
  template (Refund_Find applied_refund "tr/1" "re 1")
  = template (Refund_Find (Refund.mk (Some some_client) "" None "" "" "" None false None)
                "tr/1" "re 1").
Proof.
  refine (proj1 (paths_tell_identifiers_apart
                   (Refund_Find applied_refund "tr/1" "re 1")
                   (Refund_Find (Refund.mk (Some some_client) "" None "" "" "" None
                                   false None) "tr/1" "re 1")
                   [] [Options_zero] (answering 200 "") [] [] _ _ _ _ _ _));
    vm_compute; reflexivity.
Defined.


(** X17: a call that panics has sent nothing, and a call that has sent its
    request returns: no panic follows the request. *)
Theorem panics_send_nothing (c : call) (options : list Options) (w : World)
  (sent : list http.Request) :
  (forall v, (exec c options w sent).1 = Panics v -> (exec c options w sent).2 = sent)
  /\ (forall req, (exec c options w sent).2 = (sent ++ [req])%list ->
                  exists r, (exec c options w sent).1 = Returns r).
Proof.
  split.
  - intros v. rewrite run_cases.
    repeat match goal with
           | |- context [if ?x then _ else _] => destruct x
           | |- context [match ?x with _ => _ end] => destruct x
           end; cbn [fst snd]; try reflexivity; discriminate.
  - intros req H. apply sent_request in H as (client & _ & _ & ->). eauto.
Qed.

Lemma panics_send_nothing_witness :
  (exec (Invoices_Void (Invoices.mk (Some some_client)) None) [] (answering 200 "") []).2
  = []
  /\ exists r,
       (exec (Invoices_Void (Invoices.mk (Some some_client)) (Some Invoice.zero)) []
          (answering 200 "") []).1 = Returns r.
Proof.
  split.
  - apply (proj1 (panics_send_nothing
                    (Invoices_Void (Invoices.mk (Some some_client)) None) []
                    (answering 200 "") []) NilDereference).
    vm_compute. reflexivity.
  - eapply (proj2 (panics_send_nothing
                     (Invoices_Void (Invoices.mk (Some some_client)) (Some Invoice.zero))
                     [] (answering 200 "") [])).
    vm_compute. reflexivity.
Defined.
